(** * Gradebook teaching database: a shallow embedding of demo.py,
    src/exercises.py and src/homework.py.

    The three scripts drive an embedded SQL engine through a connection of
    Python's [sqlite3] module.  Every SQL statement of the scripts is
    rendered as a function on the tables it reads or writes; the Python
    functions are computations in a state-and-exception monad over the
    connection.

    Conventions of the model:
    - an INTEGER column and a Python [int] are a [Z]; the engine holds the
      signed 64-bit integers, and the module refuses to bind an [int]
      outside that range ([OverflowError]);
    - a TEXT column and a Python [str] are a [string], the UTF-8 encoding
      of the text; TEXT is compared with the engine's default BINARY
      collation, [String.compare], and [len] counts the code points;
    - a REAL is an IEEE binary64 number, a primitive [float]; SQL NULL is
      [None];
    - a table keeps its rows in rowid order together with its entry of
      [sqlite_sequence] (the tables are all AUTOINCREMENT);
    - [datetime('now')] is an input of the statement that evaluates it. *)

From Stdlib Require Import ZArith List String Ascii Bool Lia.
From Stdlib Require Import Sorting.Sorted Sorting.Permutation.
From Stdlib Require Import Floats.
Import ListNotations.

Local Open Scope Z_scope.

(** ** Exceptions and the connection monad *)

(** The exceptions the scripts can meet: [sqlite3.IntegrityError] (a
    constraint fails), [sqlite3.OperationalError] (no such table, table
    already exists, misuse of BEGIN/COMMIT/ROLLBACK), Python's
    [AssertionError], the [IndexError] of [sqlite3.Row.__getitem__], the
    [KeyError] of a dict and the [OverflowError] of an [int] that does
    not fit a 64-bit INTEGER.  [DatabaseFull] is the way a statement ends
    when an AUTOINCREMENT table has no rowid left (SQLITE_FULL); no
    Python code sees it: [execute_dml] raises it as an OperationalError,
    "database or disk is full". *)
Inductive exn : Type :=
| IntegrityError
| OperationalError
| AssertionError
| IndexError
| KeyError
| OverflowError
| DatabaseFull.

Definition exn_eqb (a b : exn) : bool :=
  match a, b with
  | IntegrityError, IntegrityError
  | OperationalError, OperationalError
  | AssertionError, AssertionError
  | IndexError, IndexError
  | KeyError, KeyError
  | OverflowError, OverflowError
  | DatabaseFull, DatabaseFull => true
  | _, _ => false
  end.

Inductive outcome (A : Type) : Type :=
| Ok (a : A)
| Raise (e : exn).
Arguments Ok {A} a.
Arguments Raise {A} e.

(** A computation over a state [S]: it returns or raises, and leaves a
    state behind in both cases. *)
Definition M (S A : Type) : Type := S -> outcome A * S.

Definition ret {S A : Type} (a : A) : M S A := fun s => (Ok a, s).

Definition bind {S A B : Type} (m : M S A) (k : A -> M S B) : M S B :=
  fun s =>
    match m s with
    | (Ok a, s') => k a s'
    | (Raise e, s') => (Raise e, s')
    end.

Definition raise {S A : Type} (e : exn) : M S A := fun s => (Raise e, s).

(** [try: body except caught: handler]. *)
Definition try_except {S A : Type} (body : M S A) (caught : exn)
  (handler : M S A) : M S A :=
  fun s =>
    match body s with
    | (Ok a, s') => (Ok a, s')
    | (Raise e, s') => if exn_eqb e caught then handler s' else (Raise e, s')
    end.

Declare Scope monad_scope.
Delimit Scope monad_scope with monad.
Notation "x <- m ;; k" := (bind m (fun x => k))
  (at level 61, m at next level, right associativity) : monad_scope.
Notation "m ;;; k" := (bind m (fun _ => k))
  (at level 61, right associativity) : monad_scope.

(** ** Tables *)

(** A table with an INTEGER PRIMARY KEY AUTOINCREMENT column: the columns
    its CREATE TABLE declared, its rows in rowid order, its entry of
    [sqlite_sequence] ([0] before the first insert) and the names of the
    indexes created on it with CREATE INDEX. *)
Record table (R : Type) : Type := mkTable {
  columns : list string;
  rows : list R;
  seq : Z;
  indexes : list string
}.
Arguments mkTable {R} columns rows seq indexes.
Arguments columns {R} t.
Arguments rows {R} t.
Arguments seq {R} t.
Arguments indexes {R} t.

Definition empty_table {R : Type} (cols : list string) : table R :=
  mkTable cols [] 0 [].

Definition max_rowid (ids : list Z) : Z := fold_right Z.max 0 ids.

(** A Python [int] that the module can bind to a parameter: a signed
    64-bit integer. *)
Definition int64 (z : Z) : bool := (- 2 ^ 63 <=? z) && (z <=? 2 ^ 63 - 1).

(** The largest rowid. *)
Definition rowid_limit : Z := 2 ^ 63 - 1.

(** An AUTOINCREMENT table has a rowid left for an INSERT: neither a row
    nor its entry of [sqlite_sequence] has reached the largest one. *)
Definition has_room {R : Type} (rowid : R -> Z) (t : table R) : bool :=
  Z.max (max_rowid (map rowid (rows t))) (seq t) <? rowid_limit.

(** AUTOINCREMENT: one more than the largest rowid the table has or ever
    had. *)
Definition next_rowid {R : Type} (rowid : R -> Z) (t : table R) : Z :=
  Z.max (max_rowid (map rowid (rows t))) (seq t) + 1.

Definition append_row {R : Type} (t : table R) (id : Z) (r : R) : table R :=
  mkTable (columns t) (rows t ++ [r]) id (indexes t).

Definition set_rows {R : Type} (t : table R) (l : list R) : table R :=
  mkTable (columns t) l (seq t) (indexes t).

(** ** Connections *)

Section Connection.
Variable D : Type.

(** A connection: the content of the database as this connection sees
    it, the content a ROLLBACK would restore when a transaction is open,
    and the foreign_keys pragma. *)
Record connection : Type := mkConn {
  data : D;
  txn : option D;
  foreign_keys : bool
}.

(** [sqlite3.connect] followed by [PRAGMA foreign_keys = ON]. *)
Definition connect (file : D) : connection := mkConn file None true.

Definition in_transaction (c : connection) : bool :=
  match txn c with Some _ => true | None => false end.

(** [conn.execute] of a SELECT: the statement reads the content. *)
Definition execute_select {A : Type} (q : D -> outcome A) : M connection A :=
  fun c => (q (data c), c).

(** [conn.execute] of an INSERT, UPDATE or DELETE.  A statement that
    cannot be prepared (OperationalError: a table is missing) leaves the
    connection as it is.  Otherwise the module opens a transaction first
    when none is open, and a statement that fails (a constraint, a
    parameter that cannot be bound) is undone alone: the transaction
    stays open with the earlier writes.  When the engine has no rowid
    left it rolls the whole transaction back and ends it, and the module
    raises OperationalError. *)
Definition execute_dml {A : Type} (stmt : bool -> D -> outcome (A * D))
  : M connection A :=
  fun c =>
    let t := match txn c with Some d0 => Some d0 | None => Some (data c) end in
    match stmt (foreign_keys c) (data c) with
    | Ok (a, d') => (Ok a, mkConn d' t (foreign_keys c))
    | Raise OperationalError => (Raise OperationalError, c)
    | Raise DatabaseFull =>
        (Raise OperationalError,
         mkConn (match txn c with Some d0 => d0 | None => data c end) None
           (foreign_keys c))
    | Raise e => (Raise e, mkConn (data c) t (foreign_keys c))
    end.

(** [conn.execute("BEGIN;")]. *)
Definition execute_begin : M connection unit :=
  fun c =>
    match txn c with
    | Some _ => (Raise OperationalError, c)
    | None => (Ok tt, mkConn (data c) (Some (data c)) (foreign_keys c))
    end.

(** [conn.execute("COMMIT;")]. *)
Definition execute_commit : M connection unit :=
  fun c =>
    match txn c with
    | Some _ => (Ok tt, mkConn (data c) None (foreign_keys c))
    | None => (Raise OperationalError, c)
    end.

(** [conn.execute("ROLLBACK;")]. *)
Definition execute_rollback : M connection unit :=
  fun c =>
    match txn c with
    | Some d0 => (Ok tt, mkConn d0 None (foreign_keys c))
    | None => (Raise OperationalError, c)
    end.

(** [conn.commit()]: commits when a transaction is open, else nothing. *)
Definition commit : M connection unit :=
  fun c => (Ok tt, mkConn (data c) None (foreign_keys c)).

(** One statement of a script, run in autocommit mode. *)
Fixpoint run_script (stmts : list (bool -> D -> outcome D)) (fk : bool) (d : D)
  : outcome unit * D :=
  match stmts with
  | [] => (Ok tt, d)
  | stmt :: rest =>
      match stmt fk d with
      | Ok d' => run_script rest fk d'
      | Raise e => (Raise e, d)
      end
  end.

(** [conn.executescript]: commits a pending transaction, then runs the
    statements one by one; each is committed as it ends, and the first
    failure stops the script. *)
Definition executescript (stmts : list (bool -> D -> outcome D))
  : M connection unit :=
  fun c =>
    let (r, d') := run_script stmts (foreign_keys c) (data c) in
    (r, mkConn d' None (foreign_keys c)).
End Connection.

Arguments mkConn {D} data txn foreign_keys.
Arguments data {D} c.
Arguments txn {D} c.
Arguments foreign_keys {D} c.
Arguments connect {D} file.
Arguments in_transaction {D} c.
Arguments execute_select {D A} q.
Arguments execute_dml {D A} stmt.
Arguments execute_begin {D}.
Arguments execute_commit {D}.
Arguments execute_rollback {D}.
Arguments commit {D}.
Arguments run_script {D} stmts fk d.
Arguments executescript {D} stmts.

(** ** ORDER BY *)

Section OrderBy.
Context {A : Type}.
Variable leb : A -> A -> bool.

Fixpoint insert_sorted (x : A) (l : list A) : list A :=
  match l with
  | [] => [x]
  | y :: l' => if leb x y then x :: l else y :: insert_sorted x l'
  end.

(** The rows of a result ordered by [leb]; rows that tie keep the order
    the scan produced them in. *)
Fixpoint order_by (l : list A) : list A :=
  match l with
  | [] => []
  | x :: l' => insert_sorted x (order_by l')
  end.
End OrderBy.

(** TEXT keys: [a <= b] in the BINARY collation. *)
Definition text_leb (a b : string) : bool := String.leb a b.

(** ORDER BY k1, k2 on two TEXT keys. *)
Definition text2_leb (a b : string * string) : bool :=
  match String.compare (fst a) (fst b) with
  | Lt => true
  | Eq => String.leb (snd a) (snd b)
  | Gt => false
  end.

(** ** REAL values *)

(** A REAL or NULL. *)
Definition real : Type := option float.

(** An INTEGER read as a REAL. *)
Definition real_of_int (z : Z) : float :=
  SF2Prim (binary_normalize prec emax z 0 false).

(** [x / y] with a REAL [x] and an INTEGER [y]: NULL when [y] is zero. *)
Definition sql_div (x : real) (y : Z) : real :=
  match x with
  | None => None
  | Some a => if y =? 0 then None else Some (a / real_of_int y)%float
  end.

(** [x * y] with a REAL [x] and an INTEGER [y]. *)
Definition sql_mul (x : real) (y : Z) : real :=
  option_map (fun a => (a * real_of_int y)%float) x.

Definition non_null (l : list real) : list float :=
  flat_map (fun x => match x with Some a => [a] | None => [] end) l.

(** [AVG]: the sum of the values that are not NULL, accumulated in row
    order, over their number; NULL when there is none. *)
Definition sql_avg (l : list real) : real :=
  match non_null l with
  | [] => None
  | vs =>
      Some (fold_left PrimFloat.add vs 0 / real_of_int (Z.of_nat (List.length vs)))%float
  end.

(** [floor (10 * v + 1/2)] for [v = m * 2^e]: the tenths in [v] rounded to
    one decimal digit, halves away from zero. *)
Definition tenths_half_away (m : positive) (e : Z) : Z :=
  if 0 <=? e then 10 * Z.pos m * 2 ^ e
  else (20 * Z.pos m + 2 ^ (- e)) / 2 ^ (- e + 1).

(** [ROUND(x, 1)] on a REAL: [x] rounded to one digit to the right of the
    decimal point, halves away from zero, as the nearest binary64 number;
    a number too large to have such a digit is left as it is.  (On a
    value within a few units in the last place of a half-way point the
    versions of the engine do not agree; nothing below is stated about
    such a value.) *)
Definition round1 (x : float) : float :=
  match Prim2SF x with
  | S754_finite s m e =>
      let k := tenths_half_away m e in
      if 2 ^ 53 <=? k then x
      else
        let r := (real_of_int k / 10)%float in
        if s then (- r)%float else r
  | _ => x
  end.

Definition sql_round1 (x : real) : real := option_map round1 x.

(** The values on which the versions of the engine agree with [round1]:
    below 2^40 in size, and not within 10^-15 of their size under a
    half-way point between two tenths.  With [v = m * 2^e], [10 * v] is
    [10 * m / d] for [d = 2^(-e)]. *)
Definition clear_of_ties (x : float) : bool :=
  match Prim2SF x with
  | S754_zero _ => true
  | S754_finite _ m e =>
      if 0 <=? e then Z.pos m * 2 ^ e <? 2 ^ 40
      else
        let d := 2 ^ (- e) in
        let r := (10 * Z.pos m) mod d in
        (Z.pos m <? 2 ^ 40 * d)
        && ((d <=? 2 * r) || (20 * Z.pos m <=? (d - 2 * r) * 10 ^ 15))
  | _ => false
  end.

Definition sql_clear_of_ties (x : real) : bool :=
  match x with Some a => clear_of_ties a | None => true end.

(** [a < b] as ORDER BY compares REAL values: NULL is below every number. *)
Definition real_ltb (a b : real) : bool :=
  match a, b with
  | None, Some _ => true
  | Some x, Some y => PrimFloat.ltb x y
  | _, None => false
  end.

(** ORDER BY ... DESC on a REAL key: [a] may stand before [b]. *)
Definition real_desc_leb (a b : real) : bool := negb (real_ltb a b).

(** ** Rows as Python sees them, and the formatter [print_rows] *)

(** The types of value a column of a [sqlite3.Row] holds. *)
Inductive sql_value : Type :=
| SqlNull
| SqlInt (z : Z)
| SqlReal (x : float)
| SqlText (s : string).

Definition value_of_real (x : real) : sql_value :=
  match x with Some a => SqlReal a | None => SqlNull end.

Definition repeat_string (s : string) (n : nat) : string :=
  String.concat EmptyString (repeat s n).

(** A byte that starts a code point of a UTF-8 text: any byte but a
    continuation byte, 128 to 191. *)
Definition starts_code_point (a : ascii) : bool :=
  let n := nat_of_ascii a in negb (Nat.leb 128 n && Nat.leb n 191).

(** [len(s)]: the number of code points of the text. *)
Fixpoint len (s : string) : nat :=
  match s with
  | EmptyString => 0
  | String a s' => (if starts_code_point a then 1 else 0) + len s'
  end.

(** [s.isascii()]. *)
Fixpoint is_ascii (s : string) : bool :=
  match s with
  | EmptyString => true
  | String a s' => Nat.ltb (nat_of_ascii a) 128 && is_ascii s'
  end.

(** [s.ljust(w)]: [s] followed by spaces up to the length [w]. *)
Definition ljust (s : string) (w : nat) : string :=
  String.append s (repeat_string " " (w - len s)).

Definition ascii_lower (a : ascii) : ascii :=
  let n := nat_of_ascii a in
  if (Nat.leb 65 n && Nat.leb n 90)%bool then ascii_of_nat (n + 32) else a.

Fixpoint string_lower (s : string) : string :=
  match s with
  | EmptyString => EmptyString
  | String a s' => String (ascii_lower a) (string_lower s')
  end.

Fixpoint all_some {A : Type} (l : list (option A)) : option (list A) :=
  match l with
  | [] => Some []
  | None :: _ => None
  | Some a :: l' =>
      match all_some l' with Some r => Some (a :: r) | None => None end
  end.

Section Formatter.
(** The values of a row and Python's [str] on them. *)
Context {V : Type}.
Variable str : V -> string.

(** A [sqlite3.Row]: the columns of the query in order, with their
    values. *)
Definition row : Type := list (string * V).

(** [r.keys()]. *)
Definition keys (r : row) : list string := map fst r.

(** A column named [k] answers to the key [c]: the two are equal, or
    both are ASCII and equal up to the case of the letters. *)
Definition key_matches (k c : string) : bool :=
  String.eqb k c
  || (is_ascii k && is_ascii c
      && String.eqb (string_lower k) (string_lower c)).

(** [r[c]]: the first column that answers to [c]; [None] stands for the
    [IndexError]. *)
Fixpoint getitem (r : row) (c : string) : option V :=
  match r with
  | [] => None
  | (k, v) :: r' => if key_matches k c then Some v else getitem r' c
  end.

(** [str(r[c])]. *)
Definition cell (c : string) (r : row) : option string :=
  option_map str (getitem r c).

(** [max(len(c), max(len(str(r[c])) for r in rows))]. *)
Definition width (rws : list row) (c : string) : option nat :=
  option_map
    (fun cells => Nat.max (len c) (list_max (map len cells)))
    (all_some (map (cell c) rws)).

(** The dict [widths]. *)
Definition widths (cols : list string) (rws : list row)
  : option (list (string * nat)) :=
  all_some (map (fun c => option_map (pair c) (width rws c)) cols).

(** [widths[c]]. *)
Definition width_of (ws : list (string * nat)) (c : string) : nat :=
  match find (fun p => String.eqb (fst p) c) ws with
  | Some p => snd p
  | None => 0
  end.

Definition header_line (cols : list string) (ws : list (string * nat)) : string :=
  String.concat " | " (map (fun c => ljust c (width_of ws c)) cols).

Definition separator_line (cols : list string) (ws : list (string * nat)) : string :=
  String.concat "-+-" (map (fun c => repeat_string "-" (width_of ws c)) cols).

Definition row_line (cols : list string) (ws : list (string * nat)) (r : row)
  : option string :=
  option_map (String.concat " | ")
    (all_some (map (fun c => option_map (fun s => ljust s (width_of ws c)) (cell c r))
                   cols)).

(** The loop [for r in rows: print(...)]: what it prints, and how it
    ends. *)
Fixpoint print_body (cols : list string) (ws : list (string * nat))
  (rws : list row) : list string * outcome unit :=
  match rws with
  | [] => ([], Ok tt)
  | r :: rest =>
      match row_line cols ws r with
      | None => ([], Raise IndexError)
      | Some line =>
          let (out, res) := print_body cols ws rest in (line :: out, res)
      end
  end.

Definition banner (title : string) : list string :=
  [String.append (String "010" EmptyString) (repeat_string "=" 80);
   title;
   repeat_string "-" 80].

(** [print_rows(title, rows)]: the arguments of its calls of [print] in
    order, and how it ends.  The three scripts define it with the same
    body (demo.py materialises [rows] after the banner, the others
    before). *)
Definition print_rows (title : string) (rws : list row)
  : list string * outcome unit :=
  match rws with
  | [] => (banner title ++ ["(no rows)"%string], Ok tt)
  | r0 :: _ =>
      let cols := keys r0 in
      match widths cols rws with
      | None => (banner title, Raise IndexError)
      | Some ws =>
          let (out, res) := print_body cols ws rws in
          (banner title ++ header_line cols ws :: separator_line cols ws :: out,
           res)
      end
  end.

(** *** The table as the specification words it *)

(** The text of the cell of row [r] in column [c]. *)
Definition cell_text (r : row) (c : string) : string :=
  match getitem r c with
  | Some v => str v
  | None => EmptyString
  end.

(** "Column width = max(header length, longest stringified value in that
    column) across all rows". *)
Definition column_width (rws : list row) (c : string) : nat :=
  Nat.max (len c) (list_max (map (fun r => len (cell_text r c)) rws)).

(** Every row exposes the columns of the first row. *)
Definition uniform (cols : list string) (rws : list row) : Prop :=
  forall r c, In r rws -> In c cols -> getitem r c <> None.

(** "Every cell is left-padded to its column's width", read as padding
    on the left. *)
Definition pad_left (s : string) (w : nat) : string :=
  String.append (repeat_string " " (w - len s)) s.

Definition left_padded_line (cols : list string) (rws : list row) (r : row)
  : string :=
  String.concat " | "
    (map (fun c => pad_left (cell_text r c) (column_width rws c)) cols).

End Formatter.

(** ** The exercises database (src/exercises.py) *)

Module Exercises.

Record student : Type := mkStudent {
  student_id : Z;
  student_name : string;
  student_email : string
}.

Record course : Type := mkCourse {
  course_id : Z;
  course_code : string;
  course_title : string
}.

Record enrollment : Type := mkEnrollment {
  enrollment_id : Z;
  e_student_id : Z;
  e_course_id : Z;
  enrolled_at : string
}.

(** The database file: each of the three tables exists or not. *)
Record database : Type := mkDb {
  students : option (table student);
  courses : option (table course);
  enrollments : option (table enrollment)
}.

Definition conn : Type := connection database.

Definition with_students (d : database) (t : table student) : database :=
  mkDb (Some t) (courses d) (enrollments d).
Definition with_courses (d : database) (t : table course) : database :=
  mkDb (students d) (Some t) (enrollments d).
Definition with_enrollments (d : database) (t : table enrollment) : database :=
  mkDb (students d) (courses d) (Some t).

(** *** Schema *)

Definition students_columns : list string :=
  ["id"; "name"; "email"]%string.
Definition courses_columns : list string :=
  ["id"; "code"; "title"]%string.
Definition enrollments_columns : list string :=
  ["id"; "student_id"; "course_id"; "enrolled_at"]%string.

(** [CREATE TABLE students (...)]. *)
Definition create_students (_ : bool) (d : database) : outcome database :=
  match students d with
  | Some _ => Raise OperationalError
  | None => Ok (with_students d (empty_table students_columns))
  end.

(** [CREATE TABLE courses (...)]. *)
Definition create_courses (_ : bool) (d : database) : outcome database :=
  match courses d with
  | Some _ => Raise OperationalError
  | None => Ok (with_courses d (empty_table courses_columns))
  end.

(** [CREATE TABLE enrollments (...)]. *)
Definition create_enrollments (_ : bool) (d : database) : outcome database :=
  match enrollments d with
  | Some _ => Raise OperationalError
  | None => Ok (with_enrollments d (empty_table enrollments_columns))
  end.

Definition create_schema : M conn unit :=
  executescript [create_students; create_courses; create_enrollments].

Definition empty_schema : database :=
  mkDb (Some (empty_table students_columns))
       (Some (empty_table courses_columns))
       (Some (empty_table enrollments_columns)).

(** *** Statements *)

Definition has_email (email : string) (s : student) : bool :=
  String.eqb (student_email s) email.
Definition has_student_id (id : Z) (s : student) : bool :=
  student_id s =? id.
Definition has_course_id (id : Z) (c : course) : bool :=
  course_id c =? id.
Definition has_code (code : string) (c : course) : bool :=
  String.eqb (course_code c) code.
Definition is_enrollment (sid cid : Z) (e : enrollment) : bool :=
  (e_student_id e =? sid) && (e_course_id e =? cid).

(** [INSERT INTO students (name, email) values (?, ?);] with
    [cursor.lastrowid].  email is UNIQUE. *)
Definition insert_student (name email : string) (_ : bool) (d : database)
  : outcome (Z * database) :=
  match students d with
  | None => Raise OperationalError
  | Some t =>
      if negb (has_room student_id t) then Raise DatabaseFull
      else if existsb (has_email email) (rows t) then Raise IntegrityError
      else
        let id := next_rowid student_id t in
        Ok (id, with_students d (append_row t id (mkStudent id name email)))
  end.

(** [SELECT id, name, email From students where email = ?;] with
    [fetchone()]. *)
Definition select_student_by_email (email : string) (d : database)
  : outcome (option student) :=
  match students d with
  | None => Raise OperationalError
  | Some t => Ok (find (has_email email) (rows t))
  end.

Definition set_name (new_name : string) (s : student) : student :=
  mkStudent (student_id s) new_name (student_email s).

(** [UPDATE students SET name = ? WHERE id = ?;] with [cursor.rowcount]. *)
Definition update_student_name (new_name : string) (id : Z) (_ : bool)
  (d : database) : outcome (Z * database) :=
  match students d with
  | None => Raise OperationalError
  | Some t =>
      if negb (int64 id) then Raise OverflowError
      else
        let changed := filter (has_student_id id) (rows t) in
        let rows' :=
          map (fun s => if has_student_id id s then set_name new_name s else s)
            (rows t) in
        Ok (Z.of_nat (List.length changed), with_students d (set_rows t rows'))
  end.

(** The rows of enrollments that ON DELETE CASCADE removes when the
    student rows [gone] are deleted. *)
Definition cascades_from (gone : list student) (e : enrollment) : bool :=
  existsb (has_student_id (e_student_id e)) gone.

(** With foreign keys enforced, a DELETE on students is prepared with
    the cascade into enrollments, and that needs the other parent of
    enrollments, courses, to exist. *)
Definition cascade_prepared (fk : bool) (d : database) : bool :=
  match enrollments d, courses d with
  | Some _, None => negb fk
  | _, _ => true
  end.

(** [DELETE FROM students WHERE id = ?;] with [cursor.rowcount]: the
    count is of the rows of students; with foreign keys enforced the
    enrollments of a deleted student go with it. *)
Definition delete_from_students (id : Z) (fk : bool) (d : database)
  : outcome (Z * database) :=
  match students d with
  | None => Raise OperationalError
  | Some t =>
      if negb (cascade_prepared fk d) then Raise OperationalError
      else if negb (int64 id) then Raise OverflowError
      else
        let gone := filter (has_student_id id) (rows t) in
        let kept := filter (fun s => negb (has_student_id id s)) (rows t) in
        let enr :=
          match enrollments d with
          | Some te =>
              if fk
              then Some (set_rows te
                     (filter (fun e => negb (cascades_from gone e)) (rows te)))
              else Some te
          | None => None
          end in
        Ok (Z.of_nat (List.length gone),
            mkDb (Some (set_rows t kept)) (courses d) enr)
  end.

(** [INSERT INTO enrollments (student_id, course_id) VALUES (?, ?);].
    Both columns are foreign keys and the pair is UNIQUE; enrolled_at
    defaults to [datetime('now')].  The statement is prepared (with
    foreign keys enforced it needs both parents), then the parameters
    are bound, then the rowid is taken, then the constraints are
    checked. *)
Definition insert_enrollment (now : string) (sid cid : Z) (fk : bool)
  (d : database) : outcome (unit * database) :=
  match enrollments d with
  | None => Raise OperationalError
  | Some te =>
      let fresh :=
        if existsb (is_enrollment sid cid) (rows te) then Raise IntegrityError
        else
          let id := next_rowid enrollment_id te in
          Ok (tt, with_enrollments d
                    (append_row te id (mkEnrollment id sid cid now))) in
      let bound (checked : outcome (unit * database)) :=
        if negb (int64 sid && int64 cid) then Raise OverflowError
        else if negb (has_room enrollment_id te) then Raise DatabaseFull
        else checked in
      if fk then
        match students d, courses d with
        | Some ts, Some tc =>
            bound
              (if existsb (has_student_id sid) (rows ts)
                  && existsb (has_course_id cid) (rows tc)
               then fresh else Raise IntegrityError)
        | _, _ => Raise OperationalError
        end
      else bound fresh
  end.

(** [INSERT INTO courses (code, title) VALUES (?, ?);]; code is UNIQUE. *)
Definition insert_course (code title : string) (_ : bool) (d : database)
  : outcome (unit * database) :=
  match courses d with
  | None => Raise OperationalError
  | Some t =>
      if negb (has_room course_id t) then Raise DatabaseFull
      else if existsb (has_code code) (rows t) then Raise IntegrityError
      else
        let id := next_rowid course_id t in
        Ok (tt, with_courses d (append_row t id (mkCourse id code title)))
  end.

(** A row of the enrollment listing. *)
Record enrollment_row : Type := mkEnrollmentRow {
  er_student_name : string;
  er_course_code : string;
  er_course_title : string
}.

Definition enrollment_key (r : enrollment_row) : string * string :=
  (er_student_name r, er_course_code r).

Definition enrollment_row_leb (a b : enrollment_row) : bool :=
  text2_leb (enrollment_key a) (enrollment_key b).

(** [FROM enrollments e JOIN students s ON e.student_id = s.id
     JOIN courses c ON e.course_id = c.id]. *)
Definition join_enrollments (te : table enrollment) (ts : table student)
  (tc : table course) : list enrollment_row :=
  flat_map (fun e =>
    flat_map (fun s =>
      map (fun c =>
             mkEnrollmentRow (student_name s) (course_code c) (course_title c))
          (filter (has_course_id (e_course_id e)) (rows tc)))
      (filter (has_student_id (e_student_id e)) (rows ts)))
    (rows te).

(** [SELECT s.name as student_name, c.code as course_code,
     c.title as course_title FROM ... ORDER BY s.name, c.code;] with
    [fetchall()]. *)
Definition select_enrollments (d : database) : outcome (list enrollment_row) :=
  match enrollments d, students d, courses d with
  | Some te, Some ts, Some tc =>
      Ok (order_by enrollment_row_leb (join_enrollments te ts tc))
  | _, _, _ => Raise OperationalError
  end.


(** [SELECT id FROM courses WHERE code = ?;] with [fetchone()]. *)
Definition select_course_id (code : string) (d : database)
  : outcome (option Z) :=
  match courses d with
  | None => Raise OperationalError
  | Some t => Ok (option_map course_id (find (has_code code) (rows t)))
  end.

(** What PRIMARY KEY and UNIQUE keep true of the students table. *)
Definition students_ok (t : table student) : Prop :=
  NoDup (map student_id (rows t)) /\ NoDup (map student_email (rows t)).

(** *** The functions of exercises.py *)

Local Open Scope monad_scope.

Definition add_student (name email : string) : M conn Z :=
  execute_dml (insert_student name email).

Definition find_student_by_email (email : string) : M conn (option student) :=
  execute_select (select_student_by_email email).

Definition rename_student (student_id : Z) (new_name : string) : M conn Z :=
  execute_dml (update_student_name new_name student_id).

Definition delete_student (student_id : Z) : M conn Z :=
  execute_dml (delete_from_students student_id).

Definition list_enrollments : M conn (list enrollment_row) :=
  execute_select select_enrollments.

(** [now] is what [datetime('now')] returns while the INSERT runs. *)
Definition enroll_student (now : string) (student_id course_id : Z)
  : M conn unit :=
  execute_dml (insert_enrollment now student_id course_id).

(** [conn.executemany] of the INSERT over the three courses. *)
Definition seed_courses : M conn unit :=
  execute_dml (insert_course "CS101" "Intro to Programming") ;;;
  execute_dml (insert_course "CS205" "Web Development") ;;;
  execute_dml (insert_course "CS310" "Data Structures").

(** [main] up to the lookup of CS205: the schema, the courses, the two
    students; it returns their ids and the id of the course. *)
Definition setup : M conn (Z * Z * option Z) :=
  create_schema ;;;
  seed_courses ;;;
  commit ;;;
  s1 <- add_student "Ava" "ava@example.com" ;;
  s2 <- add_student "Noah" "noah@example.com" ;;
  commit ;;;
  course_cs205 <- execute_select (select_course_id "CS205") ;;
  ret (s1, s2, course_cs205).

(** The body of the [try] of [main] (and of the test): the same pair is
    enrolled twice between BEGIN and COMMIT. *)
Definition enroll_twice_body (now1 now2 : string) (s1 course : Z)
  : M conn unit :=
  execute_begin ;;;
  enroll_student now1 s1 course ;;;
  enroll_student now2 s1 course ;;;
  execute_commit.

(** The [try] of [main], without what it prints: the handler of
    [sqlite3.IntegrityError] rolls back. *)
Definition enroll_twice (now1 now2 : string) (s1 course : Z) : M conn unit :=
  try_except (enroll_twice_body now1 now2 s1 course) IntegrityError
    execute_rollback.

End Exercises.

(** ** The gradebook database (demo.py and src/homework.py) *)

Module Gradebook.

Record student : Type := mkStudent {
  student_id : Z;
  student_name : string;
  student_email : string
}.

Record assignment : Type := mkAssignment {
  assignment_id : Z;
  assignment_title : string;
  max_points : Z
}.

(** [created_at] is [None] in a table declared without that column
    (homework.py). *)
Record grade : Type := mkGrade {
  grade_id : Z;
  g_student_id : Z;
  g_assignment_id : Z;
  score : Z;
  created_at : option string
}.

Record database : Type := mkDb {
  students : option (table student);
  assignments : option (table assignment);
  grades : option (table grade)
}.

Definition conn : Type := connection database.

Definition with_students (d : database) (t : table student) : database :=
  mkDb (Some t) (assignments d) (grades d).
Definition with_assignments (d : database) (t : table assignment) : database :=
  mkDb (students d) (Some t) (grades d).
Definition with_grades (d : database) (t : table grade) : database :=
  mkDb (students d) (assignments d) (Some t).

Definition has_student_id (id : Z) (s : student) : bool := student_id s =? id.
Definition has_email (email : string) (s : student) : bool :=
  String.eqb (student_email s) email.
Definition has_assignment_id (id : Z) (a : assignment) : bool :=
  assignment_id a =? id.
Definition is_grade (sid aid : Z) (g : grade) : bool :=
  (g_student_id g =? sid) && (g_assignment_id g =? aid).

(** The order of the index that UNIQUE (student_id, assignment_id)
    creates on grades: by student id, then by assignment id. *)
Definition grade_pair_leb (a b : grade) : bool :=
  (g_student_id a <? g_student_id b)
  || ((g_student_id a =? g_student_id b)
      && (g_assignment_id a <=? g_assignment_id b)).

(** *** Schema statements *)

Definition students_columns : list string := ["id"; "name"; "email"]%string.
Definition assignments_columns : list string :=
  ["id"; "title"; "max_points"]%string.
Definition grades_columns_demo : list string :=
  ["id"; "student_id"; "assignment_id"; "score"; "created_at"]%string.
Definition grades_columns_homework : list string :=
  ["id"; "student_id"; "assignment_id"; "score"]%string.

(** The implicit DELETE of a DROP TABLE on a parent of grades: with
    foreign keys enforced the grades of the deleted rows go first. *)
Definition cascade_grades (fk : bool) (child : grade -> bool) (d : database)
  : option (table grade) :=
  match grades d with
  | Some tg =>
      if fk then Some (set_rows tg (filter (fun g => negb (child g)) (rows tg)))
      else Some tg
  | None => None
  end.

(** With foreign keys enforced, the DELETE on a parent of grades (also
    the implicit one of a DROP TABLE) is prepared with the cascade into
    grades, and that needs the other parent of grades, [other], to
    exist. *)
Definition cascade_prepared {R : Type} (fk : bool) (other : option (table R))
  (d : database) : bool :=
  match grades d, other with
  | Some _, None => negb fk
  | _, _ => true
  end.

(** [DROP TABLE IF EXISTS students;]. *)
Definition drop_students (fk : bool) (d : database) : outcome database :=
  match students d with
  | None => Ok d
  | Some ts =>
      if negb (cascade_prepared fk (assignments d) d) then Raise OperationalError
      else
        Ok (mkDb None (assignments d)
              (cascade_grades fk
                 (fun g => existsb (has_student_id (g_student_id g)) (rows ts)) d))
  end.

(** [DROP TABLE IF EXISTS assignments;]. *)
Definition drop_assignments (fk : bool) (d : database) : outcome database :=
  match assignments d with
  | None => Ok d
  | Some ta =>
      if negb (cascade_prepared fk (students d) d) then Raise OperationalError
      else
        Ok (mkDb (students d) None
              (cascade_grades fk
                 (fun g => existsb (has_assignment_id (g_assignment_id g)) (rows ta))
                 d))
  end.

(** [DROP TABLE IF EXISTS grades;]: the table goes with its indexes and
    its entry of [sqlite_sequence]. *)
Definition drop_grades (_ : bool) (d : database) : outcome database :=
  Ok (mkDb (students d) (assignments d) None).

(** [CREATE TABLE students (...)]. *)
Definition create_students (_ : bool) (d : database) : outcome database :=
  match students d with
  | Some _ => Raise OperationalError
  | None => Ok (with_students d (empty_table students_columns))
  end.

(** [CREATE TABLE assignments (...)]. *)
Definition create_assignments (_ : bool) (d : database) : outcome database :=
  match assignments d with
  | Some _ => Raise OperationalError
  | None => Ok (with_assignments d (empty_table assignments_columns))
  end.

(** [CREATE TABLE grades (...)] with the columns [cols]. *)
Definition create_grades (cols : list string) (_ : bool) (d : database)
  : outcome database :=
  match grades d with
  | Some _ => Raise OperationalError
  | None => Ok (with_grades d (empty_table cols))
  end.

Definition table_indexes {R : Type} (t : option (table R)) : list string :=
  match t with Some t' => indexes t' | None => [] end.

Definition index_exists (name : string) (d : database) : bool :=
  existsb (String.eqb name)
    (table_indexes (students d) ++ table_indexes (assignments d)
     ++ table_indexes (grades d)).

(** [CREATE INDEX name ON grades(...)]. *)
Definition create_grades_index (name : string) (_ : bool) (d : database)
  : outcome database :=
  match grades d with
  | None => Raise OperationalError
  | Some tg =>
      if index_exists name d then Raise OperationalError
      else Ok (with_grades d
                 (mkTable (columns tg) (rows tg) (seq tg) (indexes tg ++ [name])))
  end.

(** *** Data statements *)

(** [INSERT INTO students (name, email) VALUES (?, ?);]. *)
Definition insert_student (name email : string) (_ : bool) (d : database)
  : outcome (Z * database) :=
  match students d with
  | None => Raise OperationalError
  | Some t =>
      if negb (has_room student_id t) then Raise DatabaseFull
      else if existsb (has_email email) (rows t) then Raise IntegrityError
      else
        let id := next_rowid student_id t in
        Ok (id, with_students d (append_row t id (mkStudent id name email)))
  end.

(** [INSERT INTO assignments (title, max_points) VALUES (?, ?);] under
    CHECK (max_points > 0). *)
Definition insert_assignment (title : string) (points : Z) (_ : bool)
  (d : database) : outcome (Z * database) :=
  match assignments d with
  | None => Raise OperationalError
  | Some t =>
      if negb (int64 points) then Raise OverflowError
      else if negb (has_room assignment_id t) then Raise DatabaseFull
      else if points <=? 0 then Raise IntegrityError
      else
        let id := next_rowid assignment_id t in
        Ok (id, with_assignments d (append_row t id (mkAssignment id title points)))
  end.

Definition has_created_at (tg : table grade) : bool :=
  existsb (String.eqb "created_at") (columns tg).

(** [INSERT INTO grades (student_id, assignment_id, score)
     VALUES (?, ?, ?);] under CHECK (score >= 0), the two foreign keys
    and UNIQUE (student_id, assignment_id); created_at, where the table
    has it, defaults to [datetime('now')].  The statement is prepared
    (with foreign keys enforced it needs both parents), then the
    parameters are bound, then the rowid is taken, then the constraints
    are checked. *)
Definition insert_grade (now : string) (sid aid sc : Z) (fk : bool)
  (d : database) : outcome (Z * database) :=
  match grades d with
  | None => Raise OperationalError
  | Some tg =>
      let fresh :=
        if (sc <? 0) || existsb (is_grade sid aid) (rows tg)
        then Raise IntegrityError
        else
          let id := next_rowid grade_id tg in
          let stamp := if has_created_at tg then Some now else None in
          Ok (id, with_grades d (append_row tg id (mkGrade id sid aid sc stamp))) in
      let bound (checked : outcome (Z * database)) :=
        if negb (int64 sid && int64 aid && int64 sc) then Raise OverflowError
        else if negb (has_room grade_id tg) then Raise DatabaseFull
        else checked in
      if fk then
        match students d, assignments d with
        | Some ts, Some ta =>
            bound
              (if existsb (has_student_id sid) (rows ts)
                  && existsb (has_assignment_id aid) (rows ta)
               then fresh else Raise IntegrityError)
        | _, _ => Raise OperationalError
        end
      else bound fresh
  end.

(** [DELETE FROM students WHERE id = ?;] with [cursor.rowcount], the
    statement of [delete_student] of exercises.py, on this schema, where
    grades.student_id is declared ON DELETE CASCADE. *)
Definition delete_from_students (id : Z) (fk : bool) (d : database)
  : outcome (Z * database) :=
  match students d with
  | None => Raise OperationalError
  | Some t =>
      if negb (cascade_prepared fk (assignments d) d) then Raise OperationalError
      else if negb (int64 id) then Raise OverflowError
      else
        let gone := filter (has_student_id id) (rows t) in
        let kept := filter (fun s => negb (has_student_id id s)) (rows t) in
        Ok (Z.of_nat (List.length gone),
            mkDb (Some (set_rows t kept)) (assignments d)
              (cascade_grades fk
                 (fun g => existsb (has_student_id (g_student_id g)) gone) d))
  end.

(** [FROM grades g JOIN students s ON g.student_id = s.id
     JOIN assignments a ON g.assignment_id = a.id]. *)
Definition join_grades (tg : table grade) (ts : table student)
  (ta : table assignment) : list (grade * student * assignment) :=
  flat_map (fun g =>
    flat_map (fun s =>
      map (fun a => (g, s, a))
          (filter (has_assignment_id (g_assignment_id g)) (rows ta)))
      (filter (has_student_id (g_student_id g)) (rows ts)))
    (rows tg).

(** [1.0 * g.score / a.max_points]. *)
Definition ratio (g : grade) (a : assignment) : real :=
  sql_div (Some (1.0 * real_of_int (score g))%float) (max_points a).

(** A row of the average-percent query. *)
Record board_row : Type := mkBoardRow {
  br_student : string;
  br_avg_percent : real
}.

Definition board_row_leb (a b : board_row) : bool :=
  real_desc_leb (br_avg_percent a) (br_avg_percent b).

Definition joined_student (j : grade * student * assignment) : student :=
  snd (fst j).

(** The rows of the join with [s.id = id]. *)
Definition in_group (id : Z) (j : grade * student * assignment) : bool :=
  has_student_id id (joined_student j).

(** The row of one group of GROUP BY s.id: the name is read from the
    first row of the group. *)
Definition board_row_of (group : list (grade * student * assignment))
  : list board_row :=
  match group with
  | [] => []
  | j :: _ =>
      [mkBoardRow (student_name (joined_student j))
         (sql_round1
            (sql_mul
               (sql_avg (map (fun j' => ratio (fst (fst j')) (snd j')) group))
               100))]
  end.

(** [SELECT s.name AS student,
       ROUND(AVG(1.0 * g.score / a.max_points) * 100, 1) AS avg_percent
     FROM grades g JOIN students s ON g.student_id = s.id
                   JOIN assignments a ON g.assignment_id = a.id
     GROUP BY s.id ORDER BY avg_percent DESC;] with [fetchall()].  The
    groups are formed in the order of the ids, and the rows of one
    average leave the descending sort in the reverse of that order: from
    the largest id down. *)
Definition select_leaderboard (d : database) : outcome (list board_row) :=
  match grades d, students d, assignments d with
  | Some tg, Some ts, Some ta =>
      let joined := join_grades tg ts ta in
      let ids :=
        order_by (fun a b => b <=? a)
          (nodup Z.eq_dec (map (fun j => student_id (joined_student j)) joined)) in
      Ok (order_by board_row_leb
            (flat_map
               (fun id => board_row_of (filter (in_group id) joined))
               ids))
  | _, _, _ => Raise OperationalError
  end.

(** *** The leaderboard as the specification words it *)




Definition board_row_values (r : board_row) : list (string * sql_value) :=
  [("student", SqlText (br_student r));
   ("avg_percent", value_of_real (br_avg_percent r))]%string.

End Gradebook.

(** ** demo.py *)

Module Demo.
Import Gradebook.
Local Open Scope monad_scope.

Definition create_schema : M conn unit :=
  executescript
    [drop_grades; drop_assignments; drop_students;
     create_students; create_assignments; create_grades grades_columns_demo;
     create_grades_index "idx_grades_student_id";
     create_grades_index "idx_grades_assignment_id"].

(** What [create_schema] leaves. *)
Definition empty_schema : database :=
  mkDb (Some (empty_table students_columns))
       (Some (empty_table assignments_columns))
       (Some (mkTable grades_columns_demo [] 0
                ["idx_grades_student_id"; "idx_grades_assignment_id"]%string)).

(** [SELECT id, name FROM students;] read into the dict
    [{r["name"]: r["id"] ...}]: for a name, the id of the last row that
    has it. *)
Definition select_student_ids (d : database) : outcome (list (string * Z)) :=
  match students d with
  | None => Raise OperationalError
  | Some ts => Ok (rev (map (fun s => (student_name s, student_id s)) (rows ts)))
  end.

(** [SELECT id, title FROM assignments;] read into a dict likewise. *)
Definition select_assignment_ids (d : database) : outcome (list (string * Z)) :=
  match assignments d with
  | None => Raise OperationalError
  | Some ta =>
      Ok (rev (map (fun a => (assignment_title a, assignment_id a)) (rows ta)))
  end.

(** [ids[key]]. *)
Definition dict_get (ids : list (string * Z)) (key : string) : M conn Z :=
  match find (fun p => String.eqb (fst p) key) ids with
  | Some p => ret (snd p)
  | None => raise KeyError
  end.

(** [seed_data]; every grade is inserted at the time [now]. *)
Definition seed_data (now : string) : M conn unit :=
  execute_dml (insert_student "Ava" "ava@example.com") ;;;
  execute_dml (insert_student "Noah" "noah@example.com") ;;;
  execute_dml (insert_student "Maya" "maya@example.com") ;;;
  execute_dml (insert_assignment "Quiz 1" 10) ;;;
  execute_dml (insert_assignment "Homework 1" 100) ;;;
  execute_dml (insert_assignment "Midterm" 200) ;;;
  student_ids <- execute_select select_student_ids ;;
  assignment_ids <- execute_select select_assignment_ids ;;
  ava <- dict_get student_ids "Ava" ;;
  quiz1 <- dict_get assignment_ids "Quiz 1" ;;
  hw1 <- dict_get assignment_ids "Homework 1" ;;
  noah <- dict_get student_ids "Noah" ;;
  maya <- dict_get student_ids "Maya" ;;
  midterm <- dict_get assignment_ids "Midterm" ;;
  execute_dml (insert_grade now ava quiz1 9) ;;;
  execute_dml (insert_grade now ava hw1 95) ;;;
  execute_dml (insert_grade now noah quiz1 7) ;;;
  execute_dml (insert_grade now noah hw1 88) ;;;
  execute_dml (insert_grade now maya quiz1 10) ;;;
  execute_dml (insert_grade now maya hw1 92) ;;;
  _ <- execute_dml (insert_grade now maya midterm 180) ;;
  ret tt.

(** A row of the three-table join of [demo_join]. *)
Record join_row : Type := mkJoinRow {
  jr_student : string;
  jr_assignment : string;
  jr_score : Z
}.

Definition join_key (r : join_row) : string * string :=
  (jr_student r, jr_assignment r).

Definition join_row_leb (a b : join_row) : bool :=
  text2_leb (join_key a) (join_key b).

(** [SELECT s.name AS student, a.title AS assignment, g.score
     FROM grades g JOIN students s ON g.student_id = s.id
                   JOIN assignments a ON g.assignment_id = a.id
     ORDER BY s.name, a.title;] with [fetchall()]. *)
Definition select_join (d : database) : outcome (list join_row) :=
  match grades d, students d, assignments d with
  | Some tg, Some ts, Some ta =>
      Ok (order_by join_row_leb
            (map (fun j =>
                    mkJoinRow (student_name (joined_student j))
                      (assignment_title (snd j)) (score (fst (fst j))))
                 (join_grades tg ts ta)))
  | _, _, _ => Raise OperationalError
  end.


(** The rows [demo_join] fetches and hands to [print_rows]. *)
Definition demo_join : M conn (list join_row) :=
  execute_select select_join.

(** The rows [demo_aggregation] fetches and hands to [print_rows]. *)
Definition demo_aggregation : M conn (list board_row) :=
  execute_select select_leaderboard.


(** [SELECT student_id, assignment_id FROM grades LIMIT 1;] with
    [fetchone()]: the engine answers from the index of UNIQUE
    (student_id, assignment_id), which holds both columns; the first
    entry is the least pair. *)
Definition select_existing (d : database) : outcome (option (Z * Z)) :=
  match grades d with
  | None => Raise OperationalError
  | Some tg =>
      Ok (option_map (fun g => (g_student_id g, g_assignment_id g))
            (hd_error (order_by grade_pair_leb (rows tg))))
  end.

(** [SELECT COUNT( * ) AS n FROM grades;] with [fetchone()["n"]]. *)
Definition count_grades (d : database) : outcome Z :=
  match grades d with
  | None => Raise OperationalError
  | Some tg => Ok (Z.of_nat (List.length (rows tg)))
  end.

(** The body of the [try] of [demo_transaction_rollback]: a grade of
    score 0 is inserted for the pair between BEGIN and COMMIT. *)
Definition insert_duplicate (now : string) (sid aid : Z) : M conn unit :=
  execute_begin ;;;
  _ <- execute_dml (insert_grade now sid aid 0) ;;
  execute_commit.

(** [demo_transaction_rollback], without what it prints: the pair of an
    existing grade is read, a grade is inserted for it again, and the
    handler of [sqlite3.IntegrityError] rolls back. *)
Definition demo_transaction_rollback (now : string) : M conn unit :=
  existing <- execute_select select_existing ;;
  match existing with
  | None => raise AssertionError
  | Some (sid, aid) =>
      try_except (insert_duplicate now sid aid) IntegrityError execute_rollback
  end.

End Demo.

(** ** src/homework.py *)

Module Homework.
Import Gradebook.
Local Open Scope monad_scope.

Definition create_schema : M conn unit :=
  executescript
    [drop_students; drop_assignments; drop_grades;
     create_students; create_assignments; create_grades grades_columns_homework].

(** What [create_schema] leaves. *)
Definition empty_schema : database :=
  mkDb (Some (empty_table students_columns))
       (Some (empty_table assignments_columns))
       (Some (empty_table grades_columns_homework)).

Definition add_student (name email : string) : M conn Z :=
  execute_dml (insert_student name email).

Definition add_assignment (title : string) (max_points : Z) : M conn Z :=
  execute_dml (insert_assignment title max_points).

(** The grades table of this script has no column that reads the
    clock. *)
Definition record_grade (student_id assignment_id score : Z) : M conn Z :=
  execute_dml (insert_grade EmptyString student_id assignment_id score).

Definition student_leb (a b : student) : bool :=
  text_leb (student_name a) (student_name b).

(** [SELECT * FROM students ORDER BY name;] with [fetchall()]. *)
Definition select_students (d : database) : outcome (list student) :=
  match students d with
  | None => Raise OperationalError
  | Some ts => Ok (order_by student_leb (rows ts))
  end.

Definition list_students : M conn (list student) :=
  execute_select select_students.

(** A row of the grade report. *)
Record report_row : Type := mkReportRow {
  rr_assignment_title : string;
  rr_score : Z;
  rr_max_points : Z;
  rr_percent : real
}.

(** The grades [WHERE student_id = ?] finds, in the order the engine
    reads them.  It searches an index on student_id: the one of
    [CREATE INDEX idx_grades_student_id] where the table has it (the
    schema of demo.py), which gives the grades in rowid order; else the
    one of UNIQUE (student_id, assignment_id), which gives them in the
    order of the assignment ids. *)
Definition grades_of (sid : Z) (tg : table grade) : list grade :=
  let found := filter (fun g => g_student_id g =? sid) (rows tg) in
  if existsb (String.eqb "idx_grades_student_id") (indexes tg) then found
  else order_by grade_pair_leb found.

(** [JOIN assignments a ON g.assignment_id = a.id] on the grades [gs],
    with the columns of the report. *)
Definition report_rows (ta : table assignment) (gs : list grade)
  : list report_row :=
  flat_map (fun g =>
    map (fun a =>
           mkReportRow (assignment_title a) (score g) (max_points a)
             (sql_round1 (sql_mul (ratio g a) 100)))
        (filter (has_assignment_id (g_assignment_id g)) (rows ta)))
    gs.

(** [SELECT a.title AS assignment_title, g.score, a.max_points,
       ROUND(1.0 * g.score / max_points * 100, 1) AS percent
     FROM grades g JOIN assignments a ON g.assignment_id = a.id
     WHERE student_id = ?] with [fetchall()].  The statement has no
    ORDER BY: the rows come in the order the grades are read in. *)
Definition select_grade_report (sid : Z) (d : database)
  : outcome (list report_row) :=
  match grades d, assignments d with
  | Some tg, Some ta =>
      if negb (int64 sid) then Raise OverflowError
      else Ok (report_rows ta (grades_of sid tg))
  | _, _ => Raise OperationalError
  end.

Definition report_row_values (r : report_row) : list (string * sql_value) :=
  [("assignment_title", SqlText (rr_assignment_title r));
   ("score", SqlInt (rr_score r));
   ("max_points", SqlInt (rr_max_points r));
   ("percent", value_of_real (rr_percent r))]%string.



Definition student_grade_report (student_id : Z) : M conn (list report_row) :=
  execute_select (select_grade_report student_id).

Definition leaderboard : M conn (list board_row) :=
  execute_select select_leaderboard.

(** The demo data of [main] (and of the test). *)
Definition seed : M conn unit :=
  s_ava <- add_student "Ava" "ava@example.com" ;;
  s_noah <- add_student "Noah" "noah@example.com" ;;
  s_maya <- add_student "Maya" "maya@example.com" ;;
  a_q1 <- add_assignment "Quiz 1" 10 ;;
  a_hw1 <- add_assignment "Homework 1" 100 ;;
  a_mid <- add_assignment "Midterm" 200 ;;
  record_grade s_ava a_q1 9 ;;;
  record_grade s_ava a_hw1 95 ;;;
  record_grade s_noah a_q1 7 ;;;
  record_grade s_noah a_hw1 88 ;;;
  record_grade s_maya a_q1 10 ;;;
  record_grade s_maya a_hw1 92 ;;;
  record_grade s_maya a_mid 180 ;;;
  commit.

(** [reset_db]: the database file is deleted; [connect] then opens a
    new file, with no table. *)
Definition reset_db (_ : database) : database := mkDb None None None.

(** [main] up to the leaderboard, when the database file was [file]. *)
Definition seeded_leaderboard (file : database) : outcome (list board_row) :=
  fst ((create_schema ;;; commit ;;; seed ;;; leaderboard)
         (connect (reset_db file))).

End Homework.

(** ** Databases the statements below are run on *)

Module Sample.

(** The file after [reset_db]: no table. *)
Definition no_exercises : Exercises.database := Exercises.mkDb None None None.
Definition no_gradebook : Gradebook.database := Gradebook.mkDb None None None.

(** The connection of exercises.py after [setup]. *)
Definition exercises_conn : Exercises.conn :=
  Eval vm_compute in snd (Exercises.setup (connect no_exercises)).

(** The connection of homework.py after [create_schema] and [seed]. *)
Definition homework_conn : Gradebook.conn :=
  Eval vm_compute in
    snd (bind Homework.create_schema (fun _ => Homework.seed)
           (connect no_gradebook)).

(** The connection of demo.py after [create_schema], [seed_data] and
    [conn.commit()]. *)
Definition demo_conn : Gradebook.conn :=
  Eval vm_compute in
    snd (bind Demo.create_schema
           (fun _ => bind (Demo.seed_data "2026-01-01 00:00:00")
                       (fun _ => commit))
           (connect no_gradebook)).


(** The connection of exercises.py after [setup] and three enrollments. *)
Definition enrolled_conn : Exercises.conn :=
  Eval vm_compute in
    snd ((Exercises.enroll_student "t1" 2 3 ;;;
          Exercises.enroll_student "t2" 1 2 ;;;
          Exercises.enroll_student "t3" 1 1 ;;;
          commit)%monad exercises_conn).

(** Two rows of [SELECT id, name FROM students], the values as text. *)
Definition student_rows : list (list (string * string)) :=
  [[("id", "1"); ("name", "Ava")]; [("id", "2"); ("name", "Noah")]]%string.

End Sample.

(** ** What the schemas promise *)

(** The rowids of a table lie in the range AUTOINCREMENT has handed
    out. *)
Definition rowids_in_sequence {R : Type} (rowid : R -> Z) (t : table R) : Prop :=
  0 <= seq t /\ forall r, In r (rows t) -> 0 < rowid r <= seq t.

(** [m] keeps [P] true of the state, whether it returns or raises. *)
Definition keeps {S A : Type} (P : S -> Prop) (m : M S A) : Prop :=
  forall s, P s -> P (snd (m s)).

(** A connection of [connect] on a database of which [P] holds: the
    pragma is on, and [P] holds of the content and of the content that a
    ROLLBACK would restore. *)
Definition sound_connection {D : Type} (P : D -> Prop) (c : connection D)
  : Prop :=
  foreign_keys c = true /\
  P (data c) /\
  forall d0, txn c = Some d0 -> P d0.

Module ExercisesSchema.
Import Exercises.

Definition enrollment_pair (e : enrollment) : Z * Z :=
  (e_student_id e, e_course_id e).

(** PRIMARY KEY on the three ids, UNIQUE on email, on code and on
    (student_id, course_id). *)
Definition keys_ok (ts : table student) (tc : table course)
  (te : table enrollment) : Prop :=
  students_ok ts /\
  NoDup (map course_id (rows tc)) /\ NoDup (map course_code (rows tc)) /\
  NoDup (map enrollment_id (rows te)) /\
  NoDup (map enrollment_pair (rows te)).

(** The two FOREIGN KEY clauses of enrollments. *)
Definition references_ok (ts : table student) (tc : table course)
  (te : table enrollment) : Prop :=
  forall e, In e (rows te) ->
    In (e_student_id e) (map student_id (rows ts)) /\
    In (e_course_id e) (map course_id (rows tc)).

(** The three tables exist and their constraints hold. *)
Definition consistent (d : database) : Prop :=
  exists ts tc te,
    students d = Some ts /\ courses d = Some tc /\ enrollments d = Some te /\
    keys_ok ts tc te /\ references_ok ts tc te /\
    rowids_in_sequence student_id ts /\
    rowids_in_sequence course_id tc /\
    rowids_in_sequence enrollment_id te.

Definition sound : conn -> Prop := sound_connection consistent.

End ExercisesSchema.

Module GradebookSchema.
Import Gradebook.

Definition grade_pair (g : grade) : Z * Z :=
  (g_student_id g, g_assignment_id g).

(** PRIMARY KEY on the three ids, UNIQUE on email and on
    (student_id, assignment_id). *)
Definition keys_ok (ts : table student) (ta : table assignment)
  (tg : table grade) : Prop :=
  NoDup (map student_id (rows ts)) /\ NoDup (map student_email (rows ts)) /\
  NoDup (map assignment_id (rows ta)) /\
  NoDup (map grade_id (rows tg)) /\ NoDup (map grade_pair (rows tg)).

(** CHECK (max_points > 0) and CHECK (score >= 0). *)
Definition checks_ok (ta : table assignment) (tg : table grade) : Prop :=
  (forall a, In a (rows ta) -> 0 < max_points a) /\
  (forall g, In g (rows tg) -> 0 <= score g).

(** The two FOREIGN KEY clauses of grades. *)
Definition references_ok (ts : table student) (ta : table assignment)
  (tg : table grade) : Prop :=
  forall g, In g (rows tg) ->
    In (g_student_id g) (map student_id (rows ts)) /\
    In (g_assignment_id g) (map assignment_id (rows ta)).

Definition consistent (d : database) : Prop :=
  exists ts ta tg,
    students d = Some ts /\ assignments d = Some ta /\ grades d = Some tg /\
    keys_ok ts ta tg /\ checks_ok ta tg /\ references_ok ts ta tg /\
    rowids_in_sequence student_id ts /\
    rowids_in_sequence assignment_id ta /\
    rowids_in_sequence grade_id tg.

Definition sound : conn -> Prop := sound_connection consistent.

End GradebookSchema.

(** ** The rest of the scripts *)

(** The length of a line of a printed table: the widths of its columns
    and the three characters between two of them. *)
Definition line_length (ws : list nat) : nat :=
  (list_sum ws + 3 * (List.length ws - 1))%nat.

Module ExercisesCalls.
Import Exercises.
Local Open Scope monad_scope.

(** [reset_db]: the database file is deleted; [connect] then opens a
    new file, with no table. *)
Definition reset_db (_ : database) : database := mkDb None None None.

(** [setup_db] of the tests, after [connect]. *)
Definition setup_db : M conn unit :=
  create_schema ;;;
  seed_courses ;;;
  commit.

(** The calls of test_update_and_delete_student after [setup_db], for
    any name, email and new name; what the test asserts on is
    returned. *)
Definition add_rename_delete (name email new_name : string)
  : M conn (Z * option student * Z * option student) :=
  sid <- add_student name email ;;
  commit ;;;
  updated <- rename_student sid new_name ;;
  commit ;;;
  row <- find_student_by_email email ;;
  deleted <- delete_student sid ;;
  commit ;;;
  row2 <- find_student_by_email email ;;
  ret (updated, row, deleted, row2).

(** The valid transaction of [main], and the listing after it. *)
Definition enroll_committed (now : string) (s1 course : Z)
  : M conn (list enrollment_row) :=
  execute_begin ;;;
  enroll_student now s1 course ;;;
  execute_commit ;;;
  list_enrollments.

Definition student_id_leb (a b : student) : bool :=
  student_id a <=? student_id b.

(** [SELECT id, name, email FROM students ORDER BY id;] with
    [fetchall()]. *)
Definition select_students (d : database) : outcome (list student) :=
  match students d with
  | None => Raise OperationalError
  | Some ts => Ok (order_by student_id_leb (rows ts))
  end.

(** What [main] computes after the lookup of CS205, in the order it
    does, without what it prints: the row looked up, the two listings of
    enrollments, the two row counts and the two listings of students.
    [now1], [now2] and [now3] are the times of the three enrollments. *)
Record main_values : Type := mkMainValues {
  mv_after_rollback : list enrollment_row;
  mv_after_commit : list enrollment_row;
  mv_updated : Z;
  mv_students : list student;
  mv_deleted : Z;
  mv_students_after_delete : list student
}.

(** [main] from the [try] on, for the ids [s1], [s2] and [course_cs205]
    that [setup] returned. *)
Definition main_after_setup (now1 now2 now3 : string) (s1 s2 course_cs205 : Z)
  : M conn main_values :=
  enroll_twice now1 now2 s1 course_cs205 ;;;
  rows1 <- list_enrollments ;;
  rows2 <- enroll_committed now3 s1 course_cs205 ;;
  updated <- rename_student s2 "Noah Kim" ;;
  commit ;;;
  students1 <- execute_select select_students ;;
  deleted <- delete_student s1 ;;
  commit ;;;
  students2 <- execute_select select_students ;;
  ret (mkMainValues rows1 rows2 updated students1 deleted students2).

End ExercisesCalls.

Module DemoCalls.
Import Gradebook.
Local Open Scope monad_scope.

(** [reset_db]: the database file is deleted; [connect] then opens a
    new file, with no table. *)
Definition reset_db (_ : database) : database := mkDb None None None.

(** [SELECT id, name, email FROM students ORDER BY name;] with
    [fetchall()]: the rows [demo_basic_selects] hands to [print_rows]. *)
Definition demo_basic_selects : M conn (list student) :=
  execute_select Homework.select_students.

(** [SELECT id, name, email FROM students WHERE email = ?;] with
    [fetchone()]. *)
Definition select_student_by_email (email : string) (d : database)
  : outcome (option student) :=
  match students d with
  | None => Raise OperationalError
  | Some ts => Ok (find (has_email email) (rows ts))
  end.

(** The row [demo_parameterized_query] looks up and prints. *)
Definition demo_parameterized_query : M conn (option student) :=
  execute_select (select_student_by_email "maya@example.com").

(** What [main] computes, without what it prints: the rows of the four
    queries and the count of grades at the end.  The grades are seeded
    at the time [now1]; the rollback demo runs at [now2]. *)
Record main_values : Type := mkMainValues {
  mv_students : list student;
  mv_join : list Demo.join_row;
  mv_board : list board_row;
  mv_maya : option student;
  mv_count : Z
}.

Definition main (file : database) (now1 now2 : string)
  : outcome main_values * conn :=
  (Demo.create_schema ;;;
   Demo.seed_data now1 ;;;
   commit ;;;
   all_students <- demo_basic_selects ;;
   joined <- Demo.demo_join ;;
   board <- Demo.demo_aggregation ;;
   maya <- demo_parameterized_query ;;
   Demo.demo_transaction_rollback now2 ;;;
   count <- execute_select Demo.count_grades ;;
   ret (mkMainValues all_students joined board maya count))
    (connect (reset_db file)).

End DemoCalls.

Module HomeworkCalls.
Import Gradebook.
Local Open Scope monad_scope.

Definition reset_db : database -> database := Homework.reset_db.

(** The loop [for s in list_students(conn)] of [main]: the title and the
    rows of the grade report of each student, in the order of the
    list. *)
Fixpoint grade_reports (l : list student)
  : M conn (list (string * list Homework.report_row)) :=
  match l with
  | [] => ret []
  | s :: rest =>
      rws <- Homework.student_grade_report (student_id s) ;;
      more <- grade_reports rest ;;
      ret ((String.append "Grade report: " (student_name s), rws) :: more)
  end.

(** What [main] computes, without what it prints: the students, the
    grade report of each and the leaderboard. *)
Definition main (file : database)
  : outcome (list student * list (string * list Homework.report_row)
             * list board_row) * conn :=
  (Homework.create_schema ;;;
   commit ;;;
   Homework.seed ;;;
   all_students <- Homework.list_students ;;
   again <- Homework.list_students ;;
   reports <- grade_reports again ;;
   board <- Homework.leaderboard ;;
   ret (all_students, reports, board))
    (connect (reset_db file)).

(** [[r["student_name"] for r in board]] of the test of homework.py. *)
Definition student_names (board : list board_row) : outcome (list sql_value) :=
  match all_some (map (fun r => getitem (board_row_values r) "student_name") board) with
  | Some names => Ok names
  | None => Raise IndexError
  end.

(** [[r["avg_percent"] for r in board]]. *)
Definition avg_percents (board : list board_row) : outcome (list sql_value) :=
  match all_some (map (fun r => getitem (board_row_values r) "avg_percent") board) with
  | Some avgs => Ok avgs
  | None => Raise IndexError
  end.

End HomeworkCalls.

(** * Properties *)

(** ** ORDER BY sorts and only rearranges *)

Section OrderByFacts.
Context {A : Type}.
Variable leb : A -> A -> bool.
Hypothesis leb_total : forall a b, leb a b = false -> leb b a = true.

Lemma insert_sorted_perm (x : A) (l : list A) :
  Permutation (insert_sorted leb x l) (x :: l).
Proof.
induction l as [|y l IH]; simpl.
- apply Permutation_refl.
- destruct (leb x y).
  + apply Permutation_refl.
  + eapply perm_trans; [apply perm_skip, IH | apply perm_swap].
Qed.

Lemma order_by_perm (l : list A) : Permutation (order_by leb l) l.
Proof.
induction l as [|x l IH]; simpl.
- constructor.
- eapply perm_trans; [apply insert_sorted_perm | apply perm_skip, IH].
Qed.




Hypothesis leb_trans :
  forall a b c, leb a b = true -> leb b c = true -> leb a c = true.

End OrderByFacts.

(** ** The BINARY collation is a total order *)







Lemma string_compare_gt_lt (s t : string) :
  String.compare s t = Gt -> String.compare t s = Lt.
Proof.
intros H. rewrite String.compare_antisym, H. reflexivity.
Qed.





(** ** Lists *)

Lemma existsb_false_iff {A : Type} (f : A -> bool) (l : list A) :
  existsb f l = false <-> forall x, In x l -> f x = false.
Proof.
split.
- intros H x Hx. destruct (f x) eqn:Hfx; [|reflexivity].
  rewrite <- H. symmetry. apply existsb_exists. exists x. split; assumption.
- intros H. induction l as [|y l IH]; simpl; [reflexivity|].
  rewrite (H y (or_introl eq_refl)). apply IH.
  intros x Hx. apply H. right. exact Hx.
Qed.

(** A lookup finds no row exactly when no row matches. *)
Lemma find_no_row {R : Type} (matches : R -> bool) (rs : list R) :
  (forall r, In r rs -> matches r = false) <-> find matches rs = None.
Proof.
split.
- intros Hno. induction rs as [|r rs IH]; simpl; [reflexivity|].
  rewrite (Hno r (or_introl eq_refl)). apply IH.
  intros r' Hr'. apply Hno. right. exact Hr'.
- intros Hfind r Hr. eapply find_none; eassumption.
Qed.

Lemma find_app_last {A : Type} (f : A -> bool) (l : list A) (x : A) :
  (forall y, In y l -> f y = false) -> f x = true -> find f (l ++ [x]) = Some x.
Proof.
intros Hl Hx. induction l as [|y l IH]; simpl.
- rewrite Hx. reflexivity.
- rewrite (Hl y (or_introl eq_refl)). apply IH.
  intros z Hz. apply Hl. right. exact Hz.
Qed.

Lemma filter_none {A : Type} (f : A -> bool) (l : list A) :
  (forall x, In x l -> f x = false) -> filter f l = [].
Proof.
intros H. induction l as [|y l IH]; simpl; [reflexivity|].
rewrite (H y (or_introl eq_refl)). apply IH.
intros x Hx. apply H. right. exact Hx.
Qed.

Lemma filter_all {A : Type} (f : A -> bool) (l : list A) :
  (forall x, In x l -> f x = true) -> filter f l = l.
Proof.
intros H. induction l as [|y l IH]; simpl; [reflexivity|].
rewrite (H y (or_introl eq_refl)). f_equal. apply IH.
intros x Hx. apply H. right. exact Hx.
Qed.

Lemma map_id_on {A : Type} (f : A -> A) (l : list A) :
  (forall x, In x l -> f x = x) -> map f l = l.
Proof.
intros H. induction l as [|y l IH]; simpl; [reflexivity|].
rewrite (H y (or_introl eq_refl)). f_equal. apply IH.
intros x Hx. apply H. right. exact Hx.
Qed.

(** In a list without two rows of the same key, the rows of one key are
    one row. *)
Lemma filter_key_unique {A : Type} (key : A -> Z) (l : list A) (x : A) :
  NoDup (map key l) -> In x l ->
  filter (fun y => key y =? key x) l = [x].
Proof.
induction l as [|y l IH]; simpl; intros Hnd Hin; [contradiction|].
inversion Hnd as [|? ? Hny Hnd']; subst.
destruct Hin as [->|Hin].
- rewrite Z.eqb_refl. f_equal. apply filter_none.
  intros z Hz. apply Z.eqb_neq. intros Heq. apply Hny.
  rewrite <- Heq. apply in_map. exact Hz.
- destruct (key y =? key x) eqn:Hk.
  + exfalso. apply Hny. apply Z.eqb_eq in Hk. rewrite Hk.
    apply in_map. exact Hin.
  + apply IH; assumption.
Qed.

(** ** Rowids *)

Lemma max_rowid_ge (ids : list Z) (x : Z) : In x ids -> x <= max_rowid ids.
Proof.
unfold max_rowid. induction ids as [|y ids IH]; simpl; [contradiction|].
intros [->|H]; [lia|]. specialize (IH H). lia.
Qed.

(** AUTOINCREMENT gives an id that no row of the table has. *)
Lemma next_rowid_fresh {R : Type} (rowid : R -> Z) (t : table R) :
  ~ In (next_rowid rowid t) (map rowid (rows t)).
Proof.
intros H. apply max_rowid_ge in H. unfold next_rowid in H. lia.
Qed.

Lemma max_rowid_nonneg (ids : list Z) : 0 <= max_rowid ids.
Proof. unfold max_rowid. induction ids; simpl; lia. Qed.

Lemma append_row_in_sequence {R : Type} (rowid : R -> Z) (t : table R) (r : R) :
  rowids_in_sequence rowid t ->
  rowid r = next_rowid rowid t ->
  rowids_in_sequence rowid (append_row t (next_rowid rowid t) r).
Proof.
intros [Hseq Hrows] Hr. unfold rowids_in_sequence, next_rowid in *. simpl.
split; [lia|].
intros r' Hin. apply in_app_or in Hin. destruct Hin as [Hin|[<-|[]]].
- specialize (Hrows r' Hin). lia.
- rewrite Hr. pose proof (max_rowid_nonneg (map rowid (rows t))). lia.
Qed.

Lemma next_rowid_above {R : Type} (rowid : R -> Z) (t : table R) (r : R) :
  In r (rows t) -> rowid r < next_rowid rowid t.
Proof.
intros Hin. unfold next_rowid.
pose proof (max_rowid_ge (map rowid (rows t)) (rowid r) (in_map rowid _ _ Hin)).
lia.
Qed.

Lemma next_rowid_positive {R : Type} (rowid : R -> Z) (t : table R) :
  0 < next_rowid rowid t.
Proof.
unfold next_rowid. pose proof (max_rowid_nonneg (map rowid (rows t))). lia.
Qed.

Lemma max_rowid_app (l : list Z) (x : Z) :
  max_rowid (l ++ [x]) = Z.max (max_rowid l) x.
Proof.
unfold max_rowid. induction l as [|y l IH]; simpl.
- pose proof (Z.max_spec x 0). lia.
- rewrite IH. lia.
Qed.

(** After an insert the next id is the one after the id given. *)
Lemma next_rowid_appended {R : Type} (rowid : R -> Z) (t : table R) (r : R) :
  rowid r = next_rowid rowid t ->
  next_rowid rowid (append_row t (next_rowid rowid t) r)
  = next_rowid rowid t + 1.
Proof.
intros Hr. unfold next_rowid at 1. simpl. rewrite map_app. simpl.
rewrite max_rowid_app, Hr. unfold next_rowid. lia.
Qed.

(** A table with two rowids left has one left, and has one left after an
    INSERT. *)
Lemma has_room_of_two {R : Type} (rowid : R -> Z) (t : table R) :
  (next_rowid rowid t <? rowid_limit) = true -> has_room rowid t = true.
Proof. unfold has_room, next_rowid. rewrite !Z.ltb_lt. lia. Qed.

Lemma has_room_appended {R : Type} (rowid : R -> Z) (t : table R) (r : R) :
  rowid r = next_rowid rowid t ->
  (next_rowid rowid t <? rowid_limit) = true ->
  has_room rowid (append_row t (next_rowid rowid t) r) = true.
Proof.
intros Hr Hroom. unfold has_room. cbn [rows seq append_row].
rewrite map_app. cbn [map].
rewrite max_rowid_app, Hr. apply Z.ltb_lt in Hroom. apply Z.ltb_lt.
unfold next_rowid in *. lia.
Qed.

(** The id an INSERT gives is a signed 64-bit integer. *)
Lemma next_rowid_int64 {R : Type} (rowid : R -> Z) (t : table R) :
  has_room rowid t = true -> int64 (next_rowid rowid t) = true.
Proof.
unfold has_room, int64, rowid_limit. intros H. apply Z.ltb_lt in H.
pose proof (next_rowid_positive rowid t) as Hpos. unfold next_rowid in *.
apply andb_true_intro. split; apply Z.leb_le; lia.
Qed.

(** ** exercises.py: create, find, rename, delete *)

Section ExercisesFacts.
Import Exercises.

Lemma has_email_false (email : string) (s : student) :
  student_email s <> email -> has_email email s = false.
Proof. intros H. apply String.eqb_neq. exact H. Qed.

Lemma has_student_id_true (id : Z) (s : student) :
  has_student_id id s = true <-> student_id s = id.
Proof. apply Z.eqb_eq. Qed.

Lemma has_student_id_false (id : Z) (s : student) :
  has_student_id id s = false <-> student_id s <> id.
Proof. apply Z.eqb_neq. Qed.

Lemma with_students_same (d : database) (t : table student) :
  students d = Some t ->
  with_students d (set_rows t (rows t)) = d.
Proof.
destruct d as [ts tc te], t as [cols rs sq ix]; simpl.
intros ->. reflexivity.
Qed.

(** C6.  When the students table holds no row with the email, looking
    the email up returns the absent result [None] and raises nothing;
    and, the table having an id left, [add_student name email] then
    succeeds with a new id, after which the lookup by that email returns
    the row with that id, name and email. *)
Theorem add_student_then_find_by_email
  (c : conn) (t : table student) (name email : string) :
  students (data c) = Some t ->
  (forall s, In s (rows t) -> student_email s <> email) ->
  has_room student_id t = true ->
  find_student_by_email email c = (Ok None, c) /\
  exists (sid : Z) (c' : conn),
    add_student name email c = (Ok sid, c') /\
    find_student_by_email email c'
    = (Ok (Some (mkStudent sid name email)), c').
Proof.
intros Ht Hfresh Hroom.
assert (Hnone : forall s, In s (rows t) -> has_email email s = false).
{ intros s Hs. apply has_email_false, Hfresh, Hs. }
split.
- unfold find_student_by_email, execute_select, select_student_by_email.
  rewrite Ht. f_equal. f_equal. apply find_no_row. exact Hnone.
- unfold add_student, execute_dml, insert_student. rewrite Ht, Hroom.
  rewrite (proj2 (existsb_false_iff _ _) Hnone). cbn [negb].
  eexists. eexists. split; [reflexivity|].
  unfold find_student_by_email, execute_select, select_student_by_email.
  simpl. f_equal. f_equal. f_equal. apply find_app_last.
  + exact Hnone.
  + unfold has_email. simpl. apply String.eqb_refl.
Qed.

(** A third student, Maya, on the database [setup] leaves. *)
Lemma add_student_then_find_by_email_witness :
  find_student_by_email "maya@example.com" Sample.exercises_conn
  = (Ok None, Sample.exercises_conn) /\
  exists (sid : Z) (c' : conn),
    add_student "Maya" "maya@example.com" Sample.exercises_conn = (Ok sid, c') /\
    find_student_by_email "maya@example.com" c'
    = (Ok (Some (mkStudent sid "Maya" "maya@example.com")), c').
Proof.
apply (add_student_then_find_by_email Sample.exercises_conn _
         "Maya" "maya@example.com" eq_refl).
- simpl. intros s [<-|[<-|[]]]; simpl; discriminate.
- reflexivity.
Defined.

Lemma find_email_after_map (f : student -> student) (l : list student)
  (s : student) :
  NoDup (map student_email l) -> In s l ->
  (forall x, student_email (f x) = student_email x) ->
  find (has_email (student_email s)) (map f l) = Some (f s).
Proof.
intros Hnd Hin Hf. induction l as [|y l IH]; simpl in *; [contradiction|].
inversion Hnd as [|? ? Hny Hnd']; subst.
unfold has_email at 1. rewrite Hf.
destruct Hin as [->|Hin].
- rewrite String.eqb_refl. reflexivity.
- destruct (String.eqb (student_email y) (student_email s)) eqn:He.
  + exfalso. apply Hny. apply String.eqb_eq in He. rewrite He.
    apply in_map. exact Hin.
  + apply IH; assumption.
Qed.

(** The claim C7 as it is stated fails: no student of the database
    [setup] leaves has the id 2^63, and [rename_student] with that id
    does not return 0 but raises OverflowError. *)
Lemma rename_student_refuses_large_id :
  (forall t s, students (data Sample.exercises_conn) = Some t ->
               In s (rows t) -> student_id s <> 2 ^ 63) /\
  fst (rename_student (2 ^ 63) "Nobody" Sample.exercises_conn)
  = Raise OverflowError.
Proof.
split; [|reflexivity].
intros t s Ht Hs. inversion Ht; subst t. simpl in Hs.
destruct Hs as [<-|[<-|[]]]; discriminate.
Qed.

(** C7.  On a students table (ids and emails unique, as PRIMARY KEY and
    UNIQUE keep them) and with an id that is a signed 64-bit integer,
    [rename_student] returns normally with the number of rows it
    changed: [0], with the content of the database unchanged, when no
    student has the id; [1] when a student has it, and then the lookup
    by that student's email returns the row with the new name. *)
Theorem rename_student_rowcount
  (c : conn) (t : table student) (sid : Z) (new_name : string) :
  students (data c) = Some t ->
  NoDup (map student_id (rows t)) ->
  NoDup (map student_email (rows t)) ->
  int64 sid = true ->
  exists (n : Z) (c' : conn),
    rename_student sid new_name c = (Ok n, c') /\
    ((forall s, In s (rows t) -> student_id s <> sid) ->
     n = 0 /\ data c' = data c) /\
    (forall s, In s (rows t) -> student_id s = sid ->
     n = 1 /\
     find_student_by_email (student_email s) c'
     = (Ok (Some (mkStudent sid new_name (student_email s))), c')).
Proof.
intros Ht Hid Hemail Hsid64.
unfold rename_student, execute_dml, update_student_name. rewrite Ht, Hsid64.
cbn [negb].
eexists. eexists. split; [reflexivity|]. split.
- intros Hnone. split.
  + rewrite filter_none; [reflexivity|].
    intros s Hs. apply has_student_id_false, Hnone, Hs.
  + simpl. rewrite map_id_on.
    * apply with_students_same, Ht.
    * intros s Hs.
      rewrite (proj2 (has_student_id_false sid s) (Hnone s Hs)). reflexivity.
- intros s Hs Hsid. split.
  + subst sid. unfold has_student_id.
    rewrite (filter_key_unique student_id (rows t) s Hid Hs). reflexivity.
  + unfold find_student_by_email, execute_select, select_student_by_email.
    simpl. f_equal. f_equal. f_equal.
    rewrite (find_email_after_map _ (rows t) s Hemail Hs).
    * rewrite (proj2 (has_student_id_true sid s) Hsid).
      unfold set_name. rewrite Hsid. reflexivity.
    * intros x. destruct (has_student_id sid x); reflexivity.
Qed.

Lemma sample_student_ids_unique :
  NoDup (map student_id
           (match students (data Sample.exercises_conn) with
            | Some t => rows t
            | None => []
            end)).
Proof. simpl. repeat constructor; simpl; intuition discriminate. Qed.

Lemma sample_student_emails_unique :
  NoDup (map student_email
           (match students (data Sample.exercises_conn) with
            | Some t => rows t
            | None => []
            end)).
Proof. simpl. repeat constructor; simpl; intuition discriminate. Qed.

(** Noah (id 2) is renamed as [main] does, and a student 7 that does not
    exist. *)
Lemma rename_student_rowcount_witness :
  (exists c' : conn,
     rename_student 2 "Noah Kim" Sample.exercises_conn = (Ok 1, c') /\
     find_student_by_email "noah@example.com" c'
     = (Ok (Some (mkStudent 2 "Noah Kim" "noah@example.com")), c')) /\
  (exists c' : conn,
     rename_student 7 "Nobody" Sample.exercises_conn = (Ok 0, c') /\
     data c' = data Sample.exercises_conn).
Proof.
split.
- destruct (rename_student_rowcount Sample.exercises_conn _ 2 "Noah Kim"
              eq_refl sample_student_ids_unique sample_student_emails_unique
              eq_refl)
    as [n [c' [Hrun [_ Hsome]]]].
  destruct (Hsome (mkStudent 2 "Noah" "noah@example.com"))
    as [Hn Hfind]; [simpl; auto | reflexivity |].
  subst n. exists c'. split; [exact Hrun | exact Hfind].
- destruct (rename_student_rowcount Sample.exercises_conn _ 7 "Nobody"
              eq_refl sample_student_ids_unique sample_student_emails_unique
              eq_refl)
    as [n [c' [Hrun [Hnone _]]]].
  destruct Hnone as [Hn Hdata].
  + simpl. intros s [<-|[<-|[]]]; simpl; discriminate.
  + subst n. exists c'. split; [exact Hrun | exact Hdata].
Defined.

(** C10.  [rename_student] leaves the courses and enrollments tables, the
    foreign_keys pragma, and the columns, sequence and indexes of students
    as they are; row by row, a student keeps its id and its email, a row
    with another id is unchanged, and the row with the id has the new
    name (its id being, as every id an INTEGER column holds, a signed
    64-bit integer).  This holds also when the call raises; with an id
    outside the 64 bits the table is left as it is. *)
Theorem rename_student_frame (c : conn) (sid : Z) (new_name : string) :
  let c' := snd (rename_student sid new_name c) in
  courses (data c') = courses (data c) /\
  enrollments (data c') = enrollments (data c) /\
  foreign_keys c' = foreign_keys c /\
  match students (data c), students (data c') with
  | None, None => True
  | Some t, Some t' =>
      columns t' = columns t /\ seq t' = seq t /\ indexes t' = indexes t /\
      Forall2
        (fun s s' =>
           student_id s' = student_id s /\
           student_email s' = student_email s /\
           (student_id s <> sid -> s' = s) /\
           (student_id s = sid -> int64 (student_id s) = true ->
            student_name s' = new_name))
        (rows t) (rows t') /\
      (int64 sid = false -> t' = t)
  | _, _ => False
  end.
Proof.
unfold rename_student, execute_dml, update_student_name.
destruct (students (data c)) as [t|] eqn:Ht; simpl; rewrite ?Ht.
- destruct (int64 sid) eqn:Hsid; simpl; rewrite ?Ht.
  + repeat split; try reflexivity; try discriminate.
    induction (rows t) as [|s l IH]; simpl; constructor; [|exact IH].
    destruct (has_student_id sid s) eqn:Hs; simpl.
    * apply has_student_id_true in Hs. repeat split; congruence.
    * apply has_student_id_false in Hs. repeat split; congruence.
  + repeat split; try reflexivity.
    induction (rows t) as [|s l IH]; constructor; [|exact IH].
    repeat split; congruence.
- repeat split; reflexivity.
Qed.

Lemma gradebook_delete_student
  (c : Gradebook.conn) (ts : table Gradebook.student)
  (ta : table Gradebook.assignment)
  (tg : table Gradebook.grade) (sid : Z) :
  foreign_keys c = true ->
  Gradebook.students (data c) = Some ts ->
  Gradebook.assignments (data c) = Some ta ->
  Gradebook.grades (data c) = Some tg ->
  NoDup (map Gradebook.student_id (rows ts)) ->
  int64 sid = true ->
  exists (n : Z) (c' : Gradebook.conn) (ts' : table Gradebook.student)
         (tg' : table Gradebook.grade),
    execute_dml (Gradebook.delete_from_students sid) c = (Ok n, c') /\
    Gradebook.students (data c') = Some ts' /\
    Gradebook.grades (data c') = Some tg' /\
    Gradebook.assignments (data c') = Gradebook.assignments (data c) /\
    (forall s, In s (rows ts') <->
               In s (rows ts) /\ Gradebook.student_id s <> sid) /\
    ((exists s, In s (rows ts) /\ Gradebook.student_id s = sid) ->
     n = 1 /\
     forall g, In g (rows tg') <->
               In g (rows tg) /\ Gradebook.g_student_id g <> sid) /\
    ((forall s, In s (rows ts) -> Gradebook.student_id s <> sid) ->
     n = 0 /\ data c' = data c).
Proof.
intros Hfk Hts Hta Htg Hid Hs64.
unfold execute_dml, Gradebook.delete_from_students, Gradebook.cascade_grades,
  Gradebook.cascade_prepared.
rewrite Hts, Hta, Htg, Hfk, Hs64. cbn [negb].
eexists. eexists. eexists. eexists.
split; [reflexivity|]. simpl.
split; [reflexivity|]. split; [reflexivity|]. split; [reflexivity|].
unfold set_rows; simpl.
split; [|split].
- intros s. rewrite filter_In. unfold Gradebook.has_student_id.
  rewrite negb_true_iff, Z.eqb_neq. reflexivity.
- intros [s [Hs Hsid]]. subst sid.
  assert (Hgone : filter (Gradebook.has_student_id (Gradebook.student_id s))
                    (rows ts) = [s]).
  { apply (filter_key_unique Gradebook.student_id (rows ts) s Hid Hs). }
  rewrite Hgone. split; [reflexivity|].
  intros g. rewrite filter_In. unfold Gradebook.has_student_id. simpl.
  rewrite orb_false_r, negb_true_iff, Z.eqb_neq.
  split; intros [H1 H2]; split; auto.
- intros Hnone.
  assert (Hgone : filter (Gradebook.has_student_id sid) (rows ts) = []).
  { apply filter_none. intros s Hs. apply Z.eqb_neq, Hnone, Hs. }
  rewrite Hgone. split; [reflexivity|].
  rewrite (filter_all (fun s => negb (Gradebook.has_student_id sid s)) (rows ts)).
  + rewrite (filter_all (fun g => negb (existsb _ [])) (rows tg)).
    * destruct (data c) as [ds da dg]; simpl in *. subst ds da dg.
      destruct ts, tg; reflexivity.
    * intros g _. reflexivity.
  + intros s Hs. apply negb_true_iff, Z.eqb_neq, Hnone, Hs.
Qed.

(** The claim C8 as it is stated fails: no student of the database
    [setup] leaves has the id 2^63, and [delete_student] with that id
    does not return 0 but raises OverflowError; and on that database
    without its courses table, to which enrollments refers, the DELETE of
    Ava (id 1) cannot be prepared and raises OperationalError. *)
Lemma delete_student_can_raise :
  (forall t s, students (data Sample.exercises_conn) = Some t ->
               In s (rows t) -> student_id s <> 2 ^ 63) /\
  fst (delete_student (2 ^ 63) Sample.exercises_conn) = Raise OverflowError /\
  fst (delete_student 1
         (connect (mkDb (students (data Sample.exercises_conn)) None
                     (enrollments (data Sample.exercises_conn)))))
  = Raise OperationalError.
Proof.
split; [|split; reflexivity].
intros t s Ht Hs. inversion Ht; subst t. simpl in Hs.
destruct Hs as [<-|[<-|[]]]; discriminate.
Qed.

(** C8.  With foreign keys enforced (as [connect] sets them), the three
    tables of the schema in place, student ids unique and an id that is
    a signed 64-bit integer, [delete_student] returns normally;
    afterwards the students table holds exactly the rows whose id is not
    the given one and courses is unchanged.  When a student has the id
    the count is [1] (the rows of students only) and the enrollments
    table holds exactly the enrollments of the other students; when none
    has it the count is [0] and the whole content is unchanged.  The
    same DELETE on the gradebook schema of demo.py removes the student's
    grades likewise. *)
Theorem delete_student_cascades :
  (forall (c : Exercises.conn) (ts : table Exercises.student)
          (tc : table Exercises.course)
          (te : table Exercises.enrollment) (sid : Z),
     foreign_keys c = true ->
     Exercises.students (data c) = Some ts ->
     Exercises.courses (data c) = Some tc ->
     Exercises.enrollments (data c) = Some te ->
     NoDup (map Exercises.student_id (rows ts)) ->
     int64 sid = true ->
     exists (n : Z) (c' : Exercises.conn) (ts' : table Exercises.student)
            (te' : table Exercises.enrollment),
       Exercises.delete_student sid c = (Ok n, c') /\
       Exercises.students (data c') = Some ts' /\
       Exercises.enrollments (data c') = Some te' /\
       Exercises.courses (data c') = Exercises.courses (data c) /\
       (forall s, In s (rows ts') <->
                  In s (rows ts) /\ Exercises.student_id s <> sid) /\
       ((exists s, In s (rows ts) /\ Exercises.student_id s = sid) ->
        n = 1 /\
        forall e, In e (rows te') <->
                  In e (rows te) /\ Exercises.e_student_id e <> sid) /\
       ((forall s, In s (rows ts) -> Exercises.student_id s <> sid) ->
        n = 0 /\ data c' = data c)) /\
  (forall (c : Gradebook.conn) (ts : table Gradebook.student)
          (ta : table Gradebook.assignment)
          (tg : table Gradebook.grade) (sid : Z),
     foreign_keys c = true ->
     Gradebook.students (data c) = Some ts ->
     Gradebook.assignments (data c) = Some ta ->
     Gradebook.grades (data c) = Some tg ->
     NoDup (map Gradebook.student_id (rows ts)) ->
     int64 sid = true ->
     exists (n : Z) (c' : Gradebook.conn) (ts' : table Gradebook.student)
            (tg' : table Gradebook.grade),
       execute_dml (Gradebook.delete_from_students sid) c = (Ok n, c') /\
       Gradebook.students (data c') = Some ts' /\
       Gradebook.grades (data c') = Some tg' /\
       Gradebook.assignments (data c') = Gradebook.assignments (data c) /\
       (forall s, In s (rows ts') <->
                  In s (rows ts) /\ Gradebook.student_id s <> sid) /\
       ((exists s, In s (rows ts) /\ Gradebook.student_id s = sid) ->
        n = 1 /\
        forall g, In g (rows tg') <->
                  In g (rows tg) /\ Gradebook.g_student_id g <> sid) /\
       ((forall s, In s (rows ts) -> Gradebook.student_id s <> sid) ->
        n = 0 /\ data c' = data c)).
Proof.
split; [|apply gradebook_delete_student].
intros c ts tc te sid.
intros Hfk Hts Htc Hte Hid Hs64.
unfold delete_student, execute_dml, delete_from_students, cascade_prepared.
rewrite Hts, Htc, Hte, Hfk, Hs64. cbn [negb].
eexists. eexists. eexists. eexists.
split; [reflexivity|]. simpl.
split; [reflexivity|]. split; [reflexivity|]. split; [reflexivity|].
unfold set_rows; simpl.
split; [|split].
- intros s. rewrite filter_In. unfold has_student_id.
  rewrite negb_true_iff, Z.eqb_neq. reflexivity.
- intros [s [Hs Hsid]]. subst sid.
  assert (Hgone : filter (has_student_id (student_id s)) (rows ts) = [s]).
  { apply (filter_key_unique student_id (rows ts) s Hid Hs). }
  rewrite Hgone. split; [reflexivity|].
  intros e. rewrite filter_In. unfold cascades_from, has_student_id. simpl.
  rewrite orb_false_r, negb_true_iff, Z.eqb_neq.
  split; intros [H1 H2]; split; auto.
- intros Hnone.
  assert (Hgone : filter (has_student_id sid) (rows ts) = []).
  { apply filter_none. intros s Hs. apply has_student_id_false, Hnone, Hs. }
  rewrite Hgone. split; [reflexivity|].
  rewrite (filter_all (fun s => negb (has_student_id sid s)) (rows ts)).
  + rewrite (filter_all (fun e => negb (cascades_from [] e)) (rows te)).
    * destruct (data c) as [ds dc de]; simpl in *. subst ds dc de.
      destruct ts, te; reflexivity.
    * intros e _. reflexivity.
  + intros s Hs. apply negb_true_iff, has_student_id_false, Hnone, Hs.
Qed.

(** Ava (id 1) is deleted from the database [setup] leaves, once enrolled
    in the course 2. *)
Lemma delete_student_cascades_witness :
  let c := snd (enroll_student "t1" 1 2 Sample.exercises_conn) in
  exists (c' : conn) (ts' : table student) (te' : table enrollment),
    delete_student 1 c = (Ok 1, c') /\
    students (data c') = Some ts' /\
    enrollments (data c') = Some te' /\
    rows ts' = [mkStudent 2 "Noah" "noah@example.com"] /\
    rows te' = [].
Proof.
intros c.
destruct (proj1 delete_student_cascades c _ _ _ 1 eq_refl eq_refl eq_refl
            eq_refl sample_student_ids_unique eq_refl)
  as [n [c' [ts' [te' [Hrun [Hts [Hte [_ [_ [Hsome _]]]]]]]]]].
destruct Hsome as [Hn _].
- exists (mkStudent 1 "Ava" "ava@example.com"). simpl. auto.
- subst n. exists c', ts', te'. split; [exact Hrun|].
  split; [exact Hts|]. split; [exact Hte|].
  unfold delete_student, execute_dml in Hrun. simpl in Hrun.
  inversion Hrun; subst c'. simpl in Hts, Hte.
  inversion Hts; inversion Hte. split; reflexivity.
Defined.

End ExercisesFacts.

(** ** Transactions: a rollback restores the content at BEGIN *)

Section TransactionFacts.

Lemma conn_eta {D : Type} (c : connection D) :
  txn c = None -> mkConn (data c) None (foreign_keys c) = c.
Proof. destruct c; simpl; intros ->; reflexivity. Qed.

(** A statement run while the content [d0] is what a ROLLBACK restores
    leaves it so, or, when the engine ends the transaction, leaves [d0]
    as the content. *)
Lemma execute_dml_keeps_snapshot {D A : Type}
  (stmt : bool -> D -> outcome (A * D)) (c : connection D) (d0 : D) :
  txn c = Some d0 \/ (txn c = None /\ data c = d0) ->
  let c' := snd (execute_dml stmt c) in
  (txn c' = Some d0 \/ (txn c' = None /\ data c' = d0)) /\
  foreign_keys c' = foreign_keys c.
Proof.
unfold execute_dml. intros [Ht|[Ht Hd]]; rewrite Ht;
  destruct (stmt (foreign_keys c) (data c)) as [[a d']|[]]; simpl;
  split; try reflexivity; subst; auto.
Qed.

(** A statement that fails changes no row, unless the engine ends the
    transaction. *)
Lemma execute_dml_failure_keeps_data {D A : Type}
  (stmt : bool -> D -> outcome (A * D)) (c c' : connection D) (e : exn) :
  execute_dml stmt c = (Raise e, c') ->
  stmt (foreign_keys c) (data c) <> Raise DatabaseFull ->
  data c' = data c.
Proof.
unfold execute_dml.
destruct (stmt (foreign_keys c) (data c)) as [[a d']|[]]; intros H Hfull;
  inversion H; try reflexivity.
contradiction Hfull. reflexivity.
Qed.

(** What an INSERT into enrollments that succeeds tells. *)
Lemma insert_enrollment_ok
  (now : string) (sid cid : Z) (fk : bool) (d d1 : Exercises.database)
  (te : table Exercises.enrollment) :
  Exercises.enrollments d = Some te ->
  Exercises.insert_enrollment now sid cid fk d = Ok (tt, d1) ->
  int64 sid = true /\ int64 cid = true /\
  d1 = Exercises.with_enrollments d
         (append_row te (next_rowid Exercises.enrollment_id te)
            (Exercises.mkEnrollment (next_rowid Exercises.enrollment_id te)
               sid cid now)) /\
  (fk = true ->
   exists ts tc,
     Exercises.students d = Some ts /\ Exercises.courses d = Some tc /\
     existsb (Exercises.has_student_id sid) (rows ts) = true /\
     existsb (Exercises.has_course_id cid) (rows tc) = true).
Proof.
intros Hte. unfold Exercises.insert_enrollment. rewrite Hte. cbv zeta.
destruct (int64 sid), (int64 cid); cbn [andb negb];
  try (destruct fk;
       [destruct (Exercises.students d), (Exercises.courses d)|];
       discriminate).
destruct (has_room Exercises.enrollment_id te); cbn [negb];
  try (destruct fk;
       [destruct (Exercises.students d), (Exercises.courses d)|];
       discriminate).
destruct fk.
- destruct (Exercises.students d) as [ts|]; [|discriminate].
  destruct (Exercises.courses d) as [tc|]; [|discriminate].
  destruct (existsb (Exercises.has_student_id sid) (rows ts)) eqn:Hs;
    [|discriminate].
  destruct (existsb (Exercises.has_course_id cid) (rows tc)) eqn:Hc;
    [|discriminate].
  cbn [andb].
  destruct (existsb (Exercises.is_enrollment sid cid) (rows te));
    [discriminate|].
  intros H. inversion H. repeat split; try reflexivity.
  intros _. exists ts, tc. repeat split; assumption.
- destruct (existsb (Exercises.is_enrollment sid cid) (rows te));
    [discriminate|].
  intros H. inversion H. repeat split; try reflexivity. discriminate.
Qed.

Lemma exercises_insert_twice_fails
  (now1 now2 : string) (sid cid : Z) (fk : bool)
  (d d1 : Exercises.database) (te : table Exercises.enrollment) :
  Exercises.enrollments d = Some te ->
  (next_rowid Exercises.enrollment_id te <? rowid_limit) = true ->
  Exercises.insert_enrollment now1 sid cid fk d = Ok (tt, d1) ->
  Exercises.insert_enrollment now2 sid cid fk d1 = Raise IntegrityError.
Proof.
intros Hte Hroom Hok.
destruct (insert_enrollment_ok now1 sid cid fk d d1 te Hte Hok)
  as [Hs [Hc [Hd1 Hfk]]].
subst d1. unfold Exercises.insert_enrollment.
cbn [Exercises.enrollments Exercises.students Exercises.courses
     Exercises.with_enrollments].
rewrite Hs, Hc,
  (has_room_appended Exercises.enrollment_id te
     (Exercises.mkEnrollment (next_rowid Exercises.enrollment_id te)
        sid cid now1) eq_refl Hroom).
cbn [andb negb].
assert (Hdup : existsb (Exercises.is_enrollment sid cid)
                 (rows (append_row te (next_rowid Exercises.enrollment_id te)
                          (Exercises.mkEnrollment
                             (next_rowid Exercises.enrollment_id te)
                             sid cid now1))) = true).
{ cbn [rows append_row]. rewrite existsb_app. cbn [existsb].
  unfold Exercises.is_enrollment at 2.
  cbn [Exercises.e_student_id Exercises.e_course_id].
  rewrite !Z.eqb_refl. cbn [andb orb]. apply orb_true_r. }
rewrite Hdup.
destruct fk; [|reflexivity].
destruct (Hfk eq_refl) as [ts [tc [Hts [Htc [Hes Hec]]]]].
rewrite Hts, Htc, Hes, Hec. reflexivity.
Qed.

(** An INSERT into enrollments returns or raises IntegrityError once the
    tables it needs exist, its parameters can be bound and the table has a
    rowid left. *)
Lemma exercises_insert_outcome
  (now : string) (sid cid : Z) (fk : bool) (d : Exercises.database)
  (te : table Exercises.enrollment) (ts : table Exercises.student)
  (tc : table Exercises.course) :
  Exercises.enrollments d = Some te ->
  Exercises.students d = Some ts ->
  Exercises.courses d = Some tc ->
  int64 sid = true ->
  int64 cid = true ->
  has_room Exercises.enrollment_id te = true ->
  Exercises.insert_enrollment now sid cid fk d = Raise IntegrityError \/
  exists d1, Exercises.insert_enrollment now sid cid fk d = Ok (tt, d1).
Proof.
intros Hte Hts Htc Hs Hc Hroom. unfold Exercises.insert_enrollment.
rewrite Hte, Hts, Htc, Hs, Hc, Hroom. cbn [andb negb].
destruct fk;
  [destruct (existsb (Exercises.has_student_id sid) (rows ts)
             && existsb (Exercises.has_course_id cid) (rows tc));
   [|left; reflexivity]|];
  (destruct (existsb (Exercises.is_enrollment sid cid) (rows te));
   [left; reflexivity | right; eexists; reflexivity]).
Qed.

Lemma enroll_twice_body_raises
  (c : Exercises.conn) (te : table Exercises.enrollment)
  (ts : table Exercises.student) (tc : table Exercises.course)
  (now1 now2 : string) (s1 course : Z) :
  txn c = None ->
  Exercises.enrollments (data c) = Some te ->
  Exercises.students (data c) = Some ts ->
  Exercises.courses (data c) = Some tc ->
  int64 s1 = true ->
  int64 course = true ->
  (next_rowid Exercises.enrollment_id te <? rowid_limit) = true ->
  exists d1,
    Exercises.enroll_twice_body now1 now2 s1 course c
    = (Raise IntegrityError, mkConn d1 (Some (data c)) (foreign_keys c)).
Proof.
intros Htxn Hte Hts Htc Hs Hc Hroom.
unfold Exercises.enroll_twice_body, bind, execute_begin. rewrite Htxn.
unfold Exercises.enroll_student at 1, execute_dml at 1. simpl.
destruct (exercises_insert_outcome now1 s1 course (foreign_keys c) (data c)
            te ts tc Hte Hts Htc Hs Hc
            (has_room_of_two Exercises.enrollment_id te Hroom))
  as [Hfail | [d1 Hok]].
- rewrite Hfail. eexists. reflexivity.
- rewrite Hok.
  unfold Exercises.enroll_student, execute_dml. simpl.
  rewrite (exercises_insert_twice_fails now1 now2 s1 course _ _ _ te
             Hte Hroom Hok).
  eexists. reflexivity.
Qed.

Lemma enroll_twice_restores
  (c : Exercises.conn) (te : table Exercises.enrollment)
  (ts : table Exercises.student) (tc : table Exercises.course)
  (now1 now2 : string) (s1 course : Z) :
  txn c = None ->
  Exercises.enrollments (data c) = Some te ->
  Exercises.students (data c) = Some ts ->
  Exercises.courses (data c) = Some tc ->
  int64 s1 = true ->
  int64 course = true ->
  (next_rowid Exercises.enrollment_id te <? rowid_limit) = true ->
  Exercises.enroll_twice now1 now2 s1 course c = (Ok tt, c).
Proof.
intros Htxn Hte Hts Htc Hs Hc Hroom.
destruct (enroll_twice_body_raises c te ts tc now1 now2 s1 course
            Htxn Hte Hts Htc Hs Hc Hroom) as [d1 Hbody].
unfold Exercises.enroll_twice, try_except. rewrite Hbody. simpl.
unfold execute_rollback. simpl. rewrite (conn_eta c Htxn). reflexivity.
Qed.

Lemma enroll_first_then_duplicate
  (c : Exercises.conn) (te : table Exercises.enrollment)
  (ts : table Exercises.student) (tc : table Exercises.course)
  (now1 now2 : string) (s1 course : Z) :
  txn c = None ->
  Exercises.enrollments (data c) = Some te ->
  Exercises.students (data c) = Some ts ->
  Exercises.courses (data c) = Some tc ->
  int64 s1 = true ->
  int64 course = true ->
  (next_rowid Exercises.enrollment_id te <? rowid_limit) = true ->
  existsb (Exercises.has_student_id s1) (rows ts) = true ->
  existsb (Exercises.has_course_id course) (rows tc) = true ->
  existsb (Exercises.is_enrollment s1 course) (rows te) = false ->
  exists (c1 : Exercises.conn) (te1 : table Exercises.enrollment) (id : Z),
    bind execute_begin (fun _ => Exercises.enroll_student now1 s1 course) c
    = (Ok tt, c1) /\
    txn c1 = Some (data c) /\
    Exercises.enrollments (data c1) = Some te1 /\
    rows te1 = rows te ++ [Exercises.mkEnrollment id s1 course now1] /\
    Exercises.enroll_student now2 s1 course c1 = (Raise IntegrityError, c1).
Proof.
intros Htxn Hte Hts Htc Hs64 Hc64 Hroom Hs Hc Hnew.
assert (Hins : exists d1,
  Exercises.insert_enrollment now1 s1 course (foreign_keys c) (data c)
  = Ok (tt, d1) /\
  Exercises.enrollments d1
  = Some (append_row te (next_rowid Exercises.enrollment_id te)
            (Exercises.mkEnrollment (next_rowid Exercises.enrollment_id te)
               s1 course now1))).
{ unfold Exercises.insert_enrollment.
  rewrite Hte, Hts, Htc, Hs, Hc, Hnew, Hs64, Hc64,
    (has_room_of_two Exercises.enrollment_id te Hroom).
  simpl. destruct (foreign_keys c); eexists; split; reflexivity. }
destruct Hins as [d1 [Hok Hd1]].
unfold bind, execute_begin. rewrite Htxn.
unfold Exercises.enroll_student, execute_dml. simpl. rewrite Hok.
eexists. eexists. eexists.
split; [reflexivity|]. simpl.
split; [reflexivity|]. split; [exact Hd1|]. split; [reflexivity|].
rewrite (exercises_insert_twice_fails now1 now2 s1 course _ _ _ te
           Hte Hroom Hok).
reflexivity.
Qed.

Lemma list_enrollments_empty
  (c : Exercises.conn) (te : table Exercises.enrollment)
  (ts : table Exercises.student) (tc : table Exercises.course) :
  Exercises.enrollments (data c) = Some te ->
  Exercises.students (data c) = Some ts ->
  Exercises.courses (data c) = Some tc ->
  rows te = [] ->
  Exercises.list_enrollments c = (Ok [], c).
Proof.
intros Hte Hts Htc Hempty.
unfold Exercises.list_enrollments, execute_select, Exercises.select_enrollments.
rewrite Hte, Hts, Htc. unfold Exercises.join_enrollments. rewrite Hempty.
reflexivity.
Qed.

(** An INSERT of a grade for a pair that has one raises IntegrityError
    once the tables it needs exist, its parameters can be bound and the
    table has a rowid left. *)
Lemma insert_existing_grade_fails
  (now : string) (sc : Z) (fk : bool) (d : Gradebook.database)
  (tg : table Gradebook.grade) (ts : table Gradebook.student)
  (ta : table Gradebook.assignment) (g : Gradebook.grade) :
  Gradebook.grades d = Some tg ->
  Gradebook.students d = Some ts ->
  Gradebook.assignments d = Some ta ->
  In g (rows tg) ->
  int64 (Gradebook.g_student_id g) = true ->
  int64 (Gradebook.g_assignment_id g) = true ->
  int64 sc = true ->
  has_room Gradebook.grade_id tg = true ->
  Gradebook.insert_grade now (Gradebook.g_student_id g)
    (Gradebook.g_assignment_id g) sc fk d = Raise IntegrityError.
Proof.
intros Htg Hts Hta Hin Hs Ha Hsc Hroom. unfold Gradebook.insert_grade.
rewrite Htg, Hts, Hta, Hs, Ha, Hsc, Hroom. cbn [andb negb].
assert (Hdup : existsb (Gradebook.is_grade (Gradebook.g_student_id g)
                          (Gradebook.g_assignment_id g)) (rows tg) = true).
{ apply existsb_exists. exists g. split; [exact Hin|].
  unfold Gradebook.is_grade. rewrite !Z.eqb_refl. reflexivity. }
rewrite Hdup, orb_true_r.
destruct fk; [|reflexivity].
destruct (existsb (Gradebook.has_student_id (Gradebook.g_student_id g)) (rows ts)
          && existsb (Gradebook.has_assignment_id (Gradebook.g_assignment_id g))
               (rows ta)); reflexivity.
Qed.

Lemma demo_rollback_restores
  (c : Gradebook.conn) (tg : table Gradebook.grade)
  (ts : table Gradebook.student) (ta : table Gradebook.assignment)
  (g : Gradebook.grade) (gs : list Gradebook.grade) (now : string) :
  txn c = None ->
  Gradebook.grades (data c) = Some tg ->
  Gradebook.students (data c) = Some ts ->
  Gradebook.assignments (data c) = Some ta ->
  order_by Gradebook.grade_pair_leb (rows tg) = g :: gs ->
  int64 (Gradebook.g_student_id g) = true ->
  int64 (Gradebook.g_assignment_id g) = true ->
  has_room Gradebook.grade_id tg = true ->
  Demo.insert_duplicate now (Gradebook.g_student_id g)
    (Gradebook.g_assignment_id g) c
  = (Raise IntegrityError, mkConn (data c) (Some (data c)) (foreign_keys c)) /\
  Demo.demo_transaction_rollback now c = (Ok tt, c).
Proof.
intros Htxn Htg Hts Hta Hrows Hs Ha Hroom.
assert (Hin : In g (rows tg)).
{ apply (Permutation_in g (order_by_perm Gradebook.grade_pair_leb (rows tg))).
  rewrite Hrows. left. reflexivity. }
assert (Hbody :
  Demo.insert_duplicate now (Gradebook.g_student_id g)
    (Gradebook.g_assignment_id g) c
  = (Raise IntegrityError, mkConn (data c) (Some (data c)) (foreign_keys c))).
{ unfold Demo.insert_duplicate, bind, execute_begin. rewrite Htxn.
  unfold execute_dml. simpl.
  rewrite (insert_existing_grade_fails now 0 (foreign_keys c) (data c)
             tg ts ta g Htg Hts Hta Hin Hs Ha eq_refl Hroom).
  reflexivity. }
split; [exact Hbody|].
unfold Demo.demo_transaction_rollback, bind, execute_select,
  Demo.select_existing.
rewrite Htg, Hrows. simpl.
unfold try_except. rewrite Hbody. simpl.
unfold execute_rollback. simpl. rewrite (conn_eta c Htxn). reflexivity.
Qed.

End TransactionFacts.

(** X1.  After BEGIN and any statements, failed or not, a ROLLBACK
    leaves the connection as it was before BEGIN.  It returns normally;
    or else the engine has ended the transaction itself (a table had no
    rowid left), the connection is already as it was, and the ROLLBACK
    raises OperationalError. *)
Lemma rollback_after_statements {D A : Type}
  (stmts : list (bool -> D -> outcome (A * D))) (c : connection D) :
  txn c = None ->
  let c' :=
    fold_left (fun c' stmt => snd (execute_dml stmt c')) stmts
      (snd (execute_begin c)) in
  execute_rollback c' = (Ok tt, c) \/
  (c' = c /\ execute_rollback c' = (Raise OperationalError, c)).
Proof.
intros Htxn.
assert (Hinv : forall (l : list (bool -> D -> outcome (A * D))) (c0 : connection D),
  txn c0 = Some (data c) \/ (txn c0 = None /\ data c0 = data c) ->
  foreign_keys c0 = foreign_keys c ->
  let c' := fold_left (fun c' stmt => snd (execute_dml stmt c')) l c0 in
  execute_rollback c' = (Ok tt, c) \/
  (c' = c /\ execute_rollback c' = (Raise OperationalError, c))).
{ induction l as [|stmt l IH]; intros c0 Ht Hfk; simpl.
  - unfold execute_rollback. destruct Ht as [Ht|[Ht Hd]]; rewrite Ht.
    + left. rewrite Hfk, (conn_eta c Htxn). reflexivity.
    + assert (Hc0 : c0 = c).
      { destruct c0, c; simpl in *; subst; reflexivity. }
      right. rewrite Hc0. split; reflexivity.
  - destruct (execute_dml_keeps_snapshot stmt c0 (data c) Ht) as [Ht' Hfk'].
    apply IH; [exact Ht' | rewrite Hfk'; exact Hfk]. }
apply Hinv; unfold execute_begin; rewrite Htxn; [left|]; reflexivity.
Qed.

(** C1.  On a connection with no open transaction and the tables in
    place, with ids that are signed 64-bit integers and tables that have
    rowids left for the INSERTs: the body of the [try] of exercises.py
    raises IntegrityError with the transaction still open; when the
    student and the course exist and the pair is new, the first INSERT
    succeeds (its row is in the table), and it is the second that raises.
    The handler's ROLLBACK then returns normally and leaves the connection
    exactly as before BEGIN: the enrollment listing is what it was, and it
    has no row when the table had none.  In demo.py the INSERT of a grade
    for the pair the SELECT returns, the least pair of the grades, raises
    IntegrityError, and after the handler's ROLLBACK the connection is as
    before and the count of grades is unchanged. *)
Theorem rollback_leaves_no_partial_effect
  (c : Exercises.conn) (te : table Exercises.enrollment)
  (ts : table Exercises.student) (tc : table Exercises.course)
  (now1 now2 : string) (s1 course : Z)
  (cd : Gradebook.conn) (tg : table Gradebook.grade)
  (dts : table Gradebook.student) (dta : table Gradebook.assignment)
  (g : Gradebook.grade) (gs : list Gradebook.grade) (now : string) :
  txn c = None ->
  Exercises.enrollments (data c) = Some te ->
  Exercises.students (data c) = Some ts ->
  Exercises.courses (data c) = Some tc ->
  int64 s1 = true ->
  int64 course = true ->
  (next_rowid Exercises.enrollment_id te <? rowid_limit) = true ->
  txn cd = None ->
  Gradebook.grades (data cd) = Some tg ->
  Gradebook.students (data cd) = Some dts ->
  Gradebook.assignments (data cd) = Some dta ->
  order_by Gradebook.grade_pair_leb (rows tg) = g :: gs ->
  int64 (Gradebook.g_student_id g) = true ->
  int64 (Gradebook.g_assignment_id g) = true ->
  has_room Gradebook.grade_id tg = true ->
  ((exists d1,
      Exercises.enroll_twice_body now1 now2 s1 course c
      = (Raise IntegrityError, mkConn d1 (Some (data c)) (foreign_keys c))) /\
   (existsb (Exercises.has_student_id s1) (rows ts) = true ->
    existsb (Exercises.has_course_id course) (rows tc) = true ->
    existsb (Exercises.is_enrollment s1 course) (rows te) = false ->
    exists (c1 : Exercises.conn) (te1 : table Exercises.enrollment) (id : Z),
      bind execute_begin (fun _ => Exercises.enroll_student now1 s1 course) c
      = (Ok tt, c1) /\
      txn c1 = Some (data c) /\
      Exercises.enrollments (data c1) = Some te1 /\
      rows te1 = rows te ++ [Exercises.mkEnrollment id s1 course now1] /\
      Exercises.enroll_student now2 s1 course c1 = (Raise IntegrityError, c1)) /\
   Exercises.enroll_twice now1 now2 s1 course c = (Ok tt, c) /\
   Exercises.list_enrollments
     (snd (Exercises.enroll_twice now1 now2 s1 course c))
   = Exercises.list_enrollments c /\
   (rows te = [] ->
    fst (Exercises.list_enrollments
           (snd (Exercises.enroll_twice now1 now2 s1 course c))) = Ok [])) /\
  (Demo.insert_duplicate now (Gradebook.g_student_id g)
     (Gradebook.g_assignment_id g) cd
   = (Raise IntegrityError, mkConn (data cd) (Some (data cd)) (foreign_keys cd)) /\
   Demo.demo_transaction_rollback now cd = (Ok tt, cd) /\
   fst (execute_select Demo.count_grades
          (snd (Demo.demo_transaction_rollback now cd)))
   = fst (execute_select Demo.count_grades cd)).
Proof.
intros Htxn Hte Hts Htc Hs64 Hc64 Hroom Hdtxn Htg Hdts Hdta Hrows
  Hgs Hga Hgroom.
pose proof (enroll_twice_restores c te ts tc now1 now2 s1 course
              Htxn Hte Hts Htc Hs64 Hc64 Hroom) as Hback.
destruct (demo_rollback_restores cd tg dts dta g gs now
            Hdtxn Htg Hdts Hdta Hrows Hgs Hga Hgroom) as [Hdup Hdemo].
split.
- split; [|split; [|split; [|split]]].
  + apply (enroll_twice_body_raises c te ts tc); assumption.
  + intros Hs Hc Hnew.
    apply (enroll_first_then_duplicate c te ts tc); assumption.
  + exact Hback.
  + rewrite Hback. reflexivity.
  + intros Hempty. rewrite Hback. cbn [snd].
    rewrite (list_enrollments_empty c te ts tc Hte Hts Htc Hempty).
    reflexivity.
- split; [exact Hdup|]. split; [exact Hdemo|].
  rewrite Hdemo. reflexivity.
Qed.

(** The transaction of [main] on the database [setup] leaves, and the
    rollback demo on the seeded demo database. *)
Lemma rollback_leaves_no_partial_effect_witness :
  Exercises.enroll_twice "t1" "t2" 1 2 Sample.exercises_conn
  = (Ok tt, Sample.exercises_conn) /\
  fst (Exercises.list_enrollments
         (snd (Exercises.enroll_twice "t1" "t2" 1 2 Sample.exercises_conn)))
  = Ok [] /\
  Demo.demo_transaction_rollback "t3" Sample.demo_conn
  = (Ok tt, Sample.demo_conn).
Proof.
destruct (rollback_leaves_no_partial_effect
            Sample.exercises_conn
            (empty_table Exercises.enrollments_columns)
            _ _ "t1" "t2" 1 2
            Sample.demo_conn _ _ _ _ _ "t3"
            eq_refl eq_refl eq_refl eq_refl eq_refl eq_refl eq_refl
            eq_refl eq_refl eq_refl eq_refl eq_refl eq_refl eq_refl eq_refl)
  as [[_ [_ [H1 [_ H2]]]] [_ [H3 _]]].
split; [exact H1|]. split; [exact (H2 eq_refl)|exact H3].
Defined.

(** ** Schema creation *)

Lemma demo_create_schema_any (c : Gradebook.conn) :
  Demo.create_schema c
  = (Ok tt, mkConn Demo.empty_schema None (foreign_keys c)).
Proof.
destruct c as [[ts ta tg] t fk].
unfold Demo.create_schema, executescript. simpl.
unfold Gradebook.drop_assignments, Gradebook.drop_students. simpl.
destruct ta as [ta|], ts as [ts|]; reflexivity.
Qed.

(** homework.py: on a file with no grades table (so on a new file) the
    DROP statements have nothing to cascade into. *)
Lemma homework_create_schema_fresh (c : Gradebook.conn) :
  Gradebook.grades (data c) = None ->
  Homework.create_schema c
  = (Ok tt, mkConn Homework.empty_schema None (foreign_keys c)).
Proof.
destruct c as [[ts ta tg] t fk]. simpl. intros ->.
unfold Homework.create_schema, executescript. simpl.
unfold Gradebook.drop_students. simpl.
destruct ts as [ts|]; simpl;
  unfold Gradebook.drop_assignments; simpl;
  destruct ta as [ta|]; reflexivity.
Qed.

Lemma exercises_create_schema_fresh (c : Exercises.conn) :
  Exercises.students (data c) = None ->
  Exercises.courses (data c) = None ->
  Exercises.enrollments (data c) = None ->
  Exercises.create_schema c
  = (Ok tt, mkConn Exercises.empty_schema None (foreign_keys c)).
Proof.
destruct c as [[ts tc te] t fk]. simpl. intros -> -> ->. reflexivity.
Qed.

Lemma exercises_create_schema_existing (c : Exercises.conn) :
  Exercises.students (data c) <> None \/
  Exercises.courses (data c) <> None \/
  Exercises.enrollments (data c) <> None ->
  exists c', Exercises.create_schema c = (Raise OperationalError, c').
Proof.
destruct c as [[[ts|] [tc|] [te|]] t fk]; simpl; intros H;
  try (eexists; reflexivity).
exfalso. destruct H as [H|[H|H]]; apply H; reflexivity.
Qed.

(** C3, as stated, fails for exercises.py: its [create_schema] has no DROP
    statement, so run on the schema it has just created it raises
    OperationalError at the first CREATE TABLE. *)
Lemma exercises_create_schema_twice_fails :
  fst (Exercises.create_schema
         (snd (Exercises.create_schema (connect Sample.no_exercises))))
  = Raise OperationalError /\
  ~ (forall c : Exercises.conn, fst (Exercises.create_schema c) = Ok tt).
Proof.
split; [reflexivity|].
intros H.
specialize (H (snd (Exercises.create_schema (connect Sample.no_exercises)))).
discriminate H.
Qed.

(** C3, amended.  In demo.py [create_schema] succeeds on every prior
    state of the connection and leaves the fixed empty schema with no
    transaction open, so running it again changes nothing.  In
    homework.py it succeeds and leaves the fixed empty schema on a file
    with no table (the file after [reset_db]).  In exercises.py, which has
    no DROP statement, it succeeds and leaves the fixed empty schema when
    none of the three tables exists (the file after [reset_db]), and
    raises OperationalError when one exists. *)
Theorem create_schema_resets :
  (forall c : Gradebook.conn,
     Demo.create_schema c
     = (Ok tt, mkConn Demo.empty_schema None (foreign_keys c)) /\
     Demo.create_schema (snd (Demo.create_schema c)) = Demo.create_schema c) /\
  (forall c : Gradebook.conn,
     Gradebook.students (data c) = None /\
     Gradebook.assignments (data c) = None /\
     Gradebook.grades (data c) = None ->
     Homework.create_schema c
     = (Ok tt, mkConn Homework.empty_schema None (foreign_keys c))) /\
  (forall c : Exercises.conn,
     (Exercises.students (data c) = None /\
      Exercises.courses (data c) = None /\
      Exercises.enrollments (data c) = None ->
      Exercises.create_schema c
      = (Ok tt, mkConn Exercises.empty_schema None (foreign_keys c))) /\
     (Exercises.students (data c) <> None \/
      Exercises.courses (data c) <> None \/
      Exercises.enrollments (data c) <> None ->
      exists c', Exercises.create_schema c = (Raise OperationalError, c'))).
Proof.
split; [|split].
- intros c. split; [apply demo_create_schema_any|].
  rewrite !demo_create_schema_any. reflexivity.
- intros c [_ [_ Hg]]. apply homework_create_schema_fresh, Hg.
- intros c. split.
  + intros [H1 [H2 H3]]. apply exercises_create_schema_fresh; assumption.
  + apply exercises_create_schema_existing.
Qed.

(** demo.py on its seeded database, homework.py on a new file,
    exercises.py on a new file and on the one [setup] leaves. *)
Lemma create_schema_resets_witness :
  data (snd (Demo.create_schema Sample.demo_conn)) = Demo.empty_schema /\
  Homework.create_schema (connect Sample.no_gradebook)
  = (Ok tt, connect Homework.empty_schema) /\
  Exercises.create_schema (connect Sample.no_exercises)
  = (Ok tt, connect Exercises.empty_schema) /\
  exists c', Exercises.create_schema Sample.exercises_conn
             = (Raise OperationalError, c').
Proof.
destruct create_schema_resets as [Hdemo [Hhw Hex]].
split; [|split; [|split]].
- rewrite (proj1 (Hdemo Sample.demo_conn)). reflexivity.
- apply (Hhw (connect Sample.no_gradebook)).
  split; [|split]; reflexivity.
- apply (proj1 (Hex (connect Sample.no_exercises))).
  split; [|split]; reflexivity.
- apply (proj2 (Hex Sample.exercises_conn)).
  left. simpl. discriminate.
Defined.

(** X23.  [create_schema] of homework.py drops students first, then
    assignments, then grades.  On a database that holds the three tables,
    with foreign keys enforced, the first DROP removes the students and
    with them their grades; the second then raises OperationalError,
    since grades still refers to the students table, which is gone.  The
    database is left with no students table, the assignments as they
    were and the grades of no student of the table; no table is created,
    and a second run fails in the same way and changes nothing more. *)
Theorem homework_create_schema_on_its_own_result
  (c : Gradebook.conn) (ts : table Gradebook.student)
  (ta : table Gradebook.assignment) (tg : table Gradebook.grade) :
  foreign_keys c = true ->
  Gradebook.students (data c) = Some ts ->
  Gradebook.assignments (data c) = Some ta ->
  Gradebook.grades (data c) = Some tg ->
  let left :=
    mkConn
      (Gradebook.mkDb None (Some ta)
         (Some (set_rows tg
                  (filter
                     (fun g =>
                        negb (existsb
                                (Gradebook.has_student_id
                                   (Gradebook.g_student_id g)) (rows ts)))
                     (rows tg)))))
      None true in
  Homework.create_schema c = (Raise OperationalError, left) /\
  Homework.create_schema left = (Raise OperationalError, left).
Proof.
intros Hfk Hts Hta Htg.
destruct c as [[ds da dg] t fk]. simpl in Hfk, Hts, Hta, Htg. subst.
split; reflexivity.
Qed.

(** The gradebook of homework.py after [create_schema] and [seed]: the
    seven grades go with the students, the three assignments stay. *)
Lemma homework_create_schema_on_its_own_result_witness :
  exists c' : Gradebook.conn,
    Homework.create_schema Sample.homework_conn = (Raise OperationalError, c') /\
    Gradebook.students (data c') = None /\
    option_map (fun t => List.length (rows t)) (Gradebook.assignments (data c'))
    = Some 3%nat /\
    option_map rows (Gradebook.grades (data c')) = Some [].
Proof.
destruct (homework_create_schema_on_its_own_result Sample.homework_conn _ _ _
            eq_refl eq_refl eq_refl eq_refl) as [Hrun _].
eexists. split; [exact Hrun|]. split; [reflexivity|]. split; reflexivity.
Defined.

(** ** The formatter *)

Lemma len_append (a b : string) :
  len (String.append a b) = (len a + len b)%nat.
Proof. induction a as [|x a IH]; simpl; [reflexivity | rewrite IH; lia]. Qed.

Lemma repeat_string_len (x : ascii) (n : nat) :
  starts_code_point x = true ->
  len (repeat_string (String x EmptyString) n) = n.
Proof.
intros Hx.
unfold repeat_string. induction n as [|n IH]; [reflexivity|].
simpl repeat. destruct n as [|n]; [simpl; rewrite Hx; reflexivity|].
change (String.concat EmptyString
          (String x EmptyString :: repeat (String x EmptyString) (S n)))
  with (String.append (String x EmptyString)
          (String.append EmptyString
             (String.concat EmptyString (repeat (String x EmptyString) (S n))))).
rewrite len_append. change (String.append EmptyString ?s) with s.
rewrite IH. simpl. rewrite Hx. reflexivity.
Qed.

(** [s.ljust(w)] has the length [w] once [s] is not longer than [w], and
    is [s] with spaces after it. *)
Lemma ljust_len (s : string) (w : nat) :
  (len s <= w)%nat -> len (ljust s w) = w.
Proof.
intros H. unfold ljust.
rewrite len_append, (repeat_string_len " " _ eq_refl). lia.
Qed.

Lemma list_max_ge (l : list nat) (n : nat) : In n l -> (n <= list_max l)%nat.
Proof.
induction l as [|m l IH]; simpl; [contradiction|].
intros [->|H]; [lia|]. specialize (IH H). lia.
Qed.

Lemma list_max_attained (l : list nat) :
  l <> [] -> In (list_max l) l.
Proof.
induction l as [|m l IH]; [congruence|]. intros _.
destruct l as [|k l].
- simpl. left. lia.
- assert (Hin : In (list_max (k :: l)) (k :: l)) by (apply IH; discriminate).
  change (list_max (m :: k :: l)) with (Nat.max m (list_max (k :: l))).
  destruct (Nat.max_spec m (list_max (k :: l))) as [[_ ->]|[_ ->]].
  + right. exact Hin.
  + left. reflexivity.
Qed.

Section FormatterFacts.
Context {V : Type}.
Variable str : V -> string.

Lemma cell_uniform (r : row) (c : string) :
  getitem r c <> None -> cell str c r = Some (cell_text str r c).
Proof.
unfold cell, cell_text. destruct (getitem r c); [reflexivity | congruence].
Qed.

Lemma cells_uniform (rws : list row) (c : string) :
  (forall r, In r rws -> getitem r c <> None) ->
  all_some (map (cell str c) rws) = Some (map (fun r => cell_text str r c) rws).
Proof.
induction rws as [|r rws IH]; intros H; simpl; [reflexivity|].
rewrite (cell_uniform r c (H r (or_introl eq_refl))).
rewrite IH; [reflexivity|]. intros r' Hr'. apply H. right. exact Hr'.
Qed.

Lemma width_uniform (rws : list row) (c : string) :
  (forall r, In r rws -> getitem r c <> None) ->
  width str rws c = Some (column_width str rws c).
Proof.
intros H. unfold width, column_width. rewrite (cells_uniform rws c H).
simpl. rewrite map_map. reflexivity.
Qed.

Lemma widths_uniform (cols : list string) (rws : list row) :
  uniform cols rws ->
  widths str cols rws = Some (map (fun c => (c, column_width str rws c)) cols).
Proof.
unfold widths. induction cols as [|c cols IH]; intros H; simpl; [reflexivity|].
rewrite width_uniform.
- simpl. rewrite IH; [reflexivity|].
  intros r c' Hr Hc'. apply H; [exact Hr | right; exact Hc'].
- intros r Hr. apply H; [exact Hr | left; reflexivity].
Qed.

Lemma width_of_map (f : string -> nat) (cols : list string) (c : string) :
  In c cols -> width_of (map (fun c' => (c', f c')) cols) c = f c.
Proof.
unfold width_of. induction cols as [|c' cols IH]; simpl; [contradiction|].
intros Hin. destruct (String.eqb c' c) eqn:He.
- apply String.eqb_eq in He. subst. reflexivity.
- destruct Hin as [->|Hin]; [rewrite String.eqb_refl in He; discriminate|].
  apply IH, Hin.
Qed.

Lemma row_line_uniform (cols all : list string) (f : string -> nat) (r : row) :
  (forall c, In c cols -> getitem r c <> None) ->
  (forall c, In c cols -> In c all) ->
  option_map (String.concat " | ")
    (all_some
       (map (fun c =>
               option_map
                 (fun s => ljust s (width_of (map (fun c' => (c', f c')) all) c))
                 (cell str c r)) cols))
  = Some (String.concat " | "
            (map (fun c => ljust (cell_text str r c) (f c)) cols)).
Proof.
intros Hget Hsub.
assert (Hcells :
  all_some
    (map (fun c =>
            option_map
              (fun s => ljust s (width_of (map (fun c' => (c', f c')) all) c))
              (cell str c r)) cols)
  = Some (map (fun c => ljust (cell_text str r c) (f c)) cols)).
{ induction cols as [|c cols IH]; simpl; [reflexivity|].
  rewrite (cell_uniform r c (Hget c (or_introl eq_refl))). simpl.
  rewrite (width_of_map f all c (Hsub c (or_introl eq_refl))).
  rewrite IH; [reflexivity | |];
    intros c' Hc'; [apply Hget | apply Hsub]; right; exact Hc'. }
rewrite Hcells. reflexivity.
Qed.

Lemma print_body_uniform (cols : list string) (f : string -> nat)
  (rws : list row) :
  uniform cols rws ->
  print_body str cols (map (fun c => (c, f c)) cols) rws
  = (map (fun r =>
            String.concat " | "
              (map (fun c => ljust (cell_text str r c) (f c)) cols)) rws,
     Ok tt).
Proof.
induction rws as [|r rws IH]; intros H; simpl; [reflexivity|].
unfold row_line. rewrite (row_line_uniform cols cols f r).
- rewrite IH; [reflexivity|].
  intros r' c Hr' Hc. apply H; [right; exact Hr' | exact Hc].
- intros c Hc. apply H; [left; reflexivity | exact Hc].
- auto.
Qed.

End FormatterFacts.

(** C9.  On the empty sequence [print_rows] prints the banner (a blank
    line and a rule of 80 [=], the title, a rule of 80 [-]) and then the
    placeholder, with no header and no rule of a table, and returns
    normally, whatever the values and their [str].  No other sequence
    gives that output. *)
Theorem print_rows_empty {V : Type} (str : V -> string) (title : string) :
  print_rows str title []
  = ([String "010"
        "================================================================================";
      title;
      "--------------------------------------------------------------------------------";
      "(no rows)"]%string,
     Ok tt) /\
  forall rws : list row,
    fst (print_rows str title rws) = fst (print_rows str title []) -> rws = [].
Proof.
split; [reflexivity|].
intros [|r0 rest]; [reflexivity|].
unfold print_rows.
destruct (widths str (keys r0) (r0 :: rest)) as [ws|].
- destruct (print_body str (keys r0) ws (r0 :: rest)) as [out res].
  cbn [fst]. intros H. apply (f_equal (@List.length string)) in H.
  rewrite !length_app in H. simpl in H. lia.
- cbn [fst]. intros H. apply (f_equal (@List.length string)) in H.
  rewrite !length_app in H. simpl in H. lia.
Qed.

(** The empty result of a query, and the two student rows. *)
Lemma print_rows_empty_witness :
  print_rows (fun s : string => s) "Students" []
  = (banner "Students" ++ ["(no rows)"%string], Ok tt) /\
  fst (print_rows (fun s : string => s) "Students" Sample.student_rows)
  <> fst (print_rows (fun s : string => s) "Students" []).
Proof.
destruct (print_rows_empty (fun s : string => s) "Students") as [H1 H2].
split; [exact H1|].
intros H. apply H2 in H. discriminate H.
Defined.

(** C5, as stated, fails: a cell is padded on the right, not on the left.
    With the columns id (width 2) and name (width 4) the row of Ava is
    printed as ["1  | Ava "], where padding on the left gives
    [" 1 |  Ava"]. *)
Lemma print_rows_pads_on_the_right :
  print_rows (fun s : string => s) "Students" Sample.student_rows
  = (banner "Students"
     ++ ["id | name"; "---+-----"; "1  | Ava "; "2  | Noah"]%string,
     Ok tt) /\
  left_padded_line (fun s : string => s) ["id"; "name"]%string
    Sample.student_rows [("id", "1"); ("name", "Ava")]%string
  = " 1 |  Ava"%string /\
  nth 5 (fst (print_rows (fun s : string => s) "Students" Sample.student_rows))
    EmptyString
  <> left_padded_line (fun s : string => s) ["id"; "name"]%string
       Sample.student_rows [("id", "1"); ("name", "Ava")]%string.
Proof.
split; [reflexivity|]. split; [reflexivity|].
vm_compute. discriminate.
Qed.

(** C5, amended.  On a non-empty sequence whose rows all expose the
    columns of the first row, [print_rows] returns normally for every type
    of value and every [str], having printed only text: the banner, the
    header, the rule and one line per row in order.  The width of a
    column is the larger of the length of its name and the longest [str]
    of its values over all rows, lengths counted as [len] counts them, in
    code points; every cell is its text followed by spaces
    up to exactly that width (padded on the right), the rule has that many
    dashes, the cells are joined by [" | "] and the dashes by ["-+-"]. *)
Theorem print_rows_table {V : Type} (str : V -> string) (title : string)
  (r0 : row) (rest : list row) :
  let rws := r0 :: rest in
  let cols := keys r0 in
  let w := column_width str rws in
  uniform cols rws ->
  print_rows str title rws
  = (banner title
     ++ String.concat " | " (map (fun c => ljust c (w c)) cols)
     :: String.concat "-+-" (map (fun c => repeat_string "-" (w c)) cols)
     :: map (fun r =>
               String.concat " | "
                 (map (fun c => ljust (cell_text str r c) (w c)) cols)) rws,
     Ok tt) /\
  forall c,
    (len c <= w c)%nat /\
    (forall r, In r rws -> (len (cell_text str r c) <= w c)%nat) /\
    (w c = len c \/
     exists r, In r rws /\ w c = len (cell_text str r c)) /\
    len (ljust c (w c)) = w c /\
    len (repeat_string "-" (w c)) = w c /\
    forall r, In r rws ->
      len (ljust (cell_text str r c) (w c)) = w c /\
      ljust (cell_text str r c) (w c)
      = String.append (cell_text str r c)
          (repeat_string " " (w c - len (cell_text str r c))).
Proof.
intros rws cols w Huni.
assert (Hwidths := widths_uniform str cols rws Huni).
assert (Hbody := print_body_uniform str cols (column_width str rws) rws Huni).
assert (Hle : forall c r, In r rws ->
          (len (cell_text str r c) <= w c)%nat).
{ intros c r Hr. unfold w, column_width.
  etransitivity; [|apply Nat.le_max_r].
  apply list_max_ge. apply (in_map (fun r' => len (cell_text str r' c))).
  exact Hr. }
split.
- unfold print_rows. subst rws cols w. cbv iota beta zeta.
  rewrite Hwidths, Hbody.
  unfold header_line, separator_line. f_equal. f_equal. f_equal.
  + f_equal. apply map_ext_in. intros c Hc.
    rewrite width_of_map by exact Hc. reflexivity.
  + f_equal. f_equal. apply map_ext_in. intros c Hc.
    rewrite width_of_map by exact Hc. reflexivity.
- intros c.
  assert (Hname : (len c <= w c)%nat).
  { unfold w, column_width. apply Nat.le_max_l. }
  split; [exact Hname|]. split; [intros r Hr; apply Hle, Hr|].
  split; [|split; [|split]].
  + unfold w, column_width.
    destruct (Nat.max_spec (len c)
                (list_max (map (fun r => len (cell_text str r c)) rws)))
      as [[_ Hmax]|[_ Hmax]]; [|left; exact Hmax].
    right. rewrite Hmax.
    assert (Hin : In (list_max (map (fun r => len (cell_text str r c)) rws))
                     (map (fun r => len (cell_text str r c)) rws)).
    { apply list_max_attained. unfold rws. simpl. discriminate. }
    apply in_map_iff in Hin. destruct Hin as [r [Hr Hin]].
    exists r. split; [exact Hin | symmetry; exact Hr].
  + apply ljust_len, Hname.
  + apply (repeat_string_len "-" _ eq_refl).
  + intros r Hr. split; [apply ljust_len, Hle, Hr | reflexivity].
Qed.

(** The two student rows. *)
Lemma print_rows_table_witness :
  print_rows (fun s : string => s) "Students" Sample.student_rows
  = (banner "Students"
     ++ ["id | name"; "---+-----"; "1  | Ava "; "2  | Noah"]%string,
     Ok tt).
Proof.
refine (eq_trans
          (proj1 (print_rows_table (fun s : string => s) "Students"
                    [("id", "1"); ("name", "Ava")]%string
                    [[("id", "2"); ("name", "Noah")]%string] _))
          eq_refl).
intros r c Hr Hc. simpl in Hr, Hc.
destruct Hr as [<-|[<-|[]]]; destruct Hc as [<-|[<-|[]]]; simpl; discriminate.
Defined.

(** ** The order of REAL values *)





(** ** The queries that return many rows *)




(** The grades the report reads are the grades of the student. *)
Lemma grades_of_in (sid : Z) (tg : table Gradebook.grade) (g : Gradebook.grade) :
  In g (Homework.grades_of sid tg) <->
  In g (rows tg) /\ Gradebook.g_student_id g = sid.
Proof.
unfold Homework.grades_of.
assert (Hfound : In g (filter (fun g0 => Gradebook.g_student_id g0 =? sid) (rows tg))
                 <-> In g (rows tg) /\ Gradebook.g_student_id g = sid).
{ rewrite filter_In, Z.eqb_eq. reflexivity. }
destruct (existsb (String.eqb "idx_grades_student_id") (indexes tg));
  [exact Hfound|].
rewrite <- Hfound. split; apply Permutation_in.
- apply order_by_perm.
- apply Permutation_sym, order_by_perm.
Qed.







(** ** The leaderboard *)



Section LeaderboardFacts.
Import Gradebook.

Variables (tg : table grade) (ts : table student) (ta : table assignment).
Hypothesis ids_unique : NoDup (map student_id (rows ts)).





End LeaderboardFacts.

Lemma homework_seeded_leaderboard (file : Gradebook.database) :
  Homework.seeded_leaderboard file
  = Ok [Gradebook.mkBoardRow "Maya" (Some 94%float);
        Gradebook.mkBoardRow "Ava" (Some 92.5%float);
        Gradebook.mkBoardRow "Noah" (Some 79%float)].
Proof.
unfold Homework.seeded_leaderboard, Homework.reset_db.
vm_compute. reflexivity.
Qed.







(** ** Further properties of the scripts *)

Lemma NoDup_app_one {A : Type} (l : list A) (x : A) :
  NoDup l -> ~ In x l -> NoDup (l ++ [x]).
Proof.
intros Hnd Hx. induction Hnd as [|y l Hy Hnd IH]; simpl.
- constructor; [intros [] | constructor].
- constructor.
  + intros Hin. apply in_app_or in Hin. destruct Hin as [Hin|[Hin|[]]].
    * contradiction.
    * subst. apply Hx. left. reflexivity.
  + apply IH. intros Hin. apply Hx. right. exact Hin.
Qed.

(** Deleting rows keeps the keys of a table distinct. *)
Lemma filter_keeps_keys_distinct {R K : Type} (key : R -> K)
  (keep : R -> bool) (rs : list R) :
  NoDup (map key rs) -> NoDup (map key (filter keep rs)).
Proof.
induction rs as [|r rs IH]; simpl; intros H; [constructor|].
inversion H as [|? ? Hr Hrs]; subst.
destruct (keep r); simpl; [|apply IH, Hrs].
constructor; [|apply IH, Hrs].
intros Hin. apply Hr. apply in_map_iff in Hin.
destruct Hin as [r' [Hkey Hin]]. apply filter_In in Hin.
rewrite <- Hkey. apply in_map. apply Hin.
Qed.

(** X3.  An email that a student has is refused: on a table that has an
    id left, [add_student] raises IntegrityError and the content of the
    database is unchanged. *)
Theorem add_student_duplicate_email
  (c : Exercises.conn) (t : table Exercises.student)
  (s : Exercises.student) (name : string) :
  Exercises.students (data c) = Some t ->
  has_room Exercises.student_id t = true ->
  In s (rows t) ->
  exists c',
    Exercises.add_student name (Exercises.student_email s) c
    = (Raise IntegrityError, c') /\
    data c' = data c.
Proof.
intros Ht Hroom Hs.
unfold Exercises.add_student, execute_dml, Exercises.insert_student.
rewrite Ht, Hroom. cbn [negb].
assert (He : existsb (Exercises.has_email (Exercises.student_email s)) (rows t)
             = true).
{ apply existsb_exists. exists s. split; [exact Hs|].
  unfold Exercises.has_email. apply String.eqb_refl. }
rewrite He. eexists. split; reflexivity.
Qed.

(** A second Ava with the email of the first. *)
Lemma add_student_duplicate_email_witness :
  exists c',
    Exercises.add_student "Ava B" "ava@example.com" Sample.exercises_conn
    = (Raise IntegrityError, c') /\
    data c' = data Sample.exercises_conn.
Proof.
apply (add_student_duplicate_email Sample.exercises_conn _
         (Exercises.mkStudent 1 "Ava" "ava@example.com") "Ava B" eq_refl
         eq_refl).
simpl. left. reflexivity.
Defined.

(** The connection of exercises.py after [setup]: an enrollment that is
    accepted and one that fails, then ROLLBACK. *)
Lemma rollback_after_statements_witness :
  execute_rollback
    (fold_left (fun c' stmt => snd (execute_dml stmt c'))
       [Exercises.insert_enrollment "t1" 1 2;
        Exercises.insert_enrollment "t2" 1 2]
       (snd (execute_begin Sample.exercises_conn)))
  = (Ok tt, Sample.exercises_conn).
Proof.
pose proof (rollback_after_statements
              [Exercises.insert_enrollment "t1" 1 2;
               Exercises.insert_enrollment "t2" 1 2]
              Sample.exercises_conn eq_refl) as H.
cbv zeta in H. destruct H as [H|[H _]]; [exact H|].
vm_compute in H. discriminate H.
Defined.

(** X5.  With foreign keys enforced, values that are signed 64-bit
    integers and a table that has an id left, [record_grade] raises
    IntegrityError and changes no row when the score is negative, when no
    student or no assignment has the id given, or when the pair already
    has a grade; [add_assignment] does when max_points is not positive. *)
Theorem gradebook_constraints
  (c : Gradebook.conn) (tg : table Gradebook.grade)
  (ts : table Gradebook.student) (ta : table Gradebook.assignment) :
  foreign_keys c = true ->
  Gradebook.grades (data c) = Some tg ->
  Gradebook.students (data c) = Some ts ->
  Gradebook.assignments (data c) = Some ta ->
  has_room Gradebook.grade_id tg = true ->
  has_room Gradebook.assignment_id ta = true ->
  (forall sid aid sc,
     int64 sid = true -> int64 aid = true -> int64 sc = true ->
     sc < 0 \/
     existsb (Gradebook.has_student_id sid) (rows ts) = false \/
     existsb (Gradebook.has_assignment_id aid) (rows ta) = false \/
     existsb (Gradebook.is_grade sid aid) (rows tg) = true ->
     exists c',
       Homework.record_grade sid aid sc c = (Raise IntegrityError, c') /\
       data c' = data c) /\
  (forall title points,
     int64 points = true ->
     points <= 0 ->
     exists c',
       Homework.add_assignment title points c = (Raise IntegrityError, c') /\
       data c' = data c).
Proof.
intros Hfk Htg Hts Hta Hgroom Haroom. split.
- intros sid aid sc Hs64 Ha64 Hsc64 H.
  unfold Homework.record_grade, execute_dml, Gradebook.insert_grade.
  rewrite Htg, Hts, Hta, Hfk, Hs64, Ha64, Hsc64, Hgroom. cbn [andb negb].
  destruct (existsb (Gradebook.has_student_id sid) (rows ts)) eqn:Hs;
    [|eexists; split; reflexivity].
  destruct (existsb (Gradebook.has_assignment_id aid) (rows ta)) eqn:Ha;
    [|eexists; split; reflexivity].
  simpl.
  assert (Hbad : (sc <? 0) || existsb (Gradebook.is_grade sid aid) (rows tg)
                 = true).
  { destruct H as [H|[H|[H|H]]]; try discriminate.
    - apply orb_true_iff. left. apply Z.ltb_lt. exact H.
    - apply orb_true_iff. right. exact H. }
  rewrite Hbad. eexists. split; reflexivity.
- intros title points Hp64 Hp.
  unfold Homework.add_assignment, execute_dml, Gradebook.insert_assignment.
  rewrite Hta, Hp64, Haroom. cbn [negb].
  rewrite (proj2 (Z.leb_le points 0) Hp).
  eexists. split; reflexivity.
Qed.

(** The seeded gradebook of homework.py: a second grade for Ava's first
    quiz, a grade for a student 9 that does not exist, an assignment
    worth nothing. *)
Lemma gradebook_constraints_witness :
  fst (Homework.record_grade 1 1 8 Sample.homework_conn) = Raise IntegrityError /\
  fst (Homework.record_grade 9 1 8 Sample.homework_conn) = Raise IntegrityError /\
  fst (Homework.add_assignment "Bonus" 0 Sample.homework_conn)
  = Raise IntegrityError.
Proof.
destruct (gradebook_constraints Sample.homework_conn _ _ _
            eq_refl eq_refl eq_refl eq_refl eq_refl eq_refl)
  as [Hgrade Hassign].
split; [|split].
- destruct (Hgrade 1 1 8 eq_refl eq_refl eq_refl) as [c' [Hrun _]].
  + right. right. right. reflexivity.
  + rewrite Hrun. reflexivity.
- destruct (Hgrade 9 1 8 eq_refl eq_refl eq_refl) as [c' [Hrun _]].
  + right. left. reflexivity.
  + rewrite Hrun. reflexivity.
- destruct (Hassign "Bonus"%string 0 eq_refl) as [c' [Hrun _]].
  + lia.
  + rewrite Hrun. reflexivity.
Defined.

(** ** The constraints of the schemas are invariants *)

Section KeepsFacts.
Context {S : Type}.
Variable P : S -> Prop.

Lemma keeps_ret {A : Type} (a : A) : keeps P (ret a).
Proof. intros s Hs. exact Hs. Qed.

Lemma keeps_raise {A : Type} (e : exn) : keeps P (raise (A := A) e).
Proof. intros s Hs. exact Hs. Qed.

Lemma keeps_bind {A B : Type} (m : M S A) (k : A -> M S B) :
  keeps P m -> (forall a, keeps P (k a)) -> keeps P (bind m k).
Proof.
intros Hm Hk s Hs. unfold bind. specialize (Hm s Hs).
destruct (m s) as [[a|e] s']; simpl in *; [apply Hk, Hm | exact Hm].
Qed.

Lemma keeps_try_except {A : Type} (body handler : M S A) (caught : exn) :
  keeps P body -> keeps P handler -> keeps P (try_except body caught handler).
Proof.
intros Hb Hh s Hs. unfold try_except. specialize (Hb s Hs).
destruct (body s) as [[a|e] s']; simpl in *; [exact Hb|].
destruct (exn_eqb e caught); [apply Hh, Hb | exact Hb].
Qed.
End KeepsFacts.

Section SoundFacts.
Context {D : Type}.
Variable P : D -> Prop.

Lemma execute_select_keeps {A : Type} (q : D -> outcome A) :
  keeps (sound_connection P) (execute_select q).
Proof. intros c Hc. exact Hc. Qed.

(** A statement that keeps [P] when it succeeds under the pragma makes
    [execute_dml] keep the connection sound. *)
Lemma execute_dml_keeps {A : Type} (stmt : bool -> D -> outcome (A * D)) :
  (forall d a d', P d -> stmt true d = Ok (a, d') -> P d') ->
  keeps (sound_connection P) (execute_dml stmt).
Proof.
intros Hstmt c (Hfk & Hd & Ht). unfold execute_dml. rewrite Hfk.
assert (Ht' : forall d0,
  match txn c with Some d1 => Some d1 | None => Some (data c) end = Some d0 ->
  P d0).
{ intros d0. destruct (txn c) as [d1|] eqn:Htx; intros H; inversion H; subst.
  - apply Ht. reflexivity.
  - exact Hd. }
destruct (stmt true (data c)) as [[a d']|e] eqn:Hrun.
- split; [reflexivity|]. split; [|exact Ht'].
  simpl. eapply Hstmt; eassumption.
- destruct e; simpl;
    try (split; [reflexivity | split; [exact Hd | exact Ht']]).
  + split; [exact Hfk | split; [exact Hd | exact Ht]].
  + split; [reflexivity|]. split; [|simpl; discriminate]. simpl.
    destruct (txn c) as [d0|] eqn:Htx; [apply Ht; reflexivity | exact Hd].
Qed.

Lemma execute_begin_keeps : keeps (sound_connection P) execute_begin.
Proof.
intros c (Hfk & Hd & Ht). unfold execute_begin.
destruct (txn c) as [d0|] eqn:Htx; simpl.
- split; [exact Hfk | split; [exact Hd|]]. rewrite Htx. exact Ht.
- split; [exact Hfk | split; [exact Hd|]]. simpl.
  intros d0 H. inversion H; subst. exact Hd.
Qed.

Lemma execute_commit_keeps : keeps (sound_connection P) execute_commit.
Proof.
intros c (Hfk & Hd & Ht). unfold execute_commit.
destruct (txn c) as [d0|] eqn:Htx; simpl.
- split; [exact Hfk | split; [exact Hd|]]. simpl. discriminate.
- split; [exact Hfk | split; [exact Hd|]]. rewrite Htx. discriminate.
Qed.

Lemma execute_rollback_keeps : keeps (sound_connection P) execute_rollback.
Proof.
intros c (Hfk & Hd & Ht). unfold execute_rollback.
destruct (txn c) as [d0|] eqn:Htx; simpl.
- split; [exact Hfk | split; [apply Ht; reflexivity|]]. simpl. discriminate.
- split; [exact Hfk | split; [exact Hd|]]. rewrite Htx. discriminate.
Qed.

Lemma commit_keeps : keeps (sound_connection P) commit.
Proof.
intros c (Hfk & Hd & Ht). unfold commit. simpl.
split; [exact Hfk | split; [exact Hd|]]. simpl. discriminate.
Qed.
End SoundFacts.

Lemma set_rows_in_sequence {R : Type} (rowid : R -> Z) (t : table R)
  (l : list R) :
  rowids_in_sequence rowid t ->
  (forall r, In r l -> exists r0, In r0 (rows t) /\ rowid r = rowid r0) ->
  rowids_in_sequence rowid (set_rows t l).
Proof.
intros [Hseq Hrows] Hl. split; [exact Hseq|]. simpl.
intros r Hr. destruct (Hl r Hr) as [r0 [Hr0 ->]]. apply Hrows, Hr0.
Qed.

(** A key that no row has may be appended. *)
Lemma append_key_distinct {R K : Type} (key : R -> K) (rs : list R) (r : R) :
  NoDup (map key rs) ->
  (forall r0, In r0 rs -> key r0 <> key r) ->
  NoDup (map key (rs ++ [r])).
Proof.
intros Hnd Hnew. rewrite map_app. simpl. apply NoDup_app_one; [exact Hnd|].
intros Hin. apply in_map_iff in Hin. destruct Hin as [r0 [Hk Hin]].
exact (Hnew r0 Hin Hk).
Qed.

Lemma append_rowid_distinct {R : Type} (rowid : R -> Z) (t : table R) (r : R) :
  NoDup (map rowid (rows t)) ->
  rowid r = next_rowid rowid t ->
  NoDup (map rowid (rows t ++ [r])).
Proof.
intros Hnd Hr. apply append_key_distinct; [exact Hnd|].
intros r0 Hin Heq. apply (next_rowid_fresh rowid t).
rewrite <- Hr, <- Heq. apply in_map, Hin.
Qed.

Section ExercisesSchemaFacts.
Import Exercises ExercisesSchema.

Lemma exercises_empty_schema_consistent : consistent empty_schema.
Proof.
exists (empty_table students_columns), (empty_table courses_columns),
  (empty_table enrollments_columns).
repeat split; simpl; try constructor; try lia; try contradiction.
Qed.

Lemma insert_student_consistent (name email : string) (fk : bool)
  (d d' : database) (id : Z) :
  consistent d -> insert_student name email fk d = Ok (id, d') -> consistent d'.
Proof.
intros (ts & tc & te & Hts & Htc & Hte & Hkeys & Hrefs & Hs1 & Hs2 & Hs3).
unfold insert_student. rewrite Hts.
destruct (has_room student_id ts); [|discriminate]. cbn [negb].
destruct (existsb (has_email email) (rows ts)) eqn:He; [discriminate|].
intros H. inversion H; subst id d'; clear H.
destruct Hkeys as ((Hsid & Hsem) & Hkeys).
eexists. exists tc, te. simpl.
split; [reflexivity|]. split; [exact Htc|]. split; [exact Hte|].
split; [split; [split|exact Hkeys]|]; [| |split; [|split; [|split]]].
- apply append_rowid_distinct; [exact Hsid | reflexivity].
- apply append_key_distinct; [exact Hsem|]. simpl.
  intros s Hs. rewrite existsb_false_iff in He. specialize (He s Hs).
  apply String.eqb_neq in He. exact He.
- intros e Hin. destruct (Hrefs e Hin) as [H1 H2]. split; [|exact H2].
  simpl. rewrite map_app. apply in_or_app. left. exact H1.
- apply append_row_in_sequence; [exact Hs1 | reflexivity].
- exact Hs2.
- exact Hs3.
Qed.

Lemma update_student_name_consistent (new_name : string) (id : Z) (fk : bool)
  (d d' : database) (n : Z) :
  consistent d -> update_student_name new_name id fk d = Ok (n, d') ->
  consistent d'.
Proof.
intros (ts & tc & te & Hts & Htc & Hte & Hkeys & Hrefs & Hs1 & Hs2 & Hs3).
unfold update_student_name. rewrite Hts.
destruct (int64 id); [|discriminate]. cbn [negb].
intros H. inversion H; subst n d'; clear H.
destruct Hkeys as ((Hsid & Hsem) & Hkeys).
assert (Hids : map student_id
                 (map (fun s => if has_student_id id s then set_name new_name s
                                else s) (rows ts))
               = map student_id (rows ts)).
{ rewrite map_map. apply map_ext. intros s.
  destruct (has_student_id id s); reflexivity. }
assert (Hems : map student_email
                 (map (fun s => if has_student_id id s then set_name new_name s
                                else s) (rows ts))
               = map student_email (rows ts)).
{ rewrite map_map. apply map_ext. intros s.
  destruct (has_student_id id s); reflexivity. }
eexists. exists tc, te. simpl.
split; [reflexivity|]. split; [exact Htc|]. split; [exact Hte|].
split; [split; [split|exact Hkeys]|]; [| |split; [|split; [|split]]].
- simpl. rewrite Hids. exact Hsid.
- simpl. rewrite Hems. exact Hsem.
- intros e Hin. simpl. rewrite Hids. apply Hrefs, Hin.
- apply set_rows_in_sequence; [exact Hs1|].
  intros r Hr. apply in_map_iff in Hr. destruct Hr as [s [<- Hs]].
  exists s. split; [exact Hs|].
  destruct (has_student_id id s); reflexivity.
- exact Hs2.
- exact Hs3.
Qed.

Lemma delete_from_students_consistent (id : Z) (d d' : database) (n : Z) :
  consistent d -> delete_from_students id true d = Ok (n, d') -> consistent d'.
Proof.
intros (ts & tc & te & Hts & Htc & Hte & Hkeys & Hrefs & Hs1 & Hs2 & Hs3).
unfold delete_from_students, cascade_prepared. rewrite Hts, Htc, Hte.
destruct (int64 id); [|discriminate]. cbn [negb].
intros H. inversion H; subst n d'; clear H.
destruct Hkeys as ((Hsid & Hsem) & Hcid & Hcc & Heid & Hep).
eexists. eexists. eexists. simpl.
split; [reflexivity|]. split; [reflexivity|]. split; [reflexivity|].
split; [|split; [|split; [|split]]].
- repeat split; simpl; try assumption;
    apply filter_keeps_keys_distinct; assumption.
- intros e Hin. simpl in Hin. apply filter_In in Hin.
  destruct Hin as [Hin Hkept]. destruct (Hrefs e Hin) as [H1 H2].
  split; [|exact H2]. simpl.
  apply in_map_iff in H1. destruct H1 as [s [Hsid' Hs]].
  apply in_map_iff. exists s. split; [exact Hsid'|].
  apply filter_In. split; [exact Hs|].
  apply negb_true_iff in Hkept. unfold cascades_from in Hkept.
  rewrite existsb_false_iff in Hkept.
  destruct (has_student_id id s) eqn:Hid; [|reflexivity].
  exfalso. specialize (Hkept s).
  rewrite (proj2 (has_student_id_true _ _) Hsid') in Hkept.
  assert (true = false); [|discriminate].
  apply Hkept. apply filter_In. split; assumption.
- apply set_rows_in_sequence; [exact Hs1|].
  intros r Hr. apply filter_In in Hr. exists r. split; [apply Hr | reflexivity].
- exact Hs2.
- apply set_rows_in_sequence; [exact Hs3|].
  intros r Hr. apply filter_In in Hr. exists r. split; [apply Hr | reflexivity].
Qed.

Lemma insert_enrollment_consistent (now : string) (sid cid : Z)
  (d d' : database) (u : unit) :
  consistent d -> insert_enrollment now sid cid true d = Ok (u, d') ->
  consistent d'.
Proof.
intros (ts & tc & te & Hts & Htc & Hte & Hkeys & Hrefs & Hs1 & Hs2 & Hs3).
unfold insert_enrollment. rewrite Hts, Htc, Hte.
destruct (int64 sid && int64 cid); [|discriminate]. cbn [negb].
destruct (has_room enrollment_id te); [|discriminate]. cbn [negb].
destruct (existsb (has_student_id sid) (rows ts)) eqn:Hs; [|discriminate].
destruct (existsb (has_course_id cid) (rows tc)) eqn:Hc; [|discriminate].
simpl.
destruct (existsb (is_enrollment sid cid) (rows te)) eqn:He; [discriminate|].
intros H. inversion H; subst d'; clear H.
destruct Hkeys as (Hst & Hcid & Hcc & Heid & Hep).
exists ts, tc. eexists. simpl.
split; [exact Hts|]. split; [exact Htc|]. split; [reflexivity|].
split; [|split; [|split; [|split]]].
- split; [exact Hst|]. split; [exact Hcid|]. split; [exact Hcc|]. split.
  + apply append_rowid_distinct; [exact Heid | reflexivity].
  + apply append_key_distinct; [exact Hep|].
    intros e Hin Heq. rewrite existsb_false_iff in He. specialize (He e Hin).
    unfold enrollment_pair in Heq. simpl in Heq. inversion Heq as [[Ha Hb]].
    unfold is_enrollment in He. rewrite Ha, Hb, !Z.eqb_refl in He.
    discriminate.
- intros e Hin. simpl in Hin. apply in_app_or in Hin.
  destruct Hin as [Hin|[<-|[]]]; [apply Hrefs, Hin|]. simpl. split.
  + apply existsb_exists in Hs. destruct Hs as [s [Hin Hid]].
    apply has_student_id_true in Hid. rewrite <- Hid. apply in_map, Hin.
  + apply existsb_exists in Hc. destruct Hc as [c [Hin Hid]].
    apply Z.eqb_eq in Hid. rewrite <- Hid. apply in_map, Hin.
- exact Hs1.
- exact Hs2.
- apply append_row_in_sequence; [exact Hs3 | reflexivity].
Qed.

Lemma insert_course_consistent (code title : string) (fk : bool)
  (d d' : database) (u : unit) :
  consistent d -> insert_course code title fk d = Ok (u, d') -> consistent d'.
Proof.
intros (ts & tc & te & Hts & Htc & Hte & Hkeys & Hrefs & Hs1 & Hs2 & Hs3).
unfold insert_course. rewrite Htc.
destruct (has_room course_id tc); [|discriminate]. cbn [negb].
destruct (existsb (has_code code) (rows tc)) eqn:He; [discriminate|].
intros H. inversion H; subst d'; clear H.
destruct Hkeys as (Hst & Hcid & Hcc & Hkeys).
exists ts. eexists. exists te. simpl.
split; [exact Hts|]. split; [reflexivity|]. split; [exact Hte|].
split; [|split; [|split; [|split]]].
- split; [exact Hst|]. split; [|split; [|exact Hkeys]].
  + apply append_rowid_distinct; [exact Hcid | reflexivity].
  + apply append_key_distinct; [exact Hcc|]. simpl.
    intros c Hc. rewrite existsb_false_iff in He. specialize (He c Hc).
    apply String.eqb_neq in He. exact He.
- intros e Hin. destruct (Hrefs e Hin) as [Hr1 Hr2]. split; [exact Hr1|].
  simpl. rewrite map_app. apply in_or_app. left. exact Hr2.
- exact Hs1.
- apply append_row_in_sequence; [exact Hs2 | reflexivity].
- exact Hs3.
Qed.

End ExercisesSchemaFacts.

(** X2.  The constraints of the schema of exercises.py (the primary and
    unique keys, the two foreign keys of enrollments, the ranges of the
    AUTOINCREMENT ids) hold of the database [create_schema] makes of a new
    file, and on a connection of [connect] every function of the script,
    the [try] block of [main] and the transaction statements keep them,
    whether they return or raise; a ROLLBACK restores a database of which
    they hold. *)
Theorem exercises_constraints_kept :
  (forall file,
     ExercisesSchema.sound
       (snd (Exercises.create_schema (connect (ExercisesCalls.reset_db file))))) /\
  keeps ExercisesSchema.sound Exercises.create_schema /\
  keeps ExercisesSchema.sound Exercises.seed_courses /\
  (forall name email,
     keeps ExercisesSchema.sound (Exercises.add_student name email)) /\
  (forall email,
     keeps ExercisesSchema.sound (Exercises.find_student_by_email email)) /\
  (forall sid new_name,
     keeps ExercisesSchema.sound (Exercises.rename_student sid new_name)) /\
  (forall sid, keeps ExercisesSchema.sound (Exercises.delete_student sid)) /\
  keeps ExercisesSchema.sound Exercises.list_enrollments /\
  (forall now sid cid,
     keeps ExercisesSchema.sound (Exercises.enroll_student now sid cid)) /\
  (forall now1 now2 s1 course,
     keeps ExercisesSchema.sound (Exercises.enroll_twice now1 now2 s1 course)) /\
  keeps ExercisesSchema.sound execute_begin /\
  keeps ExercisesSchema.sound execute_commit /\
  keeps ExercisesSchema.sound execute_rollback /\
  keeps ExercisesSchema.sound commit.
Proof.
assert (Henroll : forall now sid cid,
  keeps ExercisesSchema.sound (Exercises.enroll_student now sid cid)).
{ intros now sid cid. apply execute_dml_keeps.
  intros d a d' Hd H. eapply insert_enrollment_consistent; eassumption. }
assert (Hcourse : forall code title,
  keeps ExercisesSchema.sound (execute_dml (Exercises.insert_course code title))).
{ intros code title. apply execute_dml_keeps.
  intros d a d' Hd H. eapply insert_course_consistent; eassumption. }
split.
{ intros file. rewrite exercises_create_schema_fresh by reflexivity.
  split; [reflexivity|]. split; [apply exercises_empty_schema_consistent|].
  simpl. discriminate. }
split.
{ intros c (Hfk & Hd & Ht).
  destruct Hd as (ts & tc & te & Hts & Hrest).
  unfold Exercises.create_schema, executescript. simpl.
  unfold Exercises.create_students. rewrite Hts. simpl.
  split; [exact Hfk|]. split; [|simpl; discriminate].
  simpl. exists ts, tc, te. split; [exact Hts | exact Hrest]. }
split.
{ unfold Exercises.seed_courses.
  repeat (apply keeps_bind; [apply Hcourse | intros _]). apply Hcourse. }
split.
{ intros name email. apply execute_dml_keeps.
  intros d a d' Hd H. eapply insert_student_consistent; eassumption. }
split.
{ intros email. apply execute_select_keeps. }
split.
{ intros sid new_name. apply execute_dml_keeps.
  intros d a d' Hd H. eapply update_student_name_consistent; eassumption. }
split.
{ intros sid. apply execute_dml_keeps.
  intros d a d' Hd H. eapply delete_from_students_consistent; eassumption. }
split.
{ apply execute_select_keeps. }
split.
{ exact Henroll. }
split.
{ intros now1 now2 s1 course. apply keeps_try_except.
  - unfold Exercises.enroll_twice_body.
    apply keeps_bind; [apply execute_begin_keeps | intros _].
    apply keeps_bind; [apply Henroll | intros _].
    apply keeps_bind; [apply Henroll | intros _].
    apply execute_commit_keeps.
  - apply execute_rollback_keeps. }
split; [apply execute_begin_keeps|].
split; [apply execute_commit_keeps|].
split; [apply execute_rollback_keeps | apply commit_keeps].
Qed.

(** The database [create_schema] makes of a new file, and Maya added to
    it. *)
Lemma exercises_constraints_kept_witness :
  ExercisesSchema.sound
    (snd (Exercises.add_student "Maya" "maya@example.com"
            (snd (Exercises.create_schema
                    (connect (ExercisesCalls.reset_db Sample.no_exercises)))))).
Proof.
apply (proj1 (proj2 (proj2 (proj2 exercises_constraints_kept)))).
apply (proj1 exercises_constraints_kept).
Defined.

(** ** Lookups by a unique key *)

(** Two rows of a table with the same unique key are one row. *)
Lemma key_determines_row {R K : Type} (key : R -> K) (rs : list R) (a b : R) :
  NoDup (map key rs) -> In a rs -> In b rs -> key a = key b -> a = b.
Proof.
induction rs as [|r rs IH]; simpl; intros Hnd Ha Hb Hk; [contradiction|].
inversion Hnd as [|? ? Hr Hrs]; subst.
destruct Ha as [->|Ha], Hb as [->|Hb].
- reflexivity.
- exfalso. apply Hr. rewrite Hk. apply in_map, Hb.
- exfalso. apply Hr. rewrite <- Hk. apply in_map, Ha.
- apply IH; assumption.
Qed.

Lemma find_by_text_key {R : Type} (key : R -> string) (rs : list R)
  (k : string) :
  NoDup (map key rs) ->
  (forall r, find (fun x => String.eqb (key x) k) rs = Some r
             <-> In r rs /\ key r = k) /\
  (find (fun x => String.eqb (key x) k) rs = None
   <-> forall r, In r rs -> key r <> k).
Proof.
intros Hnd. split.
- intros r. split.
  + intros H. apply find_some in H. destruct H as [Hin Hk].
    split; [exact Hin | apply String.eqb_eq, Hk].
  + intros [Hin Hk].
    destruct (find (fun x => String.eqb (key x) k) rs) as [r'|] eqn:Hf.
    * apply find_some in Hf. destruct Hf as [Hin' Hk'].
      apply String.eqb_eq in Hk'. f_equal.
      apply (key_determines_row key rs); try assumption. congruence.
    * exfalso. apply (find_none _ _ Hf) in Hin.
      apply String.eqb_neq in Hin. contradiction.
- split.
  + intros Hf r Hin. apply (find_none _ _ Hf) in Hin.
    apply String.eqb_neq, Hin.
  + intros Hno. apply find_no_row. intros r Hin.
    apply String.eqb_neq, Hno, Hin.
Qed.

(** X8.  [find_student_by_email] is the lookup by the unique key email:
    it never changes the connection; it returns a student exactly when
    that student is in the table with the email asked for, and the
    absent result exactly when no student has the email.  The lookup of
    [demo_parameterized_query] for maya@example.com behaves likewise. *)
Theorem find_student_by_email_is_lookup :
  (forall (c : Exercises.conn) (t : table Exercises.student) (email : string),
     Exercises.students (data c) = Some t ->
     NoDup (map Exercises.student_email (rows t)) ->
     exists r,
       Exercises.find_student_by_email email c = (Ok r, c) /\
       (forall s, r = Some s
                  <-> In s (rows t) /\ Exercises.student_email s = email) /\
       (r = None
        <-> forall s, In s (rows t) -> Exercises.student_email s <> email)) /\
  (forall (c : Gradebook.conn) (t : table Gradebook.student),
     Gradebook.students (data c) = Some t ->
     NoDup (map Gradebook.student_email (rows t)) ->
     exists r,
       DemoCalls.demo_parameterized_query c = (Ok r, c) /\
       (forall s, r = Some s
                  <-> In s (rows t)
                      /\ Gradebook.student_email s = "maya@example.com"%string) /\
       (r = None
        <-> forall s, In s (rows t) ->
                      Gradebook.student_email s <> "maya@example.com"%string)).
Proof.
split.
- intros c t email Ht Hnd.
  unfold Exercises.find_student_by_email, execute_select,
    Exercises.select_student_by_email.
  rewrite Ht. eexists. split; [reflexivity|].
  exact (find_by_text_key Exercises.student_email (rows t) email Hnd).
- intros c t Ht Hnd.
  unfold DemoCalls.demo_parameterized_query, execute_select,
    DemoCalls.select_student_by_email.
  rewrite Ht. eexists. split; [reflexivity|].
  exact (find_by_text_key Gradebook.student_email (rows t)
           "maya@example.com" Hnd).
Qed.

(** The database [setup] leaves: the lookup of Ava. *)
Lemma find_student_by_email_is_lookup_witness :
  exists r,
    Exercises.find_student_by_email "ava@example.com" Sample.exercises_conn
    = (Ok r, Sample.exercises_conn) /\
    (r = Some (Exercises.mkStudent 1 "Ava" "ava@example.com")).
Proof.
destruct (proj1 find_student_by_email_is_lookup Sample.exercises_conn _
            "ava@example.com"%string eq_refl sample_student_emails_unique)
  as [r [Hrun [Hsome _]]].
exists r. split; [exact Hrun|].
apply Hsome. simpl. split; [left; reflexivity | reflexivity].
Defined.

(** ** Composition of the calls of exercises.py *)

Section ExercisesCallFacts.
Import Exercises ExercisesCalls.
Local Open Scope monad_scope.

(** The rows a new student adds to, seen by the later statements. *)
Lemma filter_appended_student (sid : Z) (l : list student) (s : student) :
  (forall s0, In s0 l -> student_id s0 <> sid) ->
  student_id s = sid ->
  filter (has_student_id sid) (l ++ [s]) = [s] /\
  filter (fun s0 => negb (has_student_id sid s0)) (l ++ [s]) = l.
Proof.
intros Hl Hs. rewrite !filter_app. simpl.
rewrite (proj2 (has_student_id_true sid s) Hs). simpl. split.
- rewrite filter_none; [reflexivity|].
  intros s0 Hin. apply has_student_id_false, Hl, Hin.
- rewrite filter_all; [apply app_nil_r|].
  intros s0 Hin. apply negb_true_iff, has_student_id_false, Hl, Hin.
Qed.

Lemma rename_appended_student (sid : Z) (new_name : string) (l : list student)
  (s : student) :
  (forall s0, In s0 l -> student_id s0 <> sid) ->
  student_id s = sid ->
  map (fun s0 => if has_student_id sid s0 then set_name new_name s0 else s0)
    (l ++ [s])
  = l ++ [set_name new_name s].
Proof.
intros Hl Hs. rewrite map_app. simpl.
rewrite (proj2 (has_student_id_true sid s) Hs). f_equal.
apply map_id_on. intros s0 Hin.
rewrite (proj2 (has_student_id_false sid s0) (Hl s0 Hin)). reflexivity.
Qed.

End ExercisesCallFacts.

(** X9.  A student added under an email that no student has, to a table
    that has an id left in a database that has its courses table, then
    renamed, looked up, deleted and looked up again, as
    test_update_and_delete_student does: both row counts are 1, the first
    lookup returns the new name under the id that [add_student] returned,
    the second the absent result; the id is above every id of the table,
    and at the end the students table has the rows it had before and no
    transaction is open. *)
Theorem add_rename_delete_round_trip
  (c : Exercises.conn) (t : table Exercises.student)
  (tc : table Exercises.course)
  (name email new_name : string) :
  Exercises.students (data c) = Some t ->
  Exercises.courses (data c) = Some tc ->
  has_room Exercises.student_id t = true ->
  (forall s, In s (rows t) -> Exercises.student_email s <> email) ->
  exists (sid : Z) (c' : Exercises.conn) (t' : table Exercises.student),
    ExercisesCalls.add_rename_delete name email new_name c
    = (Ok (1, Some (Exercises.mkStudent sid new_name email), 1, None), c') /\
    (forall s, In s (rows t) -> Exercises.student_id s < sid) /\
    Exercises.students (data c') = Some t' /\
    rows t' = rows t /\
    seq t' = sid /\
    Exercises.courses (data c') = Exercises.courses (data c) /\
    txn c' = None.
Proof.
intros Ht Htc Hroom Hfresh.
assert (Hnone : forall s, In s (rows t) -> Exercises.has_email email s = false).
{ intros s Hs. apply has_email_false, Hfresh, Hs. }
pose proof (next_rowid_int64 Exercises.student_id t Hroom) as Hsid64.
set (sid := next_rowid Exercises.student_id t) in *.
assert (Hids : forall s, In s (rows t) -> Exercises.student_id s <> sid).
{ intros s Hs. pose proof (next_rowid_above Exercises.student_id t s Hs).
  unfold sid. lia. }
set (new := Exercises.mkStudent sid name email).
destruct (filter_appended_student sid (rows t) new Hids eq_refl) as [Hf1 _].
pose proof (rename_appended_student sid new_name (rows t) new Hids eq_refl)
  as Hmap.
destruct (filter_appended_student sid (rows t)
            (Exercises.set_name new_name new) Hids eq_refl) as [Hf2 Hf3].
exists sid.
destruct c as [[ts tcs te] tx fk]. simpl in Ht, Htc. subst ts tcs.
unfold ExercisesCalls.add_rename_delete, bind.
unfold Exercises.add_student, Exercises.rename_student,
  Exercises.delete_student, Exercises.find_student_by_email, execute_dml,
  execute_select, commit, Exercises.insert_student,
  Exercises.update_student_name, Exercises.delete_from_students,
  Exercises.select_student_by_email, Exercises.cascade_prepared.
cbn [data txn foreign_keys Exercises.students].
rewrite Hroom, (proj2 (existsb_false_iff _ _) Hnone). cbn [negb].
fold sid. fold new.
cbn [data txn foreign_keys Exercises.students Exercises.courses
     Exercises.enrollments Exercises.with_students append_row rows set_rows].
rewrite Hsid64. cbn [negb].
rewrite Hf1, Hmap.
cbn [data txn foreign_keys Exercises.students Exercises.courses
     Exercises.enrollments Exercises.with_students append_row rows set_rows].
assert (Hprep : match te with Some _ => true | None => true end = true)
  by (destruct te; reflexivity).
rewrite Hprep. cbn [negb].
rewrite Hf2, Hf3.
rewrite (find_app_last (Exercises.has_email email) (rows t)
           (Exercises.set_name new_name new) Hnone)
  by (unfold Exercises.has_email; simpl; apply String.eqb_refl).
cbn [data txn foreign_keys Exercises.students Exercises.courses
     Exercises.enrollments Exercises.with_students append_row rows set_rows].
rewrite (proj1 (find_no_row (Exercises.has_email email) (rows t)) Hnone).
eexists. eexists. split; [reflexivity|].
split.
{ intros s Hs. apply (next_rowid_above Exercises.student_id t s Hs). }
simpl. repeat split.
Qed.
(** The test itself: Noah becomes Noah Kim on the database [setup_db]
    leaves. *)
Lemma add_rename_delete_round_trip_witness :
  exists (c' : Exercises.conn),
    ExercisesCalls.add_rename_delete "Noah" "noah@example.com" "Noah Kim"
      (snd (ExercisesCalls.setup_db (connect Sample.no_exercises)))
    = (Ok (1, Some (Exercises.mkStudent 1 "Noah Kim" "noah@example.com"), 1,
           None), c').
Proof.
destruct (add_rename_delete_round_trip
            (snd (ExercisesCalls.setup_db (connect Sample.no_exercises)))
            (empty_table Exercises.students_columns) _
            "Noah" "noah@example.com" "Noah Kim" eq_refl eq_refl eq_refl)
  as (sid & c' & t' & Hrun & _ & _ & _ & Hseq & _).
- simpl. contradiction.
- exists c'. rewrite Hrun. repeat f_equal.
  apply (f_equal fst) in Hrun. vm_compute in Hrun. inversion Hrun. reflexivity.
Defined.

(** X10.  AUTOINCREMENT never hands an id out twice: on a table that has
    two ids left, in a database that has its courses table, a student
    added, deleted, and another student added (under the same email or
    not) get two ids, the second above the first, both positive and
    above every id of the table. *)
Theorem student_ids_never_reused
  (c : Exercises.conn) (t : table Exercises.student)
  (tc : table Exercises.course)
  (name1 email1 name2 email2 : string) :
  Exercises.students (data c) = Some t ->
  Exercises.courses (data c) = Some tc ->
  (next_rowid Exercises.student_id t <? rowid_limit) = true ->
  (forall s, In s (rows t) -> Exercises.student_email s <> email1) ->
  (forall s, In s (rows t) -> Exercises.student_email s <> email2) ->
  exists (sid1 sid2 : Z) (c' : Exercises.conn),
    bind (Exercises.add_student name1 email1)
      (fun sid1 =>
         bind (Exercises.delete_student sid1)
           (fun _ =>
              bind (Exercises.add_student name2 email2)
                (fun sid2 => ret (sid1, sid2)))) c
    = (Ok (sid1, sid2), c') /\
    0 < sid1 < sid2 /\
    forall s, In s (rows t) -> Exercises.student_id s < sid1.
Proof.
intros Ht Htc Hroom2 Hfresh1 Hfresh2.
pose proof (has_room_of_two Exercises.student_id t Hroom2) as Hroom.
assert (Hnone1 : forall s, In s (rows t) -> Exercises.has_email email1 s = false).
{ intros s Hs. apply has_email_false, Hfresh1, Hs. }
assert (Hnone2 : forall s, In s (rows t) -> Exercises.has_email email2 s = false).
{ intros s Hs. apply has_email_false, Hfresh2, Hs. }
pose proof (next_rowid_int64 Exercises.student_id t Hroom) as Hsid64.
assert (Hroom' : forall l,
  l = rows t ->
  has_room Exercises.student_id
    (mkTable (columns t) l (next_rowid Exercises.student_id t) (indexes t))
  = true).
{ intros l ->. unfold has_room. cbn [rows seq].
  apply Z.ltb_lt in Hroom2. apply Z.ltb_lt. unfold next_rowid in *. lia. }
set (sid := next_rowid Exercises.student_id t) in *.
assert (Hids : forall s, In s (rows t) -> Exercises.student_id s <> sid).
{ intros s Hs. pose proof (next_rowid_above Exercises.student_id t s Hs).
  unfold sid. lia. }
set (new := Exercises.mkStudent sid name1 email1).
destruct (filter_appended_student sid (rows t) new Hids eq_refl) as [Hf1 Hf2].
destruct c as [[ts tcs te] tx fk]. simpl in Ht, Htc. subst ts tcs.
unfold bind, Exercises.add_student, Exercises.delete_student, execute_dml,
  Exercises.insert_student, Exercises.delete_from_students,
  Exercises.cascade_prepared.
cbn [data txn foreign_keys Exercises.students].
rewrite Hroom, (proj2 (existsb_false_iff _ _) Hnone1). cbn [negb].
fold sid. fold new.
cbn [data txn foreign_keys Exercises.students Exercises.courses
     Exercises.enrollments Exercises.with_students append_row rows set_rows].
assert (Hprep : match te with Some _ => true | None => true end = true)
  by (destruct te; reflexivity).
rewrite Hprep, Hsid64. cbn [negb].
rewrite Hf1, Hf2.
cbn [data txn foreign_keys Exercises.students Exercises.courses
     Exercises.enrollments Exercises.with_students append_row rows set_rows
     columns seq indexes].
change (set_rows (append_row t sid new) (rows t))
  with (mkTable (columns t) (rows t) sid (indexes t)).
rewrite (Hroom' (rows t) eq_refl). cbn [negb].
rewrite (proj2 (existsb_false_iff _ _) Hnone2).
eexists. eexists. eexists. split; [reflexivity|].
split.
- split; [apply next_rowid_positive|].
  unfold next_rowid. simpl. lia.
- intros s Hs. apply (next_rowid_above Exercises.student_id t s Hs).
Qed.

(** Maya added to the database [setup] leaves, deleted and added again. *)
Lemma student_ids_never_reused_witness :
  exists (c' : Exercises.conn),
    bind (Exercises.add_student "Maya" "maya@example.com")
      (fun sid1 =>
         bind (Exercises.delete_student sid1)
           (fun _ =>
              bind (Exercises.add_student "Maya" "maya@example.com")
                (fun sid2 => ret (sid1, sid2)))) Sample.exercises_conn
    = (Ok (3, 4), c').
Proof.
destruct (student_ids_never_reused Sample.exercises_conn _ _
            "Maya" "maya@example.com" "Maya" "maya@example.com"
            eq_refl eq_refl eq_refl)
  as (sid1 & sid2 & c' & Hrun & _).
- simpl. intros s [<-|[<-|[]]]; simpl; discriminate.
- simpl. intros s [<-|[<-|[]]]; simpl; discriminate.
- exists c'. rewrite Hrun. repeat f_equal.
  + apply (f_equal fst) in Hrun. vm_compute in Hrun. inversion Hrun.
    reflexivity.
  + apply (f_equal fst) in Hrun. vm_compute in Hrun. inversion Hrun.
    reflexivity.
Defined.

(** X4.  [add_student], on a table that has an id left and a connection
    with no open transaction, opens one and leaves it open: until
    [conn.commit()] a BEGIN raises OperationalError, which the [try]
    block of [main] does not catch, and a ROLLBACK takes the student away
    again; after [conn.commit()] the student stays and a ROLLBACK raises
    OperationalError. *)
Theorem add_student_needs_commit
  (c : Exercises.conn) (t : table Exercises.student)
  (name email now1 now2 : string) (s1 course : Z) :
  txn c = None ->
  Exercises.students (data c) = Some t ->
  has_room Exercises.student_id t = true ->
  (forall s, In s (rows t) -> Exercises.student_email s <> email) ->
  exists (sid : Z) (c1 : Exercises.conn),
    Exercises.add_student name email c = (Ok sid, c1) /\
    in_transaction c1 = true /\
    execute_begin c1 = (Raise OperationalError, c1) /\
    Exercises.enroll_twice now1 now2 s1 course c1
    = (Raise OperationalError, c1) /\
    execute_rollback c1 = (Ok tt, c) /\
    data (snd (commit c1)) = data c1 /\
    execute_rollback (snd (commit c1))
    = (Raise OperationalError, snd (commit c1)).
Proof.
intros Htxn Ht Hroom Hfresh.
assert (Hnone : forall s, In s (rows t) -> Exercises.has_email email s = false).
{ intros s Hs. apply has_email_false, Hfresh, Hs. }
unfold Exercises.add_student, execute_dml, Exercises.insert_student.
rewrite Ht, Htxn, Hroom, (proj2 (existsb_false_iff _ _) Hnone).
cbn [negb].
eexists. eexists. split; [reflexivity|].
split; [reflexivity|]. split; [reflexivity|]. split; [reflexivity|].
split; [|split; reflexivity].
unfold execute_rollback. simpl. rewrite (conn_eta c Htxn). reflexivity.
Qed.

(** Maya added to the database [setup] leaves, where the ids 1 and 2 are
    those of Ava and of CS205. *)
Lemma add_student_needs_commit_witness :
  exists (sid : Z) (c1 : Exercises.conn),
    Exercises.add_student "Maya" "maya@example.com" Sample.exercises_conn
    = (Ok sid, c1) /\
    Exercises.enroll_twice "t1" "t2" 1 2 c1 = (Raise OperationalError, c1) /\
    execute_rollback c1 = (Ok tt, Sample.exercises_conn).
Proof.
destruct (add_student_needs_commit Sample.exercises_conn _
            "Maya" "maya@example.com" "t1" "t2" 1 2 eq_refl eq_refl eq_refl)
  as (sid & c1 & Hadd & _ & _ & Htry & Hback & _).
- simpl. intros s [<-|[<-|[]]]; simpl; discriminate.
- exists sid, c1. split; [exact Hadd|]. split; [exact Htry | exact Hback].
Defined.

(** ** Enrollments and their listing *)

Lemma flat_map_one_each {A B : Type} (F : A -> list B) (l : list A) :
  (forall a, In a l -> exists b, F a = [b]) ->
  List.length (flat_map F l) = List.length l.
Proof.
induction l as [|a l IH]; simpl; intros H; [reflexivity|].
destruct (H a (or_introl eq_refl)) as [b ->]. simpl. f_equal.
apply IH. intros a' Ha'. apply H. right. exact Ha'.
Qed.

Section EnrollmentFacts.
Import Exercises.

(** With ids that are keys, the two joins give one row for an enrollment
    whose student and course exist. *)
Lemma join_of_enrollment (ts : table student) (tc : table course)
  (sid cid : Z) (s : student) (co : course) :
  NoDup (map student_id (rows ts)) ->
  NoDup (map course_id (rows tc)) ->
  In s (rows ts) -> student_id s = sid ->
  In co (rows tc) -> course_id co = cid ->
  flat_map (fun s0 =>
    map (fun c0 =>
           mkEnrollmentRow (student_name s0) (course_code c0) (course_title c0))
        (filter (has_course_id cid) (rows tc)))
    (filter (has_student_id sid) (rows ts))
  = [mkEnrollmentRow (student_name s) (course_code co) (course_title co)].
Proof.
intros Hs Hc Hins <- Hinc <-.
change (has_student_id (student_id s))
  with (fun y => student_id y =? student_id s).
change (has_course_id (course_id co))
  with (fun y => course_id y =? course_id co).
rewrite (filter_key_unique student_id (rows ts) s Hs Hins),
  (filter_key_unique course_id (rows tc) co Hc Hinc).
reflexivity.
Qed.

Lemma join_enrollments_appended (te : table enrollment) (ts : table student)
  (tc : table course) (id : Z) (e : enrollment) :
  join_enrollments (append_row te id e) ts tc
  = join_enrollments te ts tc
    ++ flat_map (fun s0 =>
         map (fun c0 =>
                mkEnrollmentRow (student_name s0) (course_code c0)
                  (course_title c0))
             (filter (has_course_id (e_course_id e)) (rows tc)))
         (filter (has_student_id (e_student_id e)) (rows ts)).
Proof.
unfold join_enrollments. simpl. rewrite flat_map_app. simpl.
rewrite app_nil_r. reflexivity.
Qed.

End EnrollmentFacts.

(** X11.  An enrollment of a student and a course of the tables that are
    not yet enrolled together is accepted (their ids being signed 64-bit
    integers, as every id a table holds, and the enrollments table having
    an id left), and it adds to the listing of
    [list_enrollments] the row of the student's name and the course's
    code and title, leaving the other rows; done between BEGIN and
    COMMIT, as the valid transaction of [main] does, it gives the same
    listing, no transaction stays open and a later ROLLBACK raises
    OperationalError. *)
Theorem enroll_student_then_listed
  (c : Exercises.conn) (ts : table Exercises.student)
  (tc : table Exercises.course) (te : table Exercises.enrollment)
  (s : Exercises.student) (co : Exercises.course) (now : string) :
  Exercises.students (data c) = Some ts ->
  Exercises.courses (data c) = Some tc ->
  Exercises.enrollments (data c) = Some te ->
  NoDup (map Exercises.student_id (rows ts)) ->
  NoDup (map Exercises.course_id (rows tc)) ->
  In s (rows ts) ->
  In co (rows tc) ->
  int64 (Exercises.student_id s) = true ->
  int64 (Exercises.course_id co) = true ->
  has_room Exercises.enrollment_id te = true ->
  (forall e, In e (rows te) ->
     ~ (Exercises.e_student_id e = Exercises.student_id s /\
        Exercises.e_course_id e = Exercises.course_id co)) ->
  exists (rws rws1 : list Exercises.enrollment_row) (c1 : Exercises.conn),
    Exercises.list_enrollments c = (Ok rws, c) /\
    Exercises.enroll_student now (Exercises.student_id s)
      (Exercises.course_id co) c = (Ok tt, c1) /\
    Exercises.list_enrollments c1 = (Ok rws1, c1) /\
    Permutation rws1
      (Exercises.mkEnrollmentRow (Exercises.student_name s)
         (Exercises.course_code co) (Exercises.course_title co) :: rws) /\
    (txn c = None ->
     exists c2 : Exercises.conn,
       ExercisesCalls.enroll_committed now (Exercises.student_id s)
         (Exercises.course_id co) c = (Ok rws1, c2) /\
       data c2 = data c1 /\
       txn c2 = None /\
       execute_rollback c2 = (Raise OperationalError, c2)).
Proof.
intros Hts Htc Hte Hnds Hndc Hs Hco Hs64 Hc64 Hroom Hnew.
assert (Hes : existsb (Exercises.has_student_id (Exercises.student_id s))
                (rows ts) = true).
{ apply existsb_exists. exists s. split; [exact Hs|]. apply Z.eqb_refl. }
assert (Hec : existsb (Exercises.has_course_id (Exercises.course_id co))
                (rows tc) = true).
{ apply existsb_exists. exists co. split; [exact Hco|]. apply Z.eqb_refl. }
assert (Hee : existsb (Exercises.is_enrollment (Exercises.student_id s)
                         (Exercises.course_id co)) (rows te) = false).
{ apply existsb_false_iff. intros e He. unfold Exercises.is_enrollment.
  apply andb_false_iff.
  destruct (Exercises.e_student_id e =? Exercises.student_id s) eqn:H1;
    [|left; reflexivity].
  right. apply Z.eqb_neq. intros H2. apply (Hnew e He).
  split; [apply Z.eqb_eq, H1 | exact H2]. }
set (id := next_rowid Exercises.enrollment_id te).
set (e := Exercises.mkEnrollment id (Exercises.student_id s)
            (Exercises.course_id co) now).
set (d1 := Exercises.with_enrollments (data c) (append_row te id e)).
assert (Hins : Exercises.insert_enrollment now (Exercises.student_id s)
                 (Exercises.course_id co) (foreign_keys c) (data c)
               = Ok (tt, d1)).
{ unfold Exercises.insert_enrollment.
  rewrite Hte, Hts, Htc, Hes, Hec, Hee, Hs64, Hc64, Hroom.
  simpl. destruct (foreign_keys c); reflexivity. }
assert (Hsel : Exercises.select_enrollments d1
  = Ok (order_by Exercises.enrollment_row_leb
          (Exercises.join_enrollments te ts tc
           ++ [Exercises.mkEnrollmentRow (Exercises.student_name s)
                 (Exercises.course_code co) (Exercises.course_title co)]))).
{ unfold Exercises.select_enrollments, d1. simpl. rewrite Hts, Htc.
  rewrite join_enrollments_appended. simpl.
  rewrite (join_of_enrollment ts tc _ _ s co Hnds Hndc Hs eq_refl Hco eq_refl).
  reflexivity. }
assert (Hperm : Permutation
  (order_by Exercises.enrollment_row_leb
     (Exercises.join_enrollments te ts tc
      ++ [Exercises.mkEnrollmentRow (Exercises.student_name s)
            (Exercises.course_code co) (Exercises.course_title co)]))
  (Exercises.mkEnrollmentRow (Exercises.student_name s)
     (Exercises.course_code co) (Exercises.course_title co)
   :: order_by Exercises.enrollment_row_leb
        (Exercises.join_enrollments te ts tc))).
{ etransitivity; [apply order_by_perm|].
  etransitivity; [apply Permutation_app_comm|]. simpl.
  apply perm_skip. symmetry. apply order_by_perm. }
eexists. eexists. eexists.
split.
{ unfold Exercises.list_enrollments, execute_select,
    Exercises.select_enrollments. rewrite Hte, Hts, Htc. reflexivity. }
split.
{ unfold Exercises.enroll_student, execute_dml. rewrite Hins. reflexivity. }
split.
{ unfold Exercises.list_enrollments, execute_select. simpl. rewrite Hsel.
  reflexivity. }
split; [exact Hperm|].
intros Htxn. eexists.
unfold ExercisesCalls.enroll_committed, bind, execute_begin.
rewrite Htxn. unfold Exercises.enroll_student, execute_dml. simpl.
rewrite Hins. unfold execute_commit. simpl.
unfold Exercises.list_enrollments, execute_select. simpl. rewrite Hsel.
split; [reflexivity|]. repeat split.
Qed.

(** The valid transaction of [main]: Ava (id 1) enrolls in CS205 (id 2)
    on the database [setup] leaves. *)
Lemma enroll_student_then_listed_witness :
  exists c2 : Exercises.conn,
    ExercisesCalls.enroll_committed "2026-01-01 00:00:00" 1 2
      Sample.exercises_conn
    = (Ok [Exercises.mkEnrollmentRow "Ava" "CS205" "Web Development"], c2) /\
    execute_rollback c2 = (Raise OperationalError, c2).
Proof.
destruct (enroll_student_then_listed Sample.exercises_conn _ _ _
            (Exercises.mkStudent 1 "Ava" "ava@example.com")
            (Exercises.mkCourse 2 "CS205" "Web Development")
            "2026-01-01 00:00:00" eq_refl eq_refl eq_refl)
  as (rws & rws1 & c1 & _ & _ & _ & _ & Hcommitted).
- simpl. repeat constructor; simpl; intuition discriminate.
- simpl. repeat constructor; simpl; intuition discriminate.
- simpl. auto.
- simpl. auto.
- reflexivity.
- reflexivity.
- reflexivity.
- simpl. contradiction.
- destruct (Hcommitted eq_refl) as (c2 & Hrun & _ & _ & Hback).
  exists c2. split; [|exact Hback].
  simpl in Hrun. rewrite Hrun. repeat f_equal.
  apply (f_equal fst) in Hrun. vm_compute in Hrun. inversion Hrun.
  reflexivity.
Defined.

(** X12.  With foreign keys enforced, ids that are signed 64-bit
    integers and a table that has an id left, [enroll_student] raises
    IntegrityError and changes no row when no student or no course has
    the id given, or when the pair is enrolled already. *)
Theorem enroll_student_constraints
  (c : Exercises.conn) (ts : table Exercises.student)
  (tc : table Exercises.course) (te : table Exercises.enrollment)
  (now : string) (sid cid : Z) :
  foreign_keys c = true ->
  Exercises.students (data c) = Some ts ->
  Exercises.courses (data c) = Some tc ->
  Exercises.enrollments (data c) = Some te ->
  int64 sid = true ->
  int64 cid = true ->
  has_room Exercises.enrollment_id te = true ->
  (forall s, In s (rows ts) -> Exercises.student_id s <> sid) \/
  (forall co, In co (rows tc) -> Exercises.course_id co <> cid) \/
  (exists e, In e (rows te) /\ Exercises.e_student_id e = sid
             /\ Exercises.e_course_id e = cid) ->
  exists c' : Exercises.conn,
    Exercises.enroll_student now sid cid c = (Raise IntegrityError, c') /\
    data c' = data c /\
    Exercises.list_enrollments c' = (fst (Exercises.list_enrollments c), c').
Proof.
intros Hfk Hts Htc Hte Hs64 Hc64 Hroom Hbad.
assert (Hins : Exercises.insert_enrollment now sid cid true (data c)
               = Raise IntegrityError).
{ unfold Exercises.insert_enrollment.
  rewrite Hte, Hts, Htc, Hs64, Hc64, Hroom. cbn [andb negb].
  destruct Hbad as [Hs|[Hc|[e [He [H1 H2]]]]].
  - rewrite (proj2 (existsb_false_iff _ _)); [reflexivity|].
    intros s Hin. apply has_student_id_false, Hs, Hin.
  - rewrite (proj2 (existsb_false_iff (Exercises.has_course_id cid) _));
      [rewrite andb_false_r; reflexivity|].
    intros co Hin. apply Z.eqb_neq, Hc, Hin.
  - assert (Hdup : existsb (Exercises.is_enrollment sid cid) (rows te) = true).
    { apply existsb_exists. exists e. split; [exact He|].
      unfold Exercises.is_enrollment. rewrite H1, H2, !Z.eqb_refl.
      reflexivity. }
    rewrite Hdup.
    destruct (existsb (Exercises.has_student_id sid) (rows ts)
              && existsb (Exercises.has_course_id cid) (rows tc));
      reflexivity. }
unfold Exercises.enroll_student, execute_dml. rewrite Hfk, Hins.
eexists. split; [reflexivity|]. split; reflexivity.
Qed.

(** The database [setup] leaves has no student 9 and no course 9; on the
    one with three enrollments Ava (id 1) is in CS101 (id 1) already. *)
Lemma enroll_student_constraints_witness :
  fst (Exercises.enroll_student "t" 9 2 Sample.exercises_conn)
  = Raise IntegrityError /\
  fst (Exercises.enroll_student "t" 1 9 Sample.exercises_conn)
  = Raise IntegrityError /\
  fst (Exercises.enroll_student "t" 1 1 Sample.enrolled_conn)
  = Raise IntegrityError.
Proof.
split; [|split].
- destruct (enroll_student_constraints Sample.exercises_conn _ _ _ "t" 9 2
              eq_refl eq_refl eq_refl eq_refl eq_refl eq_refl eq_refl)
    as [c' [Hrun _]].
  + left. simpl. intros s [<-|[<-|[]]]; simpl; discriminate.
  + rewrite Hrun. reflexivity.
- destruct (enroll_student_constraints Sample.exercises_conn _ _ _ "t" 1 9
              eq_refl eq_refl eq_refl eq_refl eq_refl eq_refl eq_refl)
    as [c' [Hrun _]].
  + right. left. simpl. intros s [<-|[<-|[<-|[]]]]; simpl; discriminate.
  + rewrite Hrun. reflexivity.
- destruct (enroll_student_constraints Sample.enrolled_conn _ _ _ "t" 1 1
              eq_refl eq_refl eq_refl eq_refl eq_refl eq_refl eq_refl)
    as [c' [Hrun _]].
  + right. right. exists (Exercises.mkEnrollment 3 1 1 "t3").
    simpl. auto.
  + rewrite Hrun. reflexivity.
Defined.

(** X13.  On a consistent database the listing of [list_enrollments]
    has exactly one row for each enrollment: as many rows as the
    enrollments table, and for every enrollment the row of the name of
    its student and the code and title of its course. *)
Theorem list_enrollments_one_row_each (c : Exercises.conn) :
  ExercisesSchema.consistent (data c) ->
  exists (te : table Exercises.enrollment) (ts : table Exercises.student)
         (tc : table Exercises.course) (rws : list Exercises.enrollment_row),
    Exercises.enrollments (data c) = Some te /\
    Exercises.students (data c) = Some ts /\
    Exercises.courses (data c) = Some tc /\
    Exercises.list_enrollments c = (Ok rws, c) /\
    List.length rws = List.length (rows te) /\
    forall e, In e (rows te) ->
      exists s co,
        In s (rows ts) /\ Exercises.student_id s = Exercises.e_student_id e /\
        In co (rows tc) /\ Exercises.course_id co = Exercises.e_course_id e /\
        In (Exercises.mkEnrollmentRow (Exercises.student_name s)
              (Exercises.course_code co) (Exercises.course_title co)) rws.
Proof.
intros (ts & tc & te & Hts & Htc & Hte & Hkeys & Hrefs & _).
destruct Hkeys as ((Hsid & _) & Hcid & _).
assert (Hone : forall e, In e (rows te) ->
  exists s co,
    In s (rows ts) /\ Exercises.student_id s = Exercises.e_student_id e /\
    In co (rows tc) /\ Exercises.course_id co = Exercises.e_course_id e /\
    flat_map (fun s0 =>
      map (fun c0 =>
             Exercises.mkEnrollmentRow (Exercises.student_name s0)
               (Exercises.course_code c0) (Exercises.course_title c0))
          (filter (Exercises.has_course_id (Exercises.e_course_id e)) (rows tc)))
      (filter (Exercises.has_student_id (Exercises.e_student_id e)) (rows ts))
    = [Exercises.mkEnrollmentRow (Exercises.student_name s)
         (Exercises.course_code co) (Exercises.course_title co)]).
{ intros e He. destruct (Hrefs e He) as [H1 H2].
  apply in_map_iff in H1. destruct H1 as [s [Hs1 Hs2]].
  apply in_map_iff in H2. destruct H2 as [co [Hc1 Hc2]].
  exists s, co. repeat split; try assumption.
  apply join_of_enrollment; assumption. }
exists te, ts, tc. eexists.
split; [exact Hte|]. split; [exact Hts|]. split; [exact Htc|].
split.
{ unfold Exercises.list_enrollments, execute_select,
    Exercises.select_enrollments. rewrite Hte, Hts, Htc. reflexivity. }
split.
- rewrite (Permutation_length (order_by_perm _ _)).
  unfold Exercises.join_enrollments. apply flat_map_one_each.
  intros e He. destruct (Hone e He) as (s & co & _ & _ & _ & _ & Hrow).
  eexists. exact Hrow.
- intros e He. destruct (Hone e He) as (s & co & H1 & H2 & H3 & H4 & Hrow).
  exists s, co. repeat split; try assumption.
  apply (Permutation_in _ (Permutation_sym (order_by_perm _ _))).
  unfold Exercises.join_enrollments. apply in_flat_map.
  exists e. split; [exact He|]. rewrite Hrow. left. reflexivity.
Qed.

Lemma enrolled_sample_consistent :
  ExercisesSchema.consistent (data Sample.enrolled_conn).
Proof.
eexists. eexists. eexists.
split; [reflexivity|]. split; [reflexivity|]. split; [reflexivity|].
split.
{ repeat split; simpl; repeat constructor; simpl; intuition discriminate. }
split.
{ intros e [<-|[<-|[<-|[]]]]; simpl; split; auto 10. }
repeat split; simpl in *; try lia;
  repeat match goal with
         | H : _ \/ _ |- _ => destruct H as [<-|H]; [simpl; lia|]
         end; contradiction.
Qed.

(** The database [setup] leaves, with its three enrollments. *)
Lemma list_enrollments_one_row_each_witness :
  exists rws : list Exercises.enrollment_row,
    Exercises.list_enrollments Sample.enrolled_conn
    = (Ok rws, Sample.enrolled_conn) /\
    List.length rws = 3%nat.
Proof.
destruct (list_enrollments_one_row_each Sample.enrolled_conn
            enrolled_sample_consistent)
  as (te & ts & tc & rws & Hte & _ & _ & Hrun & Hlen & _).
exists rws. split; [exact Hrun|].
rewrite Hlen. simpl in Hte. inversion Hte. reflexivity.
Defined.

(** ** The courses of [seed_courses] *)

Lemma find_after_no_match {R : Type} (matches : R -> bool) (l l' : list R) :
  (forall r, In r l -> matches r = false) ->
  find matches (l ++ l') = find matches l'.
Proof.
intros H. induction l as [|r l IH]; simpl; [reflexivity|].
rewrite (H r (or_introl eq_refl)). apply IH.
intros r' Hr'. apply H. right. exact Hr'.
Qed.

Lemma seed_one_course (c : Exercises.conn) (tc : table Exercises.course)
  (code title : string) :
  Exercises.courses (data c) = Some tc ->
  has_room Exercises.course_id tc = true ->
  (forall co, In co (rows tc) -> Exercises.course_code co <> code) ->
  exists c' : Exercises.conn,
    execute_dml (Exercises.insert_course code title) c = (Ok tt, c') /\
    Exercises.courses (data c')
    = Some (append_row tc (next_rowid Exercises.course_id tc)
              (Exercises.mkCourse (next_rowid Exercises.course_id tc)
                 code title)) /\
    Exercises.students (data c') = Exercises.students (data c) /\
    Exercises.enrollments (data c') = Exercises.enrollments (data c).
Proof.
intros Htc Hroom Hnone. unfold execute_dml, Exercises.insert_course.
rewrite Htc, Hroom. cbn [negb].
rewrite (proj2 (existsb_false_iff _ _)).
- eexists. split; [reflexivity|]. repeat split.
- intros co Hco. apply String.eqb_neq, Hnone, Hco.
Qed.

(** X16.  On a courses table that has none of the three codes and has
    four ids left, [seed_courses] adds CS101, CS205 and CS310 in this
    order under the next three ids and touches no other table, after
    which the lookup of a course id by each code, as [main] does it for
    CS205, finds that id; run a second time it raises IntegrityError and
    adds nothing. *)
Theorem seed_courses_adds_three (c : Exercises.conn)
  (tc : table Exercises.course) :
  Exercises.courses (data c) = Some tc ->
  (next_rowid Exercises.course_id tc + 2 <? rowid_limit) = true ->
  (forall co, In co (rows tc) ->
     ~ In (Exercises.course_code co) ["CS101"; "CS205"; "CS310"]%string) ->
  let n := next_rowid Exercises.course_id tc in
  exists (c' : Exercises.conn) (tc' : table Exercises.course),
    Exercises.seed_courses c = (Ok tt, c') /\
    Exercises.courses (data c') = Some tc' /\
    rows tc'
    = rows tc
      ++ [Exercises.mkCourse n "CS101" "Intro to Programming";
          Exercises.mkCourse (n + 1) "CS205" "Web Development";
          Exercises.mkCourse (n + 2) "CS310" "Data Structures"] /\
    Exercises.students (data c') = Exercises.students (data c) /\
    Exercises.enrollments (data c') = Exercises.enrollments (data c) /\
    execute_select (Exercises.select_course_id "CS101") c' = (Ok (Some n), c') /\
    execute_select (Exercises.select_course_id "CS205") c'
    = (Ok (Some (n + 1)), c') /\
    execute_select (Exercises.select_course_id "CS310") c'
    = (Ok (Some (n + 2)), c') /\
    exists c'' : Exercises.conn,
      Exercises.seed_courses c' = (Raise IntegrityError, c'') /\
      data c'' = data c'.
Proof.
intros Htc Hroom4 Hnone n.
assert (Hlim : n + 2 < rowid_limit) by (apply Z.ltb_lt; exact Hroom4).
assert (Hroom1 : has_room Exercises.course_id tc = true).
{ apply has_room_of_two. apply Z.ltb_lt. fold n. lia. }
destruct (seed_one_course c tc "CS101" "Intro to Programming" Htc Hroom1)
  as (c1 & Hrun1 & Hc1 & Hs1 & He1).
{ intros co Hco Heq. apply (Hnone co Hco). rewrite Heq. simpl. auto. }
fold n in Hc1.
assert (Hn1 : next_rowid Exercises.course_id
                (append_row tc n
                   (Exercises.mkCourse n "CS101" "Intro to Programming"))
              = n + 1).
{ apply (next_rowid_appended Exercises.course_id tc). reflexivity. }
assert (Hroom2 : has_room Exercises.course_id
                   (append_row tc n
                      (Exercises.mkCourse n "CS101" "Intro to Programming"))
                 = true).
{ apply (has_room_appended Exercises.course_id tc); [reflexivity|].
  apply Z.ltb_lt. fold n. lia. }
destruct (seed_one_course c1 _ "CS205" "Web Development" Hc1 Hroom2)
  as (c2 & Hrun2 & Hc2 & Hs2 & He2).
{ simpl. intros co Hco Heq. apply in_app_or in Hco.
  destruct Hco as [Hco|[<-|[]]]; [|discriminate].
  apply (Hnone co Hco). rewrite Heq. simpl. auto. }
rewrite Hn1 in Hc2.
assert (Hn2 : next_rowid Exercises.course_id
                (append_row
                   (append_row tc n
                      (Exercises.mkCourse n "CS101" "Intro to Programming"))
                   (n + 1) (Exercises.mkCourse (n + 1) "CS205" "Web Development"))
              = n + 2).
{ unfold next_rowid. simpl. rewrite !map_app. simpl.
  rewrite !max_rowid_app. unfold n, next_rowid. lia. }
assert (Hroom3 : has_room Exercises.course_id
                   (append_row
                      (append_row tc n
                         (Exercises.mkCourse n "CS101" "Intro to Programming"))
                      (n + 1)
                      (Exercises.mkCourse (n + 1) "CS205" "Web Development"))
                 = true).
{ unfold has_room. simpl. rewrite !map_app. simpl.
  rewrite !max_rowid_app. apply Z.ltb_lt.
  unfold n, next_rowid in *. lia. }
destruct (seed_one_course c2 _ "CS310" "Data Structures" Hc2 Hroom3)
  as (c3 & Hrun3 & Hc3 & Hs3 & He3).
{ simpl. intros co Hco Heq. apply in_app_or in Hco.
  destruct Hco as [Hco|[<-|[]]]; [|discriminate].
  apply in_app_or in Hco.
  destruct Hco as [Hco|[<-|[]]]; [|discriminate].
  apply (Hnone co Hco). rewrite Heq. simpl. auto. }
rewrite Hn2 in Hc3.
assert (Hroom4' : has_room Exercises.course_id
  (append_row
     (append_row
        (append_row tc n
           (Exercises.mkCourse n "CS101" "Intro to Programming"))
        (n + 1) (Exercises.mkCourse (n + 1) "CS205" "Web Development"))
     (n + 2) (Exercises.mkCourse (n + 2) "CS310" "Data Structures"))
  = true).
{ unfold has_room. simpl. rewrite !map_app. simpl.
  rewrite !max_rowid_app. apply Z.ltb_lt.
  unfold n, next_rowid in *. lia. }
assert (Hno : forall code,
  In code ["CS101"; "CS205"; "CS310"]%string ->
  forall co, In co (rows tc) -> Exercises.has_code code co = false).
{ intros code Hcode co Hco. apply String.eqb_neq. intros Heq.
  apply (Hnone co Hco). rewrite Heq. exact Hcode. }
exists c3. eexists.
split.
{ unfold Exercises.seed_courses, bind. rewrite Hrun1, Hrun2. exact Hrun3. }
split; [exact Hc3|].
split.
{ simpl. rewrite <- !app_assoc. reflexivity. }
split; [congruence|]. split; [congruence|].
assert (Hfind : forall code,
  In code ["CS101"; "CS205"; "CS310"]%string ->
  execute_select (Exercises.select_course_id code) c3
  = (Ok (option_map Exercises.course_id
           (find (Exercises.has_code code)
              [Exercises.mkCourse n "CS101" "Intro to Programming";
               Exercises.mkCourse (n + 1) "CS205" "Web Development";
               Exercises.mkCourse (n + 2) "CS310" "Data Structures"])), c3)).
{ intros code Hcode. unfold execute_select, Exercises.select_course_id.
  rewrite Hc3. simpl. rewrite <- !app_assoc. simpl.
  rewrite (find_after_no_match _ _ _ (Hno code Hcode)). reflexivity. }
split; [rewrite Hfind by (simpl; auto); reflexivity|].
split; [rewrite Hfind by (simpl; auto); reflexivity|].
split; [rewrite Hfind by (simpl; auto); reflexivity|].
unfold Exercises.seed_courses, bind.
unfold execute_dml at 1, Exercises.insert_course at 1.
rewrite Hc3, Hroom4'. cbn [negb].
assert (Hdup : existsb (Exercises.has_code "CS101")
  (rows (append_row
           (append_row
              (append_row tc n
                 (Exercises.mkCourse n "CS101" "Intro to Programming"))
              (n + 1) (Exercises.mkCourse (n + 1) "CS205" "Web Development"))
           (n + 2) (Exercises.mkCourse (n + 2) "CS310" "Data Structures")))
  = true).
{ apply existsb_exists.
  exists (Exercises.mkCourse n "CS101" "Intro to Programming").
  split; [|reflexivity].
  simpl. apply in_or_app. left. apply in_or_app. left. apply in_or_app.
  right. left. reflexivity. }
rewrite Hdup. eexists. split; reflexivity.
Qed.

(** The database [create_schema] makes of a new file: the three courses
    get the ids 1, 2 and 3. *)
Lemma seed_courses_adds_three_witness :
  exists c' : Exercises.conn,
    Exercises.seed_courses
      (snd (Exercises.create_schema (connect Sample.no_exercises)))
    = (Ok tt, c') /\
    execute_select (Exercises.select_course_id "CS205") c' = (Ok (Some 2), c').
Proof.
destruct (seed_courses_adds_three
            (snd (Exercises.create_schema (connect Sample.no_exercises)))
            (empty_table Exercises.courses_columns) eq_refl eq_refl)
  as (c' & tc' & Hrun & _ & _ & _ & _ & _ & H205 & _).
- simpl. contradiction.
- exists c'. split; [exact Hrun | exact H205].
Defined.

(** ** The runs of [main] *)

(** X17.  [main] of exercises.py runs to its end whatever the database
    file held before and whatever the clock shows: the students get the
    ids 1 and 2 and CS205 the id 2; the listing after the rolled back
    transaction is empty and the one after the valid transaction has the
    row of Ava and CS205; both row counts are 1; the students are then
    Ava and Noah Kim, and after the delete Noah Kim alone.  At the end no
    transaction is open and the enrollment of Ava is gone with her. *)
Theorem exercises_main_runs (file : Exercises.database)
  (now1 now2 now3 : string) :
  exists c1 c2 : Exercises.conn,
    Exercises.setup (connect (ExercisesCalls.reset_db file))
    = (Ok (1, 2, Some 2), c1) /\
    Exercises.find_student_by_email "ava@example.com" c1
    = (Ok (Some (Exercises.mkStudent 1 "Ava" "ava@example.com")), c1) /\
    ExercisesCalls.main_after_setup now1 now2 now3 1 2 2 c1
    = (Ok (ExercisesCalls.mkMainValues
             []
             [Exercises.mkEnrollmentRow "Ava" "CS205" "Web Development"]
             1
             [Exercises.mkStudent 1 "Ava" "ava@example.com";
              Exercises.mkStudent 2 "Noah Kim" "noah@example.com"]
             1
             [Exercises.mkStudent 2 "Noah Kim" "noah@example.com"]),
       c2) /\
    txn c2 = None /\
    option_map rows (Exercises.enrollments (data c2)) = Some [] /\
    option_map (fun t => List.length (rows t)) (Exercises.courses (data c2))
    = Some 3%nat.
Proof.
eexists. eexists.
split; [reflexivity|]. split; [reflexivity|].
split; [vm_compute; reflexivity|].
repeat split.
Qed.

(** X18.  [main] of demo.py runs to its end whatever the database file
    held before and whatever the clock shows: the students come ordered
    by name, the seven grades ordered by student and assignment, the
    averages from the highest down, the lookup finds Maya, and after the
    rollback demo the grades are seven still and no transaction is
    open. *)
Theorem demo_main_runs (file : Gradebook.database) (now1 now2 : string) :
  exists c : Gradebook.conn,
    DemoCalls.main file now1 now2
    = (Ok (DemoCalls.mkMainValues
             [Gradebook.mkStudent 1 "Ava" "ava@example.com";
              Gradebook.mkStudent 3 "Maya" "maya@example.com";
              Gradebook.mkStudent 2 "Noah" "noah@example.com"]
             [Demo.mkJoinRow "Ava" "Homework 1" 95;
              Demo.mkJoinRow "Ava" "Quiz 1" 9;
              Demo.mkJoinRow "Maya" "Homework 1" 92;
              Demo.mkJoinRow "Maya" "Midterm" 180;
              Demo.mkJoinRow "Maya" "Quiz 1" 10;
              Demo.mkJoinRow "Noah" "Homework 1" 88;
              Demo.mkJoinRow "Noah" "Quiz 1" 7]
             [Gradebook.mkBoardRow "Maya" (Some 94%float);
              Gradebook.mkBoardRow "Ava" (Some 92.5%float);
              Gradebook.mkBoardRow "Noah" (Some 79%float)]
             (Some (Gradebook.mkStudent 3 "Maya" "maya@example.com"))
             7),
       c) /\
    txn c = None /\
    data c
    = data (snd ((bind Demo.create_schema (fun _ => Demo.seed_data now1))
                   (connect (DemoCalls.reset_db file)))).
Proof.
eexists. split; [vm_compute; reflexivity|]. split; reflexivity.
Qed.

(** ** The shape of a printed table *)

Lemma concat_len (sep : string) (l : list string) :
  len (String.concat sep l)
  = (list_sum (map len l) + len sep * (List.length l - 1))%nat.
Proof.
induction l as [|x l IH]; [simpl; lia|].
destruct l as [|y l]; [simpl; lia|].
change (String.concat sep (x :: y :: l))
  with (String.append x (String.append sep (String.concat sep (y :: l)))).
rewrite !len_append, IH. simpl. lia.
Qed.

Lemma all_some_missing {A : Type} (l : list (option A)) :
  In None l -> all_some l = None.
Proof.
induction l as [|x l IH]; simpl; [contradiction|].
intros [->|H]; [reflexivity|].
destruct x as [a|]; [|reflexivity]. rewrite (IH H). reflexivity.
Qed.

Lemma cells_line_len (cols : list string) (w : string -> nat)
  (text : string -> string) (sep : string) :
  len sep = 3%nat ->
  (forall c, In c cols -> len (text c) = w c) ->
  len (String.concat sep (map text cols)) = line_length (map w cols).
Proof.
intros Hsep Hcells. rewrite concat_len, Hsep. unfold line_length.
rewrite !length_map, map_map. f_equal.
f_equal. apply map_ext_in. exact Hcells.
Qed.

(** X14.  The table [print_rows] prints is rectangular: after the banner
    come the header, the rule and one line for each row, and all of these
    lines have the same length as [len] counts it, in code points: the
    widths of the columns and three characters between two columns. *)
Theorem print_rows_rectangular {V : Type} (str : V -> string) (title : string)
  (r0 : row) (rest : list row) :
  let rws := r0 :: rest in
  let cols := keys r0 in
  uniform cols rws ->
  exists lines : list string,
    print_rows str title rws = (banner title ++ lines, Ok tt) /\
    List.length lines = S (S (List.length rws)) /\
    Forall
      (fun l => len l = line_length (map (column_width str rws) cols))
      lines.
Proof.
intros rws cols Huni.
assert (Hwidths := widths_uniform str cols rws Huni).
assert (Hbody := print_body_uniform str cols (column_width str rws) rws Huni).
assert (Hle : forall c r, In r rws ->
          (len (cell_text str r c) <= column_width str rws c)%nat).
{ intros c r Hr. unfold column_width.
  etransitivity; [|apply Nat.le_max_r].
  apply list_max_ge.
  apply (in_map (fun r' => len (cell_text str r' c))). exact Hr. }
eexists. split; [|split].
- unfold print_rows. subst rws cols. cbv iota beta zeta.
  rewrite Hwidths, Hbody. reflexivity.
- simpl. rewrite length_map. reflexivity.
- constructor; [|constructor].
  + unfold header_line. apply cells_line_len; [reflexivity|].
    intros c Hc. rewrite width_of_map by exact Hc.
    apply ljust_len. unfold column_width. apply Nat.le_max_l.
  + unfold separator_line. apply cells_line_len; [reflexivity|].
    intros c Hc. rewrite width_of_map by exact Hc.
    apply (repeat_string_len "-" _ eq_refl).
  + apply Forall_forall. intros l Hl. apply in_map_iff in Hl.
    destruct Hl as [r [<- Hr]]. apply cells_line_len; [reflexivity|].
    intros c Hc. apply ljust_len, Hle, Hr.
Qed.

(** Two rows of [SELECT id, name FROM students]: four lines of nine
    characters. *)
Lemma print_rows_rectangular_witness :
  exists lines : list string,
    print_rows (fun s => s) "Students" Sample.student_rows
    = (banner "Students" ++ lines, Ok tt) /\
    List.length lines = 4%nat /\
    Forall (fun l => len l = 9%nat) lines.
Proof.
apply (print_rows_rectangular (fun s => s) "Students"
         [("id", "1"); ("name", "Ava")]%string
         [[("id", "2"); ("name", "Noah")]]%string).
intros r c [<-|[<-|[]]] [<-|[<-|[]]]; simpl; discriminate.
Defined.

(** X15.  A row that lacks a column of the first row makes [print_rows]
    raise IndexError when it computes the widths: the banner is printed
    and nothing of the table. *)
Theorem print_rows_missing_column {V : Type} (str : V -> string)
  (title : string) (r0 : row) (rest : list row) (r : row) (c : string) :
  In r (r0 :: rest) ->
  In c (keys r0) ->
  getitem r c = None ->
  print_rows str title (r0 :: rest) = (banner title, Raise IndexError).
Proof.
intros Hr Hc Hmiss. unfold print_rows.
assert (Hw : width str (r0 :: rest) c = None).
{ unfold width. rewrite all_some_missing; [reflexivity|].
  apply in_map_iff. exists r. split; [|exact Hr].
  unfold cell. rewrite Hmiss. reflexivity. }
assert (Hws : widths str (keys r0) (r0 :: rest) = None).
{ unfold widths. apply all_some_missing.
  apply in_map_iff. exists c. split; [|exact Hc]. rewrite Hw. reflexivity. }
rewrite Hws. reflexivity.
Qed.

(** A row of the leaderboard after a row of the grade report: it has no
    column assignment_title. *)
Lemma print_rows_missing_column_witness :
  print_rows (fun _ : sql_value => "?"%string) "Mixed"
    [Homework.report_row_values (Homework.mkReportRow "Quiz 1" 9 10 None);
     Gradebook.board_row_values (Gradebook.mkBoardRow "Ava" None)]
  = (banner "Mixed", Raise IndexError).
Proof.
apply (print_rows_missing_column _ "Mixed" _ _
         (Gradebook.board_row_values (Gradebook.mkBoardRow "Ava" None))
         "assignment_title"%string).
- simpl. auto.
- simpl. auto.
- reflexivity.
Defined.

(** ** The constraints of the gradebook schema *)

Section GradebookSchemaFacts.
Import Gradebook GradebookSchema.

Lemma gradebook_empty_consistent (cols : list string) (ix : list string) :
  consistent
    (mkDb (Some (empty_table students_columns))
          (Some (empty_table assignments_columns))
          (Some (mkTable cols [] 0 ix))).
Proof.
eexists. eexists. eexists.
split; [reflexivity|]. split; [reflexivity|]. split; [reflexivity|].
repeat split; simpl in *; try constructor; try lia; contradiction.
Qed.

Lemma gradebook_insert_student_consistent (name email : string) (fk : bool)
  (d d' : database) (id : Z) :
  consistent d -> insert_student name email fk d = Ok (id, d') -> consistent d'.
Proof.
intros (ts & ta & tg & Hts & Hta & Htg & Hkeys & Hchecks & Hrefs
        & Hs1 & Hs2 & Hs3).
unfold insert_student. rewrite Hts.
destruct (has_room student_id ts); [|discriminate]. cbn [negb].
destruct (existsb (has_email email) (rows ts)) eqn:He; [discriminate|].
intros H. inversion H; subst id d'; clear H.
destruct Hkeys as (Hsid & Hsem & Hkeys).
eexists. exists ta, tg. simpl.
split; [reflexivity|]. split; [exact Hta|]. split; [exact Htg|].
split; [split; [|split; [|exact Hkeys]]|].
- apply append_rowid_distinct; [exact Hsid | reflexivity].
- apply append_key_distinct; [exact Hsem|]. simpl.
  intros s Hs. rewrite existsb_false_iff in He. specialize (He s Hs).
  apply String.eqb_neq in He. exact He.
- split; [exact Hchecks|]. split; [|split; [|split]].
  + intros g Hin. destruct (Hrefs g Hin) as [Hr1 Hr2]. split; [|exact Hr2].
    simpl. rewrite map_app. apply in_or_app. left. exact Hr1.
  + apply append_row_in_sequence; [exact Hs1 | reflexivity].
  + exact Hs2.
  + exact Hs3.
Qed.

Lemma insert_assignment_consistent (title : string) (points : Z) (fk : bool)
  (d d' : database) (id : Z) :
  consistent d -> insert_assignment title points fk d = Ok (id, d') ->
  consistent d'.
Proof.
intros (ts & ta & tg & Hts & Hta & Htg & Hkeys & Hchecks & Hrefs
        & Hs1 & Hs2 & Hs3).
unfold insert_assignment. rewrite Hta.
destruct (int64 points); [|discriminate]. cbn [negb].
destruct (has_room assignment_id ta); [|discriminate]. cbn [negb].
destruct (points <=? 0) eqn:Hp; [discriminate|].
intros H. inversion H; subst id d'; clear H.
destruct Hkeys as (Hsid & Hsem & Haid & Hkeys).
destruct Hchecks as [Hmax Hscore].
exists ts. eexists. exists tg. simpl.
split; [exact Hts|]. split; [reflexivity|]. split; [exact Htg|].
split; [split; [exact Hsid|split; [exact Hsem|split; [|exact Hkeys]]]|].
- apply append_rowid_distinct; [exact Haid | reflexivity].
- split; [split; [|exact Hscore]|split; [|split; [|split]]].
  + simpl. intros a Hin. apply in_app_or in Hin.
    destruct Hin as [Hin|[<-|[]]]; [apply Hmax, Hin|].
    simpl. apply Z.leb_gt in Hp. exact Hp.
  + intros g Hin. destruct (Hrefs g Hin) as [Hr1 Hr2]. split; [exact Hr1|].
    simpl. rewrite map_app. apply in_or_app. left. exact Hr2.
  + exact Hs1.
  + apply append_row_in_sequence; [exact Hs2 | reflexivity].
  + exact Hs3.
Qed.

Lemma insert_grade_consistent (now : string) (sid aid sc : Z)
  (d d' : database) (id : Z) :
  consistent d -> insert_grade now sid aid sc true d = Ok (id, d') ->
  consistent d'.
Proof.
intros (ts & ta & tg & Hts & Hta & Htg & Hkeys & Hchecks & Hrefs
        & Hs1 & Hs2 & Hs3).
unfold insert_grade. rewrite Hts, Hta, Htg.
destruct (int64 sid && int64 aid && int64 sc); [|discriminate]. cbn [negb].
destruct (has_room grade_id tg); [|discriminate]. cbn [negb].
destruct (existsb (has_student_id sid) (rows ts)) eqn:Hs; [|discriminate].
destruct (existsb (has_assignment_id aid) (rows ta)) eqn:Ha; [|discriminate].
simpl.
destruct (sc <? 0) eqn:Hsc; [discriminate|].
destruct (existsb (is_grade sid aid) (rows tg)) eqn:Hg; [discriminate|].
simpl. intros H. inversion H; subst id d'; clear H.
destruct Hkeys as (Hsid & Hsem & Haid & Hgid & Hgp).
destruct Hchecks as [Hmax Hscore].
exists ts, ta. eexists. simpl.
split; [exact Hts|]. split; [exact Hta|]. split; [reflexivity|].
split; [split; [exact Hsid|split; [exact Hsem|split; [exact Haid|split]]]|].
- apply append_rowid_distinct; [exact Hgid | reflexivity].
- apply append_key_distinct; [exact Hgp|].
  intros g Hin Heq. rewrite existsb_false_iff in Hg. specialize (Hg g Hin).
  unfold grade_pair in Heq. simpl in Heq. inversion Heq as [[Hp1 Hp2]].
  unfold is_grade in Hg. rewrite Hp1, Hp2, !Z.eqb_refl in Hg.
  discriminate.
- split; [split; [exact Hmax|]|split; [|split; [|split]]].
  + simpl. intros g Hin. apply in_app_or in Hin.
    destruct Hin as [Hin|[<-|[]]]; [apply Hscore, Hin|].
    simpl. apply Z.ltb_ge in Hsc. exact Hsc.
  + intros g Hin. simpl in Hin. apply in_app_or in Hin.
    destruct Hin as [Hin|[<-|[]]]; [apply Hrefs, Hin|]. simpl. split.
    * apply existsb_exists in Hs. destruct Hs as [s [Hin Hid]].
      apply Z.eqb_eq in Hid. rewrite <- Hid. apply in_map, Hin.
    * apply existsb_exists in Ha. destruct Ha as [a [Hin Hid]].
      apply Z.eqb_eq in Hid. rewrite <- Hid. apply in_map, Hin.
  + exact Hs1.
  + exact Hs2.
  + apply append_row_in_sequence; [exact Hs3 | reflexivity].
Qed.

Lemma record_grade_keeps (now : string) (sid aid sc : Z) :
  keeps sound (execute_dml (insert_grade now sid aid sc)).
Proof.
apply execute_dml_keeps.
intros d a d' Hd H. eapply insert_grade_consistent; eassumption.
Qed.

Lemma gradebook_add_student_keeps (name email : string) :
  keeps sound (execute_dml (insert_student name email)).
Proof.
apply execute_dml_keeps.
intros d a d' Hd H. eapply gradebook_insert_student_consistent; eassumption.
Qed.

Lemma add_assignment_keeps (title : string) (points : Z) :
  keeps sound (execute_dml (insert_assignment title points)).
Proof.
apply execute_dml_keeps.
intros d a d' Hd H. eapply insert_assignment_consistent; eassumption.
Qed.

Lemma dict_get_keeps (ids : list (string * Z)) (key : string) :
  keeps sound (Demo.dict_get ids key).
Proof.
unfold Demo.dict_get.
destruct (find (fun p => String.eqb (fst p) key) ids);
  [apply keeps_ret | apply keeps_raise].
Qed.

End GradebookSchemaFacts.

(** X19.  The constraints of the gradebook schema (the primary and
    unique keys, the CHECKs on max_points and score, the two foreign keys
    of grades, the ranges of the AUTOINCREMENT ids) hold after
    [create_schema] of demo.py whatever the database held and after
    [create_schema] of homework.py on the new file [reset_db] leaves, and
    on a connection of [connect] the functions of both scripts keep them,
    whether they return or raise. *)
Theorem gradebook_constraints_kept :
  (forall c : Gradebook.conn,
     foreign_keys c = true ->
     GradebookSchema.sound (snd (Demo.create_schema c))) /\
  (forall file : Gradebook.database,
     GradebookSchema.sound
       (snd (Homework.create_schema (connect (HomeworkCalls.reset_db file))))) /\
  (forall now, keeps GradebookSchema.sound (Demo.seed_data now)) /\
  (forall now, keeps GradebookSchema.sound (Demo.demo_transaction_rollback now)) /\
  keeps GradebookSchema.sound Demo.demo_join /\
  keeps GradebookSchema.sound Demo.demo_aggregation /\
  keeps GradebookSchema.sound DemoCalls.demo_basic_selects /\
  keeps GradebookSchema.sound DemoCalls.demo_parameterized_query /\
  (forall name email,
     keeps GradebookSchema.sound (Homework.add_student name email)) /\
  (forall title points,
     keeps GradebookSchema.sound (Homework.add_assignment title points)) /\
  (forall sid aid sc,
     keeps GradebookSchema.sound (Homework.record_grade sid aid sc)) /\
  keeps GradebookSchema.sound Homework.list_students /\
  (forall sid, keeps GradebookSchema.sound (Homework.student_grade_report sid)) /\
  keeps GradebookSchema.sound Homework.leaderboard /\
  keeps GradebookSchema.sound Homework.seed.
Proof.
split.
{ intros c Hfk. rewrite demo_create_schema_any.
  split; [exact Hfk|]. split; [apply gradebook_empty_consistent|].
  simpl. discriminate. }
split.
{ intros file. rewrite homework_create_schema_fresh by reflexivity.
  split; [reflexivity|]. split; [apply gradebook_empty_consistent|].
  simpl. discriminate. }
split.
{ intros now. unfold Demo.seed_data.
  repeat (apply keeps_bind;
          [first [apply gradebook_add_student_keeps
                 |apply add_assignment_keeps
                 |apply record_grade_keeps
                 |apply execute_select_keeps
                 |apply dict_get_keeps]
          |intros ?]).
  apply keeps_ret. }
split.
{ intros now. unfold Demo.demo_transaction_rollback.
  apply keeps_bind; [apply execute_select_keeps|].
  intros [[sid aid]|]; [|apply keeps_raise].
  apply keeps_try_except; [|apply execute_rollback_keeps].
  unfold Demo.insert_duplicate.
  apply keeps_bind; [apply execute_begin_keeps | intros _].
  apply keeps_bind; [apply record_grade_keeps | intros _].
  apply execute_commit_keeps. }
split; [apply execute_select_keeps|].
split; [apply execute_select_keeps|].
split; [apply execute_select_keeps|].
split; [apply execute_select_keeps|].
split; [intros name email; apply gradebook_add_student_keeps|].
split; [intros title points; apply add_assignment_keeps|].
split; [intros sid aid sc; apply record_grade_keeps|].
split; [apply execute_select_keeps|].
split; [intros sid; apply execute_select_keeps|].
split; [apply execute_select_keeps|].
unfold Homework.seed.
repeat (apply keeps_bind;
        [first [apply gradebook_add_student_keeps
               |apply add_assignment_keeps
               |apply record_grade_keeps]
        |intros ?]).
apply commit_keeps.
Qed.

(** The gradebook of homework.py after [create_schema] and [seed]. *)
Lemma gradebook_constraints_kept_witness :
  GradebookSchema.sound
    (snd (Homework.seed
            (snd (Homework.create_schema (connect Sample.no_gradebook))))).
Proof.
apply (proj2 (proj2 (proj2 (proj2 (proj2 (proj2 (proj2 (proj2 (proj2
         (proj2 (proj2 (proj2 (proj2 (proj2
            gradebook_constraints_kept)))))))))))))).
apply (proj1 (proj2 gradebook_constraints_kept) Sample.no_gradebook).
Defined.

(** ** No percent is NULL *)

Section PercentFacts.
Import Gradebook.

Lemma joined_assignment_in (tg : table grade) (ts : table student)
  (ta : table assignment) (j : grade * student * assignment) :
  In j (join_grades tg ts ta) -> In (snd j) (rows ta).
Proof.
unfold join_grades. intros Hj. apply in_flat_map in Hj.
destruct Hj as [g [_ Hj]]. apply in_flat_map in Hj.
destruct Hj as [s [_ Hj]]. apply in_map_iff in Hj.
destruct Hj as [a [<- Ha]]. apply filter_In in Ha. apply Ha.
Qed.

Lemma ratio_not_null (g : grade) (a : assignment) :
  0 < max_points a -> ratio g a <> None.
Proof.
intros Hmax. unfold ratio, sql_div.
destruct (max_points a =? 0) eqn:H0; [|discriminate].
apply Z.eqb_eq in H0. lia.
Qed.

Lemma sql_avg_not_null (l : list real) :
  l <> [] -> (forall x, In x l -> x <> None) -> sql_avg l <> None.
Proof.
destruct l as [|x l]; [congruence|]. intros _ H.
destruct x as [a|]; [|exfalso; apply (H None); [left|]; reflexivity].
unfold sql_avg. simpl. discriminate.
Qed.

Lemma percent_not_null (x : real) :
  x <> None -> sql_round1 (sql_mul x 100) <> None.
Proof. destruct x; [discriminate | congruence]. Qed.

End PercentFacts.

(** X20.  On a consistent gradebook no percentage is NULL, since CHECK
    (max_points > 0) leaves no division by zero: every row of the
    leaderboard has an average, and the grade report of a student (an id
    that is a signed 64-bit integer) has one row for each of the
    student's grades, each with a percent, a score that is not negative
    and positive max_points. *)
Theorem percents_never_null (c : Gradebook.conn) :
  GradebookSchema.consistent (data c) ->
  (exists board : list Gradebook.board_row,
     Homework.leaderboard c = (Ok board, c) /\
     Demo.demo_aggregation c = (Ok board, c) /\
     Forall (fun r => Gradebook.br_avg_percent r <> None) board) /\
  (forall sid : Z,
     int64 sid = true ->
     exists (tg : table Gradebook.grade) (rws : list Homework.report_row),
       Gradebook.grades (data c) = Some tg /\
       Homework.student_grade_report sid c = (Ok rws, c) /\
       List.length rws
       = List.length
           (filter (fun g => Gradebook.g_student_id g =? sid) (rows tg)) /\
       Forall
         (fun r =>
            Homework.rr_percent r <> None /\
            0 <= Homework.rr_score r /\ 0 < Homework.rr_max_points r) rws).
Proof.
intros (ts & ta & tg & Hts & Hta & Htg & Hkeys & Hchecks & Hrefs & _).
destruct Hchecks as [Hmax Hscore].
destruct Hkeys as (_ & _ & Haid & _).
split.
- eexists. split; [|split].
  + unfold Homework.leaderboard, execute_select, Gradebook.select_leaderboard.
    rewrite Htg, Hts, Hta. reflexivity.
  + unfold Demo.demo_aggregation, execute_select, Gradebook.select_leaderboard.
    rewrite Htg, Hts, Hta. reflexivity.
  + apply Forall_forall. intros r Hr.
    apply (Permutation_in _ (order_by_perm _ _)) in Hr.
    apply in_flat_map in Hr. destruct Hr as [id [_ Hr]].
    destruct (filter (Gradebook.in_group id) (Gradebook.join_grades tg ts ta))
      as [|j group] eqn:Hgroup; [contradiction|].
    simpl in Hr. destruct Hr as [<-|[]]. simpl.
    apply percent_not_null. apply sql_avg_not_null; [discriminate|].
    intros x Hx. change (Gradebook.ratio (fst (fst j)) (snd j)
                         :: map (fun j' => Gradebook.ratio (fst (fst j')) (snd j'))
                              group)
      with (map (fun j' => Gradebook.ratio (fst (fst j')) (snd j')) (j :: group))
      in Hx.
    apply in_map_iff in Hx. destruct Hx as [j' [<- Hj']].
    apply ratio_not_null, Hmax.
    apply (joined_assignment_in tg ts ta).
    rewrite <- Hgroup in Hj'. apply filter_In in Hj'. apply Hj'.
- intros sid Hsid. exists tg. eexists. split; [exact Htg|]. split; [|split].
  + unfold Homework.student_grade_report, execute_select,
      Homework.select_grade_report. rewrite Htg, Hta, Hsid. reflexivity.
  + assert (Hlen : List.length (Homework.grades_of sid tg)
                   = List.length
                       (filter (fun g => Gradebook.g_student_id g =? sid)
                          (rows tg))).
    { unfold Homework.grades_of.
      destruct (existsb (String.eqb "idx_grades_student_id") (indexes tg));
        [reflexivity|].
      apply Permutation_length, order_by_perm. }
    rewrite <- Hlen. unfold Homework.report_rows.
    apply flat_map_one_each. intros g Hg. apply grades_of_in in Hg.
    destruct (Hrefs g (proj1 Hg)) as [_ Ha].
    apply in_map_iff in Ha. destruct Ha as [a [Hid Ha]].
    rewrite <- Hid.
    change (Gradebook.has_assignment_id (Gradebook.assignment_id a))
      with (fun y => Gradebook.assignment_id y =? Gradebook.assignment_id a).
    rewrite (filter_key_unique Gradebook.assignment_id (rows ta) a Haid Ha).
    eexists. reflexivity.
  + apply Forall_forall. intros r Hr. apply in_flat_map in Hr.
    destruct Hr as [g [Hg Hr]]. apply grades_of_in in Hg.
    apply in_map_iff in Hr. destruct Hr as [a [<- Ha]].
    apply filter_In in Ha. simpl. split; [|split].
    * apply percent_not_null, ratio_not_null, Hmax, Ha.
    * apply Hscore, Hg.
    * apply Hmax, Ha.
Qed.

Lemma homework_sample_consistent :
  GradebookSchema.consistent (data Sample.homework_conn).
Proof.
eexists. eexists. eexists.
split; [reflexivity|]. split; [reflexivity|]. split; [reflexivity|].
split.
{ repeat split; simpl; repeat constructor; simpl; intuition discriminate. }
split.
{ split; simpl; intros r H;
    repeat (destruct H as [<-|H]; [simpl; lia|]); contradiction. }
split.
{ intros g H; simpl in H;
    repeat (destruct H as [<-|H]; [simpl; split; auto 10|]); contradiction. }
repeat split; simpl in *; try lia;
  repeat match goal with
         | H : _ \/ _ |- _ => destruct H as [<-|H]; [simpl; lia|]
         end; contradiction.
Qed.

(** The seeded gradebook of homework.py: the report of Maya (id 3). *)
Lemma percents_never_null_witness :
  exists rws : list Homework.report_row,
    Homework.student_grade_report 3 Sample.homework_conn
    = (Ok rws, Sample.homework_conn) /\
    List.length rws = 3%nat /\
    Forall (fun r => Homework.rr_percent r <> None) rws.
Proof.
destruct (proj2 (percents_never_null Sample.homework_conn
                   homework_sample_consistent) 3 eq_refl)
  as (tg & rws & Htg & Hrun & Hlen & Hall).
exists rws. split; [exact Hrun|]. split.
- rewrite Hlen. simpl in Htg. inversion Htg. reflexivity.
- apply Forall_forall. intros r Hr.
  rewrite Forall_forall in Hall. apply (Hall r Hr).
Defined.

(** ** Grades and their report *)

Section OrderByAppended.
Context {A : Type}.
Variable leb : A -> A -> bool.
Hypothesis leb_total : forall a b, leb a b = false -> leb b a = true.
Hypothesis leb_trans :
  forall a b c, leb a b = true -> leb b c = true -> leb a c = true.

(** A row goes into the first part of a list when a row of that part
    may stand after it, else into the second part. *)
Lemma insert_sorted_app (x : A) (l1 l2 : list A) :
  insert_sorted leb x (l1 ++ l2)
  = if existsb (leb x) l1 then insert_sorted leb x l1 ++ l2
    else l1 ++ insert_sorted leb x l2.
Proof.
induction l1 as [|y l1 IH]; simpl; [reflexivity|].
destruct (leb x y); simpl; [reflexivity|].
rewrite IH. destruct (existsb (leb x) l1); reflexivity.
Qed.

Lemma insert_sorted_in (x y : A) (l : list A) :
  In y (insert_sorted leb x l) -> y = x \/ In y l.
Proof.
intros H. apply (Permutation_in y (insert_sorted_perm leb x l)) in H.
destruct H as [<-|H]; auto.
Qed.

(** A row that sorts strictly apart from the rows of [l], appended to
    the scan, comes out of the sort at its place among the sorted rows
    of [l]: after those that sort before it, before the others. *)
Lemma order_by_appended (g : A) (l : list A) :
  (forall x, In x l -> leb x g = true -> leb g x = false) ->
  exists l1 l2 : list A,
    order_by leb l = l1 ++ l2 /\
    order_by leb (l ++ [g]) = l1 ++ g :: l2 /\
    (forall y, In y l1 -> leb g y = false) /\
    (forall y, In y l2 -> leb g y = true).
Proof.
induction l as [|x l IH]; intros Hstrict.
- exists [], []. repeat split; simpl; intros y [].
- destruct IH as (l1 & l2 & Hl & Hlg & H1 & H2).
  { intros y Hy. apply Hstrict. right. exact Hy. }
  cbn [app order_by]. rewrite Hl, Hlg, !insert_sorted_app.
  destruct (existsb (leb x) l1) eqn:Hx1.
  + exists (insert_sorted leb x l1), l2.
    split; [reflexivity|]. split; [reflexivity|]. split; [|exact H2].
    intros y Hy. apply insert_sorted_in in Hy.
    destruct Hy as [->|Hy]; [|apply H1, Hy].
    apply existsb_exists in Hx1. destruct Hx1 as [y0 [Hy0 Hxy0]].
    apply Hstrict; [left; reflexivity|].
    apply (leb_trans x y0 g Hxy0). apply leb_total, H1, Hy0.
  + cbn [insert_sorted]. destruct (leb x g) eqn:Hxg.
    * exists (l1 ++ [x]), l2.
      split.
      { rewrite <- app_assoc. f_equal. destruct l2 as [|y l2]; [reflexivity|].
        simpl. rewrite (leb_trans x g y Hxg (H2 y (or_introl eq_refl))).
        reflexivity. }
      split; [rewrite <- app_assoc; reflexivity|].
      split; [|exact H2].
      intros y Hy. apply in_app_or in Hy.
      destruct Hy as [Hy|[<-|[]]]; [apply H1, Hy|].
      apply Hstrict; [left; reflexivity | exact Hxg].
    * exists l1, (insert_sorted leb x l2).
      split; [reflexivity|]. split; [reflexivity|]. split; [exact H1|].
      intros y Hy. apply insert_sorted_in in Hy.
      destruct Hy as [->|Hy]; [apply leb_total, Hxg | apply H2, Hy].
Qed.

End OrderByAppended.

Lemma grade_pair_leb_total (a b : Gradebook.grade) :
  Gradebook.grade_pair_leb a b = false -> Gradebook.grade_pair_leb b a = true.
Proof.
unfold Gradebook.grade_pair_leb. intros H.
apply orb_false_iff in H. destruct H as [H1 H2].
apply Z.ltb_ge in H1.
destruct (Gradebook.g_student_id b <? Gradebook.g_student_id a) eqn:Hlt;
  [reflexivity|].
apply Z.ltb_ge in Hlt. simpl.
assert (Heq : Gradebook.g_student_id a = Gradebook.g_student_id b) by lia.
rewrite Heq, Z.eqb_refl in *. simpl in *.
apply Z.leb_gt in H2. apply Z.leb_le. lia.
Qed.

Lemma grade_pair_leb_trans (a b c : Gradebook.grade) :
  Gradebook.grade_pair_leb a b = true -> Gradebook.grade_pair_leb b c = true ->
  Gradebook.grade_pair_leb a c = true.
Proof.
unfold Gradebook.grade_pair_leb. intros H1 H2.
apply orb_true_iff in H1. apply orb_true_iff in H2. apply orb_true_iff.
rewrite !andb_true_iff, !Z.ltb_lt, !Z.eqb_eq, !Z.leb_le in *.
destruct H1 as [H1|[H1 H1']], H2 as [H2|[H2 H2']];
  [left; lia | left; lia | left; lia | right; split; lia].
Qed.
(** X6.  In the gradebook of homework.py (no index on grades but that of
    its UNIQUE constraint), a grade that is not negative, for a student
    and an assignment of the tables that have no grade together yet, is
    accepted by [record_grade] under an id above every grade id (the
    values being signed 64-bit integers and the table having an id
    left).  The grade report of the student then has one more row: the
    title, the score, the max_points and the percentage
    ROUND(1.0 * score / max_points * 100, 1) of the new grade (a
    percentage that does not lie just under a half-way point), standing
    after the rows of the assignments of smaller id and before the rows
    of the others; the report of every other student is as it was. *)
Theorem record_grade_then_report
  (c : Gradebook.conn) (ts : table Gradebook.student)
  (ta : table Gradebook.assignment) (tg : table Gradebook.grade)
  (s : Gradebook.student) (a : Gradebook.assignment) (sc : Z) :
  Gradebook.students (data c) = Some ts ->
  Gradebook.assignments (data c) = Some ta ->
  Gradebook.grades (data c) = Some tg ->
  indexes tg = [] ->
  has_room Gradebook.grade_id tg = true ->
  NoDup (map Gradebook.assignment_id (rows ta)) ->
  In s (rows ts) ->
  In a (rows ta) ->
  int64 (Gradebook.student_id s) = true ->
  int64 (Gradebook.assignment_id a) = true ->
  int64 sc = true ->
  0 <= sc ->
  sql_clear_of_ties
    (sql_mul
       (sql_div (Some (1.0 * real_of_int sc)%float) (Gradebook.max_points a))
       100) = true ->
  (forall g, In g (rows tg) ->
     ~ (Gradebook.g_student_id g = Gradebook.student_id s /\
        Gradebook.g_assignment_id g = Gradebook.assignment_id a)) ->
  exists (gid : Z) (c1 : Gradebook.conn) (gs1 gs2 : list Gradebook.grade),
    Homework.record_grade (Gradebook.student_id s) (Gradebook.assignment_id a)
      sc c = (Ok gid, c1) /\
    (forall g, In g (rows tg) -> Gradebook.grade_id g < gid) /\
    Homework.grades_of (Gradebook.student_id s) tg = gs1 ++ gs2 /\
    (forall g, In g gs1 ->
       Gradebook.g_assignment_id g < Gradebook.assignment_id a) /\
    (forall g, In g gs2 ->
       Gradebook.assignment_id a < Gradebook.g_assignment_id g) /\
    Homework.student_grade_report (Gradebook.student_id s) c
    = (Ok (Homework.report_rows ta gs1 ++ Homework.report_rows ta gs2), c) /\
    Homework.student_grade_report (Gradebook.student_id s) c1
    = (Ok (Homework.report_rows ta gs1
           ++ Homework.mkReportRow (Gradebook.assignment_title a) sc
                (Gradebook.max_points a)
                (sql_round1
                   (sql_mul
                      (sql_div (Some (1.0 * real_of_int sc)%float)
                         (Gradebook.max_points a)) 100))
              :: Homework.report_rows ta gs2), c1) /\
    forall sid, sid <> Gradebook.student_id s ->
      fst (Homework.student_grade_report sid c1)
      = fst (Homework.student_grade_report sid c).
Proof.
intros Hts Hta Htg Hix Hroom Hnd Hs Ha Hs64 Ha64 Hsc64 Hsc _ Hnew.
assert (Hes : existsb (Gradebook.has_student_id (Gradebook.student_id s))
                (rows ts) = true).
{ apply existsb_exists. exists s. split; [exact Hs|]. apply Z.eqb_refl. }
assert (Hea : existsb (Gradebook.has_assignment_id (Gradebook.assignment_id a))
                (rows ta) = true).
{ apply existsb_exists. exists a. split; [exact Ha|]. apply Z.eqb_refl. }
assert (Heg : existsb (Gradebook.is_grade (Gradebook.student_id s)
                         (Gradebook.assignment_id a)) (rows tg) = false).
{ apply existsb_false_iff. intros g Hg. unfold Gradebook.is_grade.
  apply andb_false_iff.
  destruct (Gradebook.g_student_id g =? Gradebook.student_id s) eqn:H1;
    [|left; reflexivity].
  right. apply Z.eqb_neq. intros H2. apply (Hnew g Hg).
  split; [apply Z.eqb_eq, H1 | exact H2]. }
set (gid := next_rowid Gradebook.grade_id tg).
set (g := Gradebook.mkGrade gid (Gradebook.student_id s)
            (Gradebook.assignment_id a) sc
            (if Gradebook.has_created_at tg then Some EmptyString else None)).
set (d1 := Gradebook.with_grades (data c) (append_row tg gid g)).
assert (Hins : Gradebook.insert_grade EmptyString (Gradebook.student_id s)
                 (Gradebook.assignment_id a) sc (foreign_keys c) (data c)
               = Ok (gid, d1)).
{ unfold Gradebook.insert_grade.
  rewrite Htg, Hts, Hta, Hes, Hea, Heg, Hs64, Ha64, Hsc64, Hroom.
  rewrite (proj2 (Z.ltb_ge sc 0) Hsc). simpl.
  destruct (foreign_keys c); reflexivity. }
assert (Hone : filter (Gradebook.has_assignment_id (Gradebook.assignment_id a))
                 (rows ta) = [a]).
{ exact (filter_key_unique Gradebook.assignment_id (rows ta) a Hnd Ha). }
set (found := filter (fun g0 => Gradebook.g_student_id g0
                                =? Gradebook.student_id s) (rows tg)).
assert (Hfound : forall x, In x found ->
          In x (rows tg) /\ Gradebook.g_student_id x = Gradebook.student_id s).
{ intros x Hx. apply filter_In in Hx. destruct Hx as [Hx Hid].
  split; [exact Hx | apply Z.eqb_eq, Hid]. }
destruct (order_by_appended Gradebook.grade_pair_leb grade_pair_leb_total
            grade_pair_leb_trans g found)
  as (gs1 & gs2 & Hbefore & Hafter & Hlow & Hhigh).
{ intros x Hx. destruct (Hfound x Hx) as [Hin Hid].
  unfold Gradebook.grade_pair_leb. subst g. simpl. rewrite Hid, Z.ltb_irrefl, Z.eqb_refl.
  simpl. intros Hle. apply Z.leb_le in Hle. apply Z.leb_gt.
  assert (Gradebook.g_assignment_id x <> Gradebook.assignment_id a).
  { intros Heq. apply (Hnew x Hin). split; assumption. }
  lia. }
assert (Hsorted : forall x, In x (gs1 ++ gs2) -> In x found).
{ intros x Hx. rewrite <- Hbefore in Hx.
  apply (Permutation_in x (order_by_perm Gradebook.grade_pair_leb found) Hx). }
assert (Hof : Homework.grades_of (Gradebook.student_id s) tg = gs1 ++ gs2).
{ unfold Homework.grades_of. rewrite Hix. exact Hbefore. }
exists gid. eexists. exists gs1, gs2.
split.
{ unfold Homework.record_grade, execute_dml. rewrite Hins. reflexivity. }
split.
{ intros g0 Hg0. apply (next_rowid_above Gradebook.grade_id tg g0 Hg0). }
split; [exact Hof|].
split.
{ intros x Hx. specialize (Hlow x Hx).
  destruct (Hfound x (Hsorted x (in_or_app _ _ _ (or_introl Hx)))) as [_ Hid].
  unfold Gradebook.grade_pair_leb in Hlow. subst g. simpl in Hlow.
  rewrite Hid, Z.ltb_irrefl, Z.eqb_refl in Hlow. simpl in Hlow.
  apply Z.leb_gt in Hlow. exact Hlow. }
split.
{ intros x Hx. specialize (Hhigh x Hx).
  destruct (Hfound x (Hsorted x (in_or_app _ _ _ (or_intror Hx)))) as [Hin Hid].
  unfold Gradebook.grade_pair_leb in Hhigh. subst g. simpl in Hhigh.
  rewrite Hid, Z.ltb_irrefl, Z.eqb_refl in Hhigh. simpl in Hhigh.
  apply Z.leb_le in Hhigh.
  assert (Gradebook.g_assignment_id x <> Gradebook.assignment_id a).
  { intros Heq. apply (Hnew x Hin). split; assumption. }
  lia. }
split.
{ unfold Homework.student_grade_report, execute_select,
    Homework.select_grade_report. rewrite Htg, Hta, Hs64, Hof. cbn [negb].
  unfold Homework.report_rows. rewrite flat_map_app. reflexivity. }
split.
- unfold Homework.student_grade_report, execute_select,
    Homework.select_grade_report. cbn [data d1 Gradebook.with_grades
    Gradebook.grades Gradebook.assignments]. rewrite Hta, Hs64. cbn [negb].
  unfold Homework.grades_of. cbn [rows indexes append_row]. rewrite Hix.
  cbn [existsb]. rewrite filter_app. cbn [filter].
  replace (Gradebook.g_student_id g =? Gradebook.student_id s) with true
    by (symmetry; apply Z.eqb_refl).
  fold found. rewrite Hafter.
  unfold Homework.report_rows. rewrite flat_map_app. cbn [flat_map].
  replace (Gradebook.g_assignment_id g) with (Gradebook.assignment_id a)
    by reflexivity.
  rewrite Hone. reflexivity.
- intros sid Hsid.
  unfold Homework.student_grade_report, execute_select,
    Homework.select_grade_report. cbn [data d1 Gradebook.with_grades
    Gradebook.grades Gradebook.assignments fst]. rewrite Htg, Hta.
  unfold Homework.grades_of. cbn [rows indexes append_row].
  rewrite filter_app. cbn [filter].
  replace (Gradebook.g_student_id g =? sid) with false
    by (symmetry; apply Z.eqb_neq; subst g; simpl; congruence).
  rewrite app_nil_r. reflexivity.
Qed.

(** The seeded gradebook of homework.py: Ava (id 1) gets 150 of the 200
    points of the midterm (id 3), the assignment of the largest id. *)
Lemma record_grade_then_report_witness :
  exists c1 : Gradebook.conn,
    Homework.record_grade 1 3 150 Sample.homework_conn = (Ok 8, c1) /\
    Homework.student_grade_report 1 c1
    = (Ok [Homework.mkReportRow "Quiz 1" 9 10 (Some 90%float);
           Homework.mkReportRow "Homework 1" 95 100 (Some 95%float);
           Homework.mkReportRow "Midterm" 150 200 (Some 75%float)], c1).
Proof.
destruct (record_grade_then_report Sample.homework_conn _ _ _
            (Gradebook.mkStudent 1 "Ava" "ava@example.com")
            (Gradebook.mkAssignment 3 "Midterm" 200) 150
            eq_refl eq_refl eq_refl eq_refl eq_refl)
  as (gid & c1 & gs1 & gs2 & Hrun & _).
- simpl. repeat constructor; simpl; intuition discriminate.
- simpl. auto.
- simpl. auto.
- reflexivity.
- reflexivity.
- reflexivity.
- lia.
- vm_compute. reflexivity.
- simpl. intros g H [H1 H2].
  repeat (destruct H as [<-|H]; [simpl in *; discriminate|]). contradiction.
- exists c1. vm_compute in Hrun. inversion Hrun; subst gid c1.
  split; vm_compute; reflexivity.
Defined.

(** ** The columns of the leaderboard *)

(** X7.  The rows of the leaderboard name their columns student and
    avg_percent.  Reading avg_percent from every row succeeds; reading
    student_name, the name the docstring of [leaderboard] and the test
    of homework.py give the first column, raises IndexError as soon as
    there is a row, and so it does on the seeded gradebook of the
    test. *)
Theorem leaderboard_has_no_student_name :
  (forall board : list Gradebook.board_row,
     Forall
       (fun r =>
          keys (Gradebook.board_row_values r) = ["student"; "avg_percent"]%string /\
          getitem (Gradebook.board_row_values r) "student"
          = Some (SqlText (Gradebook.br_student r)))
       board /\
     HomeworkCalls.avg_percents board
     = Ok (map (fun r => value_of_real (Gradebook.br_avg_percent r)) board) /\
     (board <> [] -> HomeworkCalls.student_names board = Raise IndexError)) /\
  (forall file : Gradebook.database,
     exists board : list Gradebook.board_row,
       Homework.seeded_leaderboard file = Ok board /\
       List.length board = 3%nat /\
       HomeworkCalls.student_names board = Raise IndexError).
Proof.
split.
- intros board. split; [|split].
  + apply Forall_forall. intros r _. split; reflexivity.
  + unfold HomeworkCalls.avg_percents.
    assert (Hall : all_some
                     (map (fun r => getitem (Gradebook.board_row_values r)
                                      "avg_percent") board)
                   = Some (map (fun r => value_of_real
                                           (Gradebook.br_avg_percent r)) board)).
    { induction board as [|r board IH]; [reflexivity|].
      simpl. simpl in IH. rewrite IH. reflexivity. }
    rewrite Hall. reflexivity.
  + destruct board as [|r board]; [congruence|]. intros _. reflexivity.
- intros file. eexists. split; [apply homework_seeded_leaderboard|].
  split; reflexivity.
Qed.

(** ** The edges of the rollback demo *)

(** X21.  [demo_transaction_rollback] needs a grade and a connection
    with no open transaction: on an empty grades table its assertion
    fails, and inside an open transaction, as [seed_data] leaves one
    until [conn.commit()], its BEGIN raises OperationalError, which the
    handler does not catch; in both cases the connection is left as it
    was. *)
Theorem demo_transaction_rollback_edges
  (c : Gradebook.conn) (tg : table Gradebook.grade) (now : string) :
  Gradebook.grades (data c) = Some tg ->
  (rows tg = [] ->
   Demo.demo_transaction_rollback now c = (Raise AssertionError, c)) /\
  (rows tg <> [] -> in_transaction c = true ->
   Demo.demo_transaction_rollback now c = (Raise OperationalError, c)).
Proof.
intros Htg. unfold Demo.demo_transaction_rollback, bind, execute_select,
  Demo.select_existing. rewrite Htg. split.
- intros ->. reflexivity.
- intros Hrows Htxn.
  destruct (order_by Gradebook.grade_pair_leb (rows tg)) as [|g gs] eqn:Hg.
  + exfalso. apply Hrows. apply Permutation_nil.
    rewrite <- Hg. apply order_by_perm.
  + simpl.
    unfold try_except, Demo.insert_duplicate, bind, execute_begin.
    unfold in_transaction in Htxn.
    destruct (txn c); [reflexivity | discriminate].
Qed.

(** The gradebook of demo.py after [create_schema] alone, and after
    [create_schema] and [seed_data] before [conn.commit()]. *)
Lemma demo_transaction_rollback_edges_witness :
  fst (Demo.demo_transaction_rollback "t" (mkConn Demo.empty_schema None true))
  = Raise AssertionError /\
  fst (Demo.demo_transaction_rollback "t"
         (mkConn (data Sample.demo_conn) (Some Demo.empty_schema) true))
  = Raise OperationalError.
Proof.
split.
- rewrite (proj1 (demo_transaction_rollback_edges
                    (mkConn Demo.empty_schema None true) _ "t" eq_refl)
             eq_refl).
  reflexivity.
- rewrite (proj2 (demo_transaction_rollback_edges
                    (mkConn (data Sample.demo_conn) (Some Demo.empty_schema)
                       true) _ "t" eq_refl)).
  + reflexivity.
  + simpl. discriminate.
  + reflexivity.
Defined.

(** X22.  The loop of [main] of homework.py over the students returns,
    on any gradebook that has its grades and assignments tables, one
    report for each student of the list, in the order of the list, under
    the title of the student's name, and leaves the connection as it
    was (the students being rows of a table, their ids are signed 64-bit
    integers); and [main] runs to its end whatever the database file
    held before: the students come ordered by name, each with the report
    of its grades in the order of the assignments, then the leaderboard
    from the highest average down. *)
Theorem homework_main_runs :
  (forall (c : Gradebook.conn) (tg : table Gradebook.grade)
          (ta : table Gradebook.assignment) (l : list Gradebook.student),
     Gradebook.grades (data c) = Some tg ->
     Gradebook.assignments (data c) = Some ta ->
     Forall (fun s => int64 (Gradebook.student_id s) = true) l ->
     exists reports : list (string * list Homework.report_row),
       HomeworkCalls.grade_reports l c = (Ok reports, c) /\
       Forall2
         (fun s report =>
            fst report
            = String.append "Grade report: " (Gradebook.student_name s) /\
            Homework.student_grade_report (Gradebook.student_id s) c
            = (Ok (snd report), c))
         l reports) /\
  (forall file : Gradebook.database,
     exists c : Gradebook.conn,
       HomeworkCalls.main file
       = (Ok ([Gradebook.mkStudent 1 "Ava" "ava@example.com";
               Gradebook.mkStudent 3 "Maya" "maya@example.com";
               Gradebook.mkStudent 2 "Noah" "noah@example.com"],
              [("Grade report: Ava"%string,
                [Homework.mkReportRow "Quiz 1" 9 10 (Some 90%float);
                 Homework.mkReportRow "Homework 1" 95 100 (Some 95%float)]);
               ("Grade report: Maya"%string,
                [Homework.mkReportRow "Quiz 1" 10 10 (Some 100%float);
                 Homework.mkReportRow "Homework 1" 92 100 (Some 92%float);
                 Homework.mkReportRow "Midterm" 180 200 (Some 90%float)]);
               ("Grade report: Noah"%string,
                [Homework.mkReportRow "Quiz 1" 7 10 (Some 70%float);
                 Homework.mkReportRow "Homework 1" 88 100 (Some 88%float)])],
              [Gradebook.mkBoardRow "Maya" (Some 94%float);
               Gradebook.mkBoardRow "Ava" (Some 92.5%float);
               Gradebook.mkBoardRow "Noah" (Some 79%float)]),
          c) /\
       txn c = None).
Proof.
split.
- intros c tg ta l Htg Hta Hids.
  induction l as [|s l IH].
  + exists []. split; [reflexivity | constructor].
  + inversion Hids as [|? ? Hs Hl]; subst.
    destruct (IH Hl) as [reports [Hrun Hall]].
    eexists. split.
    * simpl. unfold bind.
      unfold Homework.student_grade_report at 1, execute_select at 1,
        Homework.select_grade_report at 1.
      rewrite Htg, Hta, Hs, Hrun. reflexivity.
    * constructor; [|exact Hall]. split; [reflexivity|].
      unfold Homework.student_grade_report, execute_select,
        Homework.select_grade_report.
      rewrite Htg, Hta, Hs. reflexivity.
- intros file. eexists. split; [vm_compute; reflexivity | reflexivity].
Qed.

(** The seeded gradebook of homework.py: the reports of Noah, then
    Ava. *)
Lemma homework_main_runs_witness :
  exists reports : list (string * list Homework.report_row),
    HomeworkCalls.grade_reports
      [Gradebook.mkStudent 2 "Noah" "noah@example.com";
       Gradebook.mkStudent 1 "Ava" "ava@example.com"] Sample.homework_conn
    = (Ok reports, Sample.homework_conn) /\
    map fst reports = ["Grade report: Noah"; "Grade report: Ava"]%string.
Proof.
destruct (proj1 homework_main_runs Sample.homework_conn _ _
            [Gradebook.mkStudent 2 "Noah" "noah@example.com";
             Gradebook.mkStudent 1 "Ava" "ava@example.com"] eq_refl eq_refl)
  as [reports [Hrun Hall]]; [repeat constructor|].
exists reports. split; [exact Hrun|].
inversion Hall as [|s1 r1 l1 rs1 [Ht1 _] Hall1]; subst.
inversion Hall1 as [|s2 r2 l2 rs2 [Ht2 _] Hall2]; subst.
inversion Hall2; subst. simpl. rewrite Ht1, Ht2. reflexivity.
Defined.

(** A board of one row. *)
Lemma leaderboard_has_no_student_name_witness :
  HomeworkCalls.student_names [Gradebook.mkBoardRow "Maya" (Some 94%float)]
  = Raise IndexError.
Proof.
apply (proj2 (proj2 (proj1 leaderboard_has_no_student_name
                       [Gradebook.mkBoardRow "Maya" (Some 94%float)]))).
discriminate.
Defined.
